(** * arxiv-daily: the store reconciliation and rendering pipeline

    A shallow embedding of [arxiv-daily.py]: the entry formatter, the
    fetcher, the JSON store reconciler, the retention pruner and the
    parts of the renderer that order, parse and normalise entries.

    Conventions of the embedding.
    - A Python [str] is a [string]; a character is a code point below
      256, compared by its code as Python compares code points.
    - A Python [dict] is an association list in insertion order.  Keys
      of a real dict are unique; lemmas that need this say so through
      [NoDup] on the keys.
    - An exception is a value of [exn]; code that may raise returns a
      [result].
    - The store file is an optional text: [None] is a path with no file. *)

From Stdlib Require Import String Ascii List ZArith Lia Bool Arith.
From Stdlib Require Import Sorted Permutation.
From Stdlib Require OrderedTypeEx.
Import ListNotations.
Open Scope string_scope.

(** ** Python strings *)

Module PyStr.

(** [str.isspace] on one character, for code points below 256. *)
Definition isspace (c : ascii) : bool :=
  let n := nat_of_ascii c in
  ((9 <=? n)%nat && (n <=? 13)%nat)
  || ((28 <=? n)%nat && (n <=? 32)%nat)
  || (n =? 133)%nat || (n =? 160)%nat.

Fixpoint lstrip (s : string) : string :=
  match s with
  | EmptyString => EmptyString
  | String c r => if isspace c then lstrip r else s
  end.

Fixpoint rstrip (s : string) : string :=
  match s with
  | EmptyString => EmptyString
  | String c r =>
      match rstrip r with
      | EmptyString => if isspace c then EmptyString else String c EmptyString
      | r' => String c r'
      end
  end.

(** [s.strip()] *)
Definition strip (s : string) : string := rstrip (lstrip s).

(** [s.split(sep)] for a one-character separator. *)
Fixpoint split (sep : ascii) (s : string) : list string :=
  match s with
  | EmptyString => [EmptyString]
  | String c r =>
      if Ascii.eqb c sep then EmptyString :: split sep r
      else match split sep r with
           | h :: t => String c h :: t
           | [] => [String c EmptyString]
           end
  end.

(** [sep in s] for a one-character [sep]. *)
Fixpoint contains (c : ascii) (s : string) : bool :=
  match s with
  | EmptyString => false
  | String a r => Ascii.eqb a c || contains c r
  end.

Fixpoint find_from (c : ascii) (s : string) (pos : Z) : Z :=
  match s with
  | EmptyString => (-1)%Z
  | String a r => if Ascii.eqb a c then pos else find_from c r (pos + 1)%Z
  end.

(** [s.find(c)]: the index of the first [c], or -1. *)
Definition find (c : ascii) (s : string) : Z := find_from c s 0.

(** [s[lo:hi]] for indices that are not negative. *)
Definition slice (s : string) (lo hi : nat) : string :=
  substring lo (hi - lo) s.

(** [s[lo:]] *)
Fixpoint slice_from (s : string) (lo : nat) : string :=
  match lo, s with
  | O, _ => s
  | S n, String _ r => slice_from r n
  | S _, EmptyString => EmptyString
  end.

(** [s.replace('**', '')]: occurrences are removed from left to right,
    without overlap. *)
Fixpoint replace_bold (s : string) : string :=
  match s with
  | String "*" (String "*" r) => replace_bold r
  | String c r => String c (replace_bold r)
  | EmptyString => EmptyString
  end.

(** [s.replace(a, b)] for one-character [a] and [b]. *)
Fixpoint replace_char (a b : ascii) (s : string) : string :=
  match s with
  | EmptyString => EmptyString
  | String c r => String (if Ascii.eqb c a then b else c) (replace_char a b r)
  end.

(** the substring ['**'] occurs in [s] *)
Fixpoint has_bold (s : string) : bool :=
  match s with
  | String "*" ((String "*" _) as r) => true
  | String _ r => has_bold r
  | EmptyString => false
  end.

Definition first_char (s : string) : option ascii :=
  match s with String c _ => Some c | EmptyString => None end.

Fixpoint last_char (s : string) : option ascii :=
  match s with
  | EmptyString => None
  | String c EmptyString => Some c
  | String _ r => last_char r
  end.

(** string truthiness: [if s] *)
Definition nonempty (s : string) : bool :=
  match s with EmptyString => false | _ => true end.

End PyStr.

(** ** Python dicts, in insertion order *)

Module PyDict.

Definition dict (V : Type) : Type := list (string * V).

Section Ops.
Context {V : Type}.

Fixpoint get (d : dict V) (k : string) : option V :=
  match d with
  | [] => None
  | (k', v) :: r => if String.eqb k' k then Some v else get r k
  end.

(** [k in d] *)
Definition mem (d : dict V) (k : string) : bool :=
  match get d k with Some _ => true | None => false end.

(** [d[k] = v]: an existing key keeps its position, a new key goes
    to the end. *)
Fixpoint set (d : dict V) (k : string) (v : V) : dict V :=
  match d with
  | [] => [(k, v)]
  | (k', v') :: r =>
      if String.eqb k' k then (k', v) :: r else (k', v') :: set r k v
  end.

(** [del d[k]] *)
Fixpoint del (d : dict V) (k : string) : dict V :=
  match d with
  | [] => []
  | (k', v') :: r => if String.eqb k' k then r else (k', v') :: del r k
  end.

(** [d.update(other)] *)
Definition update (d other : dict V) : dict V :=
  fold_left (fun acc kv => set acc (fst kv) (snd kv)) other d.

Definition keys (d : dict V) : list string := map fst d.
Definition values (d : dict V) : list V := map snd d.
Definition len (d : dict V) : nat := length d.

(** dict truthiness: [if d] *)
Definition nonempty (d : dict V) : bool :=
  match d with [] => false | _ => true end.

(** the invariant of a real dict *)
Definition wf (d : dict V) : Prop := NoDup (keys d).
End Ops.

End PyDict.

Import PyDict.

(** ** Exceptions *)

Inductive exn : Type :=
| FileNotFoundError
| JSONDecodeError
| OverflowError
| IndexError
| TypeError
| KeyError
| ProviderError (msg : string).

Inductive result (A : Type) : Type :=
| Ok (a : A)
| Raise (e : exn).
Arguments Ok {A} a.
Arguments Raise {A} e.

Definition bind {A B : Type} (r : result A) (k : A -> result B) : result B :=
  match r with
  | Ok a => k a
  | Raise e => Raise e
  end.

Notation "x <- r ;; k" := (bind r (fun x => k))
  (at level 61, r at next level, right associativity).

(** ** Dates: [datetime.date] on the proleptic Gregorian calendar *)

Module PyDate.

Record date : Type := mkdate { year : Z; month : Z; day : Z }.

Definition is_leap (y : Z) : bool :=
  ((y mod 4 =? 0) && (negb (y mod 100 =? 0) || (y mod 400 =? 0)))%Z.

Definition days_in_month (y m : Z) : Z :=
  (if m =? 2 then (if is_leap y then 29 else 28)
   else if (m =? 4) || (m =? 6) || (m =? 9) || (m =? 11) then 30
   else 31)%Z.

Definition days_before_year (y : Z) : Z :=
  (let p := y - 1 in p * 365 + p / 4 - p / 100 + p / 400)%Z.

Fixpoint days_before_month_aux (y : Z) (n : nat) : Z :=
  match n with
  | O => 0%Z
  | S k => (days_before_month_aux y k + days_in_month y (Z.of_nat n))%Z
  end.

(** days of the year that precede the first of month [m] *)
Definition days_before_month (y m : Z) : Z :=
  days_before_month_aux y (Z.to_nat (m - 1)).

(** [d.toordinal()]: 1 is 0001-01-01 *)
Definition toordinal (d : date) : Z :=
  (days_before_year (year d) + days_before_month (year d) (month d) + day d)%Z.

(** the check of the [date] constructor *)
Definition valid (d : date) : bool :=
  ((1 <=? year d) && (year d <=? 9999)
   && (1 <=? month d) && (month d <=? 12)
   && (1 <=? day d) && (day d <=? days_in_month (year d) (month d)))%Z.

Definition digit_char (n : Z) : ascii := ascii_of_nat (48 + Z.to_nat (n mod 10)).

(** ["%02d"] and ["%04d"] on the values a date holds *)
Definition fmt2 (n : Z) : string :=
  String (digit_char (n / 10)) (String (digit_char n) EmptyString).
Definition fmt4 (n : Z) : string :=
  String (digit_char (n / 1000)) (String (digit_char (n / 100)) (fmt2 n)).

(** [str(d)], the ISO form YYYY-MM-DD *)
Definition to_str (d : date) : string :=
  fmt4 (year d) ++ "-" ++ fmt2 (month d) ++ "-" ++ fmt2 (day d).

(** [%Y] as the C library prints it: the GNU C library writes the year
    without padding, so a year below 1000 has fewer than four digits. *)
Definition fmt_year (y : Z) : string :=
  (if y <? 10 then String (digit_char y) EmptyString
   else if y <? 100 then fmt2 y
   else if y <? 1000 then String (digit_char (y / 100)) (fmt2 y)
   else fmt4 y)%Z.

(** [d.strftime("%Y%m%d")] *)
Definition strftime_Ymd (d : date) : string :=
  fmt_year (year d) ++ fmt2 (month d) ++ fmt2 (day d).

Definition digit_val (c : ascii) : option Z :=
  let n := nat_of_ascii c in
  if ((48 <=? n) && (n <=? 57))%nat then Some (Z.of_nat n - 48)%Z else None.

(** The directive [%m]: the alternatives [1[0-2]], [0[1-9]], [[1-9]],
    tried in this order.  The second character of a two-character
    alternative is a digit, so when the hyphen that must follow is
    missing, falling back to the one-character alternative cannot
    succeed either: the first alternative that matches decides. *)
Definition parse_month (s : string) : option (Z * string) :=
  match s with
  | String c1 r1 =>
      let two :=
        match r1 with
        | String c2 r2 =>
            match digit_val c1, digit_val c2 with
            | Some 1%Z, Some b => if (b <=? 2)%Z then Some ((10 + b)%Z, r2) else None
            | Some 0%Z, Some b => if (1 <=? b)%Z then Some (b, r2) else None
            | _, _ => None
            end
        | EmptyString => None
        end in
      match two with
      | Some res => Some res
      | None =>
          match digit_val c1 with
          | Some a => if (1 <=? a)%Z then Some (a, r1) else None
          | None => None
          end
      end
  | EmptyString => None
  end.

(** The directive [%d]: [3[0-1]], [[1-2]\d], [0[1-9]], [[1-9]] and a
    space followed by [[1-9]], tried in this order; it ends the
    pattern, so the first alternative that matches is the match. *)
Definition parse_day (s : string) : option (Z * string) :=
  match s with
  | String c1 r1 =>
      let two :=
        match r1 with
        | String c2 r2 =>
            match digit_val c1, digit_val c2 with
            | Some 3%Z, Some b => if (b <=? 1)%Z then Some ((30 + b)%Z, r2) else None
            | Some 1%Z, Some b => Some ((10 + b)%Z, r2)
            | Some 2%Z, Some b => Some ((20 + b)%Z, r2)
            | Some 0%Z, Some b => if (1 <=? b)%Z then Some (b, r2) else None
            | _, _ => None
            end
        | EmptyString => None
        end in
      match two with
      | Some res => Some res
      | None =>
          match digit_val c1 with
          | Some a => if (1 <=? a)%Z then Some (a, r1) else None
          | None =>
              if Ascii.eqb c1 " " then
                match r1 with
                | String c2 r2 =>
                    match digit_val c2 with
                    | Some b => if (1 <=? b)%Z then Some (b, r2) else None
                    | None => None
                    end
                | EmptyString => None
                end
              else None
          end
      end
  | EmptyString => None
  end.

(** [datetime.strptime(s, '%Y-%m-%d').date()]; [None] stands for the
    [ValueError] of a string that does not match, of unconverted
    trailing data and of a day that is not on the calendar. *)
Definition strptime (s : string) : option date :=
  match s with
  | String y1 (String y2 (String y3 (String y4 (String "-" r)))) =>
      match digit_val y1, digit_val y2, digit_val y3, digit_val y4 with
      | Some a, Some b, Some c, Some d =>
          match parse_month r with
          | Some (m, String "-" r') =>
              match parse_day r' with
              | Some (dd, EmptyString) =>
                  let res := mkdate (1000 * a + 100 * b + 10 * c + d) m dd in
                  if valid res then Some res else None
              | _ => None
              end
          | _ => None
          end
      | _, _, _, _ => None
      end
  | _ => None
  end.

End PyDate.

Import PyDate.


(** ** The fetcher: [get_authors] and [get_daily_papers] *)

Definition newline : ascii := "010"%char.

(** One author of a provider result; [str(author)] is the name. *)
Record Author : Type := mkAuthor { author_name : string }.

(** One result of the provider, with the fields the fetcher reads;
    [published] is [result.published.date()]. *)
Record Result : Type := mkResult {
  short_id : string;
  title : string;
  entry_id : string;
  authors : list Author;
  published : date;
  categories : list string;
  comment : option string;
  summary : string
}.

(** What [get_authors] returns: a string in the joined mode and for an
    empty list, the author object itself in the last-author mode. *)
Inductive author_output : Type :=
| OutStr (s : string)
| OutAuthor (a : Author).

(** ["{}".format(x)] *)
Definition format_output (x : author_output) : string :=
  match x with
  | OutStr s => s
  | OutAuthor a => author_name a
  end.

(** [authors[-1]], which raises on an empty list *)
Definition index_last (authors : list Author) : result Author :=
  match rev authors with
  | a :: _ => Ok a
  | [] => Raise IndexError
  end.

(** list truthiness: [if authors] *)
Definition truthy {A : Type} (l : list A) : bool :=
  match l with [] => false | _ => true end.

Definition get_authors (authors : list Author) (last_author : bool)
  : result author_output :=
  if negb last_author then
    Ok (OutStr (String.concat ", " (map author_name authors)))
  else if truthy authors then
    a <- index_last authors ;; Ok (OutAuthor a)
  else Ok (OutStr EmptyString).

Definition arxiv_url : string := "http://arxiv.org/".

(** The key of an entry: the id up to its first ['v'] (source lines
    193 to 198). *)
Definition paper_key (paper_id : string) : string :=
  let ver_pos := PyStr.find "v" paper_id in
  if (ver_pos =? -1)%Z then paper_id
  else PyStr.slice paper_id 0 (Z.to_nat ver_pos).

(** The query sent to the provider. *)
Definition full_query (query : string) (start_date end_date : option date)
  : string :=
  match start_date, end_date with
  | Some s, Some e =>
      "(" ++ query ++ ") AND submittedDate:[" ++ strftime_Ymd s ++ " TO "
          ++ strftime_Ymd e ++ "]"
  | Some s, None =>
      "(" ++ query ++ ") AND submittedDate:[" ++ strftime_Ymd s ++ " TO 20301231]"
  | None, Some e =>
      "(" ++ query ++ ") AND submittedDate:[19910101 TO " ++ strftime_Ymd e ++ "]"
  | None, None => query
  end.

(** The two format strings of the table row. *)
Definition format_row (show_abstract : bool) (paper_date : date)
  (paper_title paper_last_author categories_str key paper_url
     comments_str abstract_str : string) : string :=
  "|**" ++ to_str paper_date ++ "**|**" ++ paper_title ++ "**|"
    ++ paper_last_author ++ "|" ++ categories_str
    ++ "|[" ++ key ++ "](" ++ paper_url ++ ")|" ++ comments_str ++ "|"
    ++ (if show_abstract then abstract_str ++ "|" else EmptyString)
    ++ String newline EmptyString.

Definition categories_str_of (r : Result) : string :=
  if truthy (categories r) then String.concat "; " (categories r)
  else EmptyString.

Definition comments_str_of (r : Result) : string :=
  match comment r with
  | Some c => if PyStr.nonempty c then c else EmptyString
  | None => EmptyString
  end.

Definition abstract_str_of (show_abstract : bool) (r : Result) : string :=
  let abstract := if show_abstract then summary r else EmptyString in
  if PyStr.nonempty abstract
  then PyStr.strip (PyStr.replace_char newline " " abstract)
  else EmptyString.

(** The body of the loop over the results: the key and the row that
    [content[paper_key] = ...] stores for one result. *)
Definition entry_of (show_abstract : bool) (r : Result)
  : result (string * string) :=
  let paper_id := short_id r in
  let paper_title := title r in
  paper_authors <- get_authors (authors r) false ;;
  paper_last_author <- get_authors (authors r) true ;;
  let paper_date := published r in
  let key := paper_key paper_id in
  let paper_url := arxiv_url ++ "abs/" ++ key in
  Ok (key,
      format_row show_abstract paper_date paper_title
        (format_output paper_last_author) (categories_str_of r)
        key paper_url (comments_str_of r) (abstract_str_of show_abstract r)).

(** What iterating [client.results(search)] does: the generator yields
    a result, stops, or raises on the next request. *)
Inductive stream : Type :=
| Stop
| Yield (r : Result) (rest : stream)
| Fail (e : exn).

(** The provider: the stream it answers to a query and a result limit. *)
Definition provider : Type := string -> nat -> stream.

(** The [for] loop inside the [try]: the mapping built so far, and the
    exception that ended the loop, if any. *)
Fixpoint consume (show_abstract : bool) (s : stream) (content : dict string)
  : dict string * option exn :=
  match s with
  | Stop => (content, None)
  | Fail e => (content, Some e)
  | Yield r rest =>
      match entry_of show_abstract r with
      | Ok (key, row) => consume show_abstract rest (set content key row)
      | Raise e => (content, Some e)
      end
  end.

(** [get_daily_papers]: [content] is created before the [try], the
    handler only logs, and [{topic: content}] is returned on both
    paths.  The second component is the exception the handler caught. *)
Definition get_daily_papers_log (client : provider) (topic query : string)
  (max_results : nat) (start_date end_date : option date)
  (show_abstract : bool) : dict (dict string) * option exn :=
  let content := [] in
  let '(content, caught) :=
    consume show_abstract
      (client (full_query query start_date end_date) max_results) content in
  ([(topic, content)], caught).

Definition get_daily_papers (client : provider) (topic query : string)
  (max_results : nat) (start_date end_date : option date)
  (show_abstract : bool) : dict (dict string) :=
  fst (get_daily_papers_log client topic query max_results
         start_date end_date show_abstract).

(** ** The store and its file *)

(** topic -> (entry key -> formatted row) *)
Definition store : Type := dict (dict string).

(** The text of the store file: empty, a JSON document that decodes to
    a store ([json.dump] writes one and [json.loads] reads it back with
    the keys in file order), or a text that is not JSON. *)
Inductive file_text : Type :=
| Blank
| Doc (m : store)
| Malformed.

(** [None]: there is no file at the path. *)
Definition file : Type := option file_text.

(** [sum(len(papers) for papers in m.values())] *)
Definition total_papers (m : store) : nat := list_sum (map len (values m)).

(** The row stored for a topic and a key. *)
Definition entry (m : store) (topic key : string) : option string :=
  match get m topic with
  | Some papers => get papers key
  | None => None
  end.

(** ** The reconciler *)

Definition remove_old_keywords (json_data : store)
  (current_keywords : dict string) : store * dict nat :=
  let json_keywords := keys json_data in
  let current_keyword_names := keys current_keywords in
  let keywords_to_remove :=
    filter (fun kw => negb (existsb (String.eqb kw) current_keyword_names))
      json_keywords in
  fold_left
    (fun st keyword =>
       let removed_papers_count :=
         match get (fst st) keyword with Some p => len p | None => O end in
       (del (fst st) keyword, set (snd st) keyword removed_papers_count))
    keywords_to_remove (json_data, []).

(** The state of the update loop: the store, [new_papers_count] and
    [category_updates]. *)
Definition merge_state : Type := store * nat * dict nat.

(** One pass of the inner loop, for [keyword] and [papers = data[keyword]]. *)
Definition merge_step (clear_existing : bool) (st : merge_state)
  (kp : string * dict string) : merge_state :=
  let '(json_data, new_papers_count, category_updates) := st in
  let '(keyword, papers) := kp in
  let new_papers_count := new_papers_count + len papers in
  match get json_data keyword with
  | Some current =>
      if clear_existing then
        (set json_data keyword papers, new_papers_count,
         set category_updates keyword (len papers))
      else
        let before_count := len current in
        let merged := update current papers in
        let after_count := len merged in
        let added_count := after_count - before_count in
        (set json_data keyword merged, new_papers_count,
         if (0 <? added_count)%nat then set category_updates keyword added_count
         else category_updates)
  | None =>
      (set json_data keyword papers, new_papers_count,
       set category_updates keyword (len papers))
  end.

(** The two nested loops visit the items of each mapping of the batch
    in order. *)
Definition merge_all (clear_existing : bool) (data_dict : list store)
  (st : merge_state) : merge_state :=
  fold_left (merge_step clear_existing) (concat data_dict) st.

(** Reading the store at the start of [update_json_file]. *)
Definition load_existing (f : file) (clear_existing : bool)
  : result (store * nat) :=
  if clear_existing then Ok ([], O)
  else match f with
       | None => Raise FileNotFoundError
       | Some Blank => Ok ([], O)
       | Some (Doc m) => Ok (m, total_papers m)
       | Some Malformed => Raise JSONDecodeError
       end.

(** [update_json_file]: the file afterwards, and the returned tuple
    [(existing_count, updated_count, new_papers_count, category_updates)]
    or the exception raised. *)
Definition update_json_file (f : file) (data_dict : list store)
  (current_keywords : dict string) (clear_existing : bool)
  : file * result (nat * nat * nat * dict nat) :=
  match load_existing f clear_existing with
  | Raise e => (f, Raise e)
  | Ok (m, existing_count) =>
      let json_data :=
        if negb clear_existing && (0 <? existing_count)%nat
        then fst (remove_old_keywords m current_keywords)
        else m in
      let '(json_data, new_papers_count, category_updates) :=
        merge_all clear_existing data_dict (json_data, O, []) in
      (Some (Doc json_data),
       Ok (existing_count, total_papers json_data, new_papers_count,
           category_updates))
  end.

(** ** The retention pruner *)

(** [parse_date_from_content]: [None] is the value the source returns
    when the row has fewer than three fields and when [strptime]
    raises. *)
Definition parse_date_from_content (paper_content : string) : option date :=
  if PyStr.contains "|" paper_content then
    let parts := PyStr.split "|" paper_content in
    if (3 <=? length parts)%nat then
      let date_str := PyStr.replace_bold (PyStr.strip (nth 1 parts EmptyString)) in
      strptime date_str
    else None
  else None.

(** The test of the pruning loop, [paper_date is None or paper_date >=
    cutoff_date].  The cutoff is kept as its ordinal: dates compare as
    their ordinals do. *)
Definition keeps (cutoff : Z) (paper_content : string) : bool :=
  match parse_date_from_content paper_content with
  | None => true
  | Some paper_date => (cutoff <=? toordinal paper_date)%Z
  end.

(** One pass of the inner loop, which fills [papers_to_keep]. *)
Definition keep_step (cutoff : Z) (keep : dict string) (kv : string * string)
  : dict string :=
  if keeps cutoff (snd kv) then set keep (fst kv) (snd kv) else keep.

Definition papers_to_keep (cutoff : Z) (papers : dict string) : dict string :=
  fold_left (keep_step cutoff) papers [].

(** One pass of the outer loop: [data[category] = papers_to_keep]. *)
Definition prune_step (cutoff : Z) (d : store) (kv : string * dict string)
  : store :=
  set d (fst kv) (papers_to_keep cutoff (snd kv)).

Definition prune_all (cutoff : Z) (data : store) : store :=
  fold_left (prune_step cutoff) data data.

(** [cleanup_old_papers], with [today] for [datetime.now().date()].
    Subtracting the [timedelta] raises [OverflowError] when the result
    would precede 0001-01-01, whose ordinal is 1. *)
Definition cleanup_old_papers (today : date) (f : file) (keep_days : Z)
  : file * result (nat * nat) :=
  if (keep_days <=? 0)%Z then (f, Ok (O, O))
  else
    let cutoff := (toordinal today - keep_days)%Z in
    if (cutoff <? 1)%Z then (f, Raise OverflowError)
    else match f with
         | None => (f, Raise FileNotFoundError)
         | Some Blank => (f, Ok (O, O))
         | Some Malformed => (f, Raise JSONDecodeError)
         | Some (Doc data) =>
             let total_papers_before := total_papers data in
             let data' := prune_all cutoff data in
             (Some (Doc data'), Ok (total_papers_before, total_papers data'))
         end.

(** ** The renderer *)

(** The longest prefix of [s] that stays on the line and ends with
    ['$']: its length, if there is one.  This is what the greedy [.*]
    followed by [\$] matches at the start of [s]. *)
Fixpoint last_dollar (s : string) : option nat :=
  match s with
  | EmptyString => None
  | String c r =>
      if Ascii.eqb c newline then None
      else match last_dollar r with
           | Some n => Some (S n)
           | None => if Ascii.eqb c "$" then Some 1 else None
           end
  end.

(** [re.search(r"\$.*\$", s).span()], [pos] being the offset of [s]. *)
Fixpoint search_math (s : string) (pos : nat) : option (nat * nat) :=
  match s with
  | EmptyString => None
  | String c r =>
      if Ascii.eqb c "$" then
        match last_dollar r with
        | Some n => Some (pos, pos + 1 + n)
        | None => search_math r (S pos)
        end
      else search_math r (S pos)
  end.

(** the test of [pretty_math] on the character next to the span *)
Definition needs_space (c : option ascii) : bool :=
  match c with
  | Some a => negb (PyStr.isspace a) && negb (Ascii.eqb a "*")
  | None => false
  end.

Definition pretty_math (s : string) : string :=
  match search_math s 0 with
  | None => s
  | Some (math_start, math_end) =>
      let matched := PyStr.slice s math_start math_end in
      let math_content := PyStr.slice matched 1 (String.length matched - 1) in
      let before_math := PyStr.slice s 0 math_start in
      let after_math := PyStr.slice_from s math_end in
      let space_before :=
        if needs_space (PyStr.last_char before_math) then " " else EmptyString in
      let space_after :=
        if needs_space (PyStr.first_char after_math) then " " else EmptyString in
      before_math ++ space_before ++ "$" ++ PyStr.strip math_content ++ "$"
        ++ space_after ++ after_math
  end.

Fixpoint insert_desc (k : string) (l : list string) : list string :=
  match l with
  | [] => [k]
  | h :: t =>
      match String.compare h k with
      | Gt => h :: insert_desc k t
      | _ => k :: l
      end
  end.

(** [keys.sort(reverse=True)] *)
Definition sort_desc (l : list string) : list string :=
  fold_right insert_desc [] l.

(** [sort_papers]: the mapping rebuilt in descending order of its keys. *)
Definition sort_papers (papers : dict string) : dict string :=
  fold_left
    (fun output key =>
       match get papers key with
       | Some v => set output key v
       | None => output
       end)
    (sort_desc (keys papers)) [].

(** The fields the styled renderer reads back from a row. *)
Record card : Type := mkcard {
  card_date : string;
  card_title : string;
  card_last_author : string;
  card_categories : string;
  card_pdf_link : string;
  card_comments : string;
  card_abstract : string
}.

(** The parse at source lines 593 to 611; [None] when the row has
    fewer than seven parts and nothing is written for it. *)
Definition parse_row (show_abstract : bool) (v : string) : option card :=
  let parts := PyStr.split "|" (PyStr.strip v) in
  let part i := nth i parts EmptyString in
  if (7 <=? length parts)%nat then
    Some (mkcard
            (PyStr.strip (PyStr.replace_bold (part 1%nat)))
            (PyStr.strip (PyStr.replace_bold (part 2%nat)))
            (PyStr.strip (part 3%nat))
            (PyStr.strip (part 4%nat))
            (PyStr.strip (part 5%nat))
            (PyStr.strip (part 6%nat))
            (if show_abstract && (8 <=? length parts)%nat
             then PyStr.strip (part 7%nat) else EmptyString))
  else None.

(** What is written for one entry: a card in the styled list, whose
    title goes through [pretty_math], or the normalised row in the
    table. *)
Inductive item : Type :=
| Card (c : card) (title_shown : string)
| Row (text : string).

(** The entries of one topic, in the order they are written. *)
Definition render_topic (to_web show_abstract : bool)
  (day_content : dict string) : list item :=
  let day_content := sort_papers day_content in
  if negb to_web then
    flat_map
      (fun kv =>
         match parse_row show_abstract (snd kv) with
         | Some c => [Card c (pretty_math (card_title c))]
         | None => []
         end)
      day_content
  else map (fun kv => Row (pretty_math (snd kv))) day_content.

(** [json_to_md], as the sequence of topic sections it writes, each
    with its entries in order; the fixed markup around them is left
    out.  Topics with no entry are skipped. *)
Definition json_to_md (f : file) (to_web show_abstract : bool)
  : result (list (string * list item)) :=
  data <- match f with
          | None => Raise FileNotFoundError
          | Some Blank => Ok []
          | Some (Doc data) => Ok data
          | Some Malformed => Raise JSONDecodeError
          end ;;
  Ok (flat_map
        (fun kv =>
           if PyDict.nonempty (snd kv)
           then [(fst kv, render_topic to_web show_abstract (snd kv))]
           else [])
        data).

(** the dates of the entries of a section, in the order written *)
Definition item_date (i : item) : string :=
  match i with
  | Card c _ => card_date c
  | Row text => PyStr.strip (PyStr.replace_bold (nth 1 (PyStr.split "|" text) EmptyString))
  end.

(** ** Well-formed stores and sample data *)

(** Keys are unique at both levels, as in any decoded JSON object. *)
Definition store_wf (m : store) : Prop :=
  wf m /\ forall topic papers, In (topic, papers) m -> wf papers.

(** Each topic mapping of a fetched batch has unique keys. *)
Definition batch_wf (data_dict : list store) : Prop :=
  forall topic papers, In (topic, papers) (concat data_dict) -> wf papers.

(** Every topic of the batch is a configured topic, as in every batch
    the orchestrator collects. *)
Definition batch_configured (data_dict : list store)
  (current_keywords : dict string) : Prop :=
  forall topic papers,
    In (topic, papers) (concat data_dict) -> In topic (keys current_keywords).

(** Two results as the provider returns them: one with an identifier of
    the scheme used before April 2007, one with a current identifier. *)
Definition result_1999 : Result :=
  mkResult "hep-th/9901001v1" "Old paper" "http://arxiv.org/abs/hep-th/9901001v1"
    [mkAuthor "A. Author"] (mkdate 1999 1 4) ["hep-th"] None EmptyString.

Definition result_2024 : Result :=
  mkResult "2403.00001v1" "New paper" "http://arxiv.org/abs/2403.00001v1"
    [mkAuthor "B. Author"] (mkdate 2024 3 1) ["cs.RO"] None EmptyString.

Definition row_1999 : string :=
  "|**1999-01-04**|**Old paper**|A. Author|hep-th|[hep-th/9901001](http://arxiv.org/abs/hep-th/9901001)||"
    ++ String newline EmptyString.

Definition row_2024 : string :=
  "|**2024-03-01**|**New paper**|B. Author|cs.RO|[2403.00001](http://arxiv.org/abs/2403.00001)||"
    ++ String newline EmptyString.

(** A provider that answers with the 2024 result and then fails on the
    request for the next page. *)
Definition flaky_client : provider :=
  fun _ _ => Yield result_2024 (Fail (ProviderError "HTTP 503")).

(** A provider that answers with both results, the latest first. *)
Definition two_results_client : provider :=
  fun _ _ => Yield result_2024 (Yield result_1999 Stop).

(** The store of the retention example: rows dated 2023-01-01 and
    2024-01-01, and a row whose date field is not a date. *)
Definition retention_store : store :=
  [("SLAM",
    [("2301.00001", "|**2023-01-01**|**Early**|A. Author|cs.RO|[2301.00001](http://arxiv.org/abs/2301.00001)||");
     ("2401.00001", "|**2024-01-01**|**Late**|B. Author|cs.RO|[2401.00001](http://arxiv.org/abs/2401.00001)||");
     ("2401.00002", "|**soon**|**Undated**|C. Author|cs.RO|[2401.00002](http://arxiv.org/abs/2401.00002)||")]);
   ("NeRF", [])].

Definition retention_today : date := mkdate 2024 1 15.

(** Decidable forms of the well-formedness conditions. *)
Fixpoint nodupb (l : list string) : bool :=
  match l with
  | [] => true
  | x :: r => negb (existsb (String.eqb x) r) && nodupb r
  end.

Definition store_wfb (m : store) : bool :=
  nodupb (keys m) && forallb (fun kv => nodupb (keys (snd kv))) m.

Definition batch_wfb (data_dict : list store) : bool :=
  forallb (fun kv => nodupb (keys (snd kv))) (concat data_dict).

(** A result whose title holds the field delimiter, as titles with
    an absolute value do. *)
Definition result_pipe : Result :=
  mkResult "2403.00002v1" "Measurement of |V_ub|"
    "http://arxiv.org/abs/2403.00002v1" [mkAuthor "C. Author"]
    (mkdate 2024 3 2) ["hep-ex"] None EmptyString.

(** The last author as the row shows it. *)
Definition last_author_str (r : Result) : string :=
  match get_authors (authors r) true with
  | Ok out => format_output out
  | Raise _ => EmptyString
  end.

(** A row seen as its fields: each field follows a delimiter, and a
    delimiter and a line break close the row. *)
Definition row_of_fields (fields : list string) : string :=
  fold_right (fun f acc => String "|" (f ++ acc))
    (String "|" (String newline EmptyString)) fields.

(** The same without the closing line break. *)
Definition body_of_fields (fields : list string) : string :=
  fold_right (fun f acc => String "|" (f ++ acc))
    (String "|" EmptyString) fields.

(** Characters that are neither whitespace nor a delimiter nor [*]. *)
Definition plain (c : ascii) : bool :=
  negb (PyStr.isspace c) && negb (Ascii.eqb c "|") && negb (Ascii.eqb c "*").

Fixpoint all_plain (s : string) : bool :=
  match s with
  | EmptyString => true
  | String c r => plain c && all_plain r
  end.

(** A batch for the topics SLAM and NeRF, and the configuration that
    names both. *)
Definition sample_batch : list store :=
  [[("SLAM", [("2403.00001", row_2024)])]; [("NeRF", [])]].

Definition sample_keywords : dict string :=
  [("SLAM", "slam"); ("NeRF", "nerf")].

(** A batch for a topic that the configuration does not name. *)
Definition unconfigured_batch : list store :=
  [[("Robotics", [("2403.00001", row_2024)])]].

(** ** Notions for the merge *)

(** The store held by a state of the update loop. *)
Definition store_of (st : merge_state) : store := fst (fst st).

(** [topic] is one of the configured topics. *)
Definition configured (current_keywords : dict string) (topic : string) : bool :=
  existsb (String.eqb topic) (keys current_keywords).

Definition is_configured (current_keywords : dict string)
  (kv : string * dict string) : bool :=
  configured current_keywords (fst kv).

(** The row that a sequence of fetched mappings ends up giving to a
    topic and a key: the one of the last mapping of that topic that
    has the key. *)
Fixpoint last_row (items : list (string * dict string)) (topic key : string)
  : option string :=
  match items with
  | [] => None
  | (t, papers) :: rest =>
      match last_row rest topic key with
      | Some row => Some row
      | None => if String.eqb t topic then get papers key else None
      end
  end.

(** The mapping that the update loop leaves at a topic, from the
    mapping [acc] found there at the start: the first fetched mapping
    of a topic that is not in the store is stored itself, every other
    one is merged into what is there. *)
Fixpoint merged_topic (topic : string) (items : list (string * dict string))
  (acc : option (dict string)) : option (dict string) :=
  match items with
  | [] => acc
  | (t, papers) :: rest =>
      merged_topic topic rest
        (if String.eqb t topic
         then Some (match acc with
                    | Some current => update current papers
                    | None => papers
                    end)
         else acc)
  end.

(** The number of entries of a topic, 0 for a topic that is absent. *)
Definition len_at (m : store) (topic : string) : nat :=
  match get m topic with
  | Some papers => len papers
  | None => O
  end.

(** The store has every topic and every key of the fetched mappings. *)
Definition covers (m : store) (items : list (string * dict string)) : Prop :=
  forall topic papers,
    In (topic, papers) items ->
    exists current,
      get m topic = Some current
      /\ forall key, In key (keys papers) -> In key (keys current).

(** Topics that are not configured have no entry. *)
Definition stale_empty (current_keywords : dict string) (m : store) : Prop :=
  forall topic papers,
    In (topic, papers) m -> configured current_keywords topic = false ->
    papers = [].

(** ** The publish date of a row *)

Definition one_digit (n : Z) : string := String (digit_char n) EmptyString.

(** The texts that the directive [%m] reads as the month [m]: two
    digits, and below 10 also the digit alone. *)
Definition month_texts (m : Z) : list string :=
  if (m <? 10)%Z then [fmt2 m; one_digit m] else [fmt2 m].

(** The texts that the directive [%d] reads as the day [d]: two digits,
    and below 10 also the digit alone or after a space. *)
Definition day_texts (d : Z) : list string :=
  if (d <? 10)%Z then [fmt2 d; one_digit d; String " " (one_digit d)]
  else [fmt2 d].

(** The texts of the form YYYY-MM-DD for the date [d]: a year of four
    digits, a hyphen, the month, a hyphen, the day. *)
Definition date_texts (d : date) : list string :=
  flat_map
    (fun m => map (fun dd => fmt4 (year d) ++ "-" ++ m ++ "-" ++ dd)
                (day_texts (day d)))
    (month_texts (month d)).

(** [row] has the calendar date [d] as its publish date: the second of
    its fields delimited by [|], trimmed and with the bold markup
    removed, is a text of [d]. *)
Definition row_dated (row : string) (d : date) : Prop :=
  valid d = true
  /\ exists f0 f1 rest,
       row = f0 ++ "|" ++ f1 ++ "|" ++ rest
       /\ PyStr.contains "|" f0 = false
       /\ PyStr.contains "|" f1 = false
       /\ In (PyStr.replace_bold (PyStr.strip f1)) (date_texts d).

(** ** The configuration: [load_config] *)

(** [s.split()]: the words of [s], separated by runs of whitespace. *)
Fixpoint split_ws (s : string) : list string :=
  match s with
  | EmptyString => []
  | String c r =>
      if PyStr.isspace c then split_ws r
      else match r with
           | EmptyString => [String c EmptyString]
           | String c' _ =>
               if PyStr.isspace c' then String c EmptyString :: split_ws r
               else match split_ws r with
                    | h :: t => String c h :: t
                    | [] => [String c EmptyString]
                    end
           end
  end.

(** [s] holds a whitespace character. *)
Fixpoint has_space (s : string) : bool :=
  match s with
  | EmptyString => false
  | String c r => PyStr.isspace c || has_space r
  end.

(** The constants of [pretty_filters]. *)
Definition EXCAPE : string := String "034"%char EmptyString.
Definition QUOTA : string := EmptyString.
Definition OR : string := " OR ".

(** What the loop of [parse_filters] appends for one filter. *)
Definition filter_term (filter : string) : string :=
  if (1 <? length (split_ws filter))%nat then EXCAPE ++ filter ++ EXCAPE
  else QUOTA ++ filter ++ QUOTA.

(** [parse_filters]: the loop over [range(0, len(filters))]. *)
Definition parse_filters (filters : list string) : string :=
  fold_left
    (fun ret idx =>
       let filter := nth idx filters EmptyString in
       let ret := ret ++ filter_term filter in
       if negb (idx =? length filters - 1)%nat then ret ++ OR else ret)
    (seq 0 (length filters)) EmptyString.

(** [pretty_filters]: the query of each topic, in the order of the
    configured topics; [keywords] maps a topic to its filters. *)
Definition pretty_filters (keywords : dict (list string)) : dict string :=
  fold_left (fun kv item => set kv (fst item) (parse_filters (snd item)))
    keywords [].

(** A value of the configuration file as [yaml.load] returns it: a
    string, a date (an unquoted [2024-01-01] is loaded as a
    [datetime.date]), or any other value (null, a number, a boolean, a
    sequence, a mapping), of which the code only tests the truth. *)
Inductive yaml_value : Type :=
| YStr (s : string)
| YDate (d : date)
| YOther (truthy : bool).

(** The [date_range] block of the configuration file; [None] for a
    bound is a missing key. *)
Record date_range_block : Type := mkrange {
  range_enabled : bool;
  range_start : option yaml_value;
  range_end : option yaml_value
}.

(** The [cleanup] block of the configuration; [None] is a missing key. *)
Record cleanup_block : Type := mkcleanup {
  cleanup_enabled : option bool;
  cleanup_keep_days : option Z
}.

(** The keys [load_config] sets for the date range, and the [cleanup]
    block it leaves, [None] when the configuration has none. *)
Record range_settings : Type := mksettings {
  set_start_date : option date;
  set_end_date : option date;
  set_date_range_enabled : bool;
  set_cleanup : option cleanup_block
}.

(** One bound: a value that is not true is skipped; a string that
    [strptime] rejects is ignored after a warning, the [ValueError]
    being caught; a value that is not a string makes [strptime] raise
    [TypeError], which nothing catches. *)
Definition parse_bound (bound : option yaml_value) : result (option date) :=
  match bound with
  | Some (YStr s) => if PyStr.nonempty s then Ok (strptime s) else Ok None
  | Some (YDate _) => Raise TypeError
  | Some (YOther truthy) => if truthy then Raise TypeError else Ok None
  | None => Ok None
  end.

(** The text of a bound that is a string, and the bounds on which
    [strptime] raises [TypeError]: a date, or any other value that is
    true. *)
Definition bound_text (bound : option yaml_value) : option string :=
  match bound with
  | Some (YStr t) => Some t
  | _ => None
  end.

Definition bound_raises (bound : option yaml_value) : bool :=
  match bound with
  | Some (YDate _) => true
  | Some (YOther truthy) => truthy
  | _ => false
  end.

(** The date-range part of [load_config] (source lines 68 to 104). *)
Definition load_date_range (date_range : option date_range_block)
  (cleanup : option cleanup_block) : result range_settings :=
  match date_range with
  | Some block =>
      if range_enabled block then
        start_date <- parse_bound (range_start block) ;;
        end_date <- parse_bound (range_end block) ;;
        let date_range_enabled :=
          match start_date, end_date with
          | None, None => false
          | _, _ => true
          end in
        if date_range_enabled then
          Ok (mksettings start_date end_date true
                (match cleanup with
                 | Some c => Some (mkcleanup (Some false) (cleanup_keep_days c))
                 | None => None
                 end))
        else Ok (mksettings start_date end_date false cleanup)
      else Ok (mksettings None None false cleanup)
  | None => Ok (mksettings None None false cleanup)
  end.

(** ** The orchestrator: [demo] *)

(** The configuration [demo] reads. *)
Record config : Type := mkconfig {
  cfg_kv : dict string;
  cfg_max_results : nat;
  cfg_publish_readme : bool;
  cfg_publish_gitpage : bool;
  cfg_show_abstract : bool;
  cfg_cleanup : option cleanup_block;
  cfg_date_range_enabled : bool;
  cfg_start_date : option date;
  cfg_end_date : option date
}.

(** A rendered document: its topic sections. *)
Definition document : Type := list (string * list item).

(** The four files of a run, at four different paths: the two stores
    and the two documents. *)
Record files : Type := mkfiles {
  json_readme : file;
  md_readme : option document;
  json_gitpage : file;
  md_gitpage : option document
}.

(** The first loop of [demo]: one call of [get_daily_papers] for each
    configured topic. *)
Definition collect (client : provider) (cfg : config) : list store :=
  map (fun tk =>
         get_daily_papers client (fst tk) (snd tk) (cfg_max_results cfg)
           (cfg_start_date cfg) (cfg_end_date cfg) (cfg_show_abstract cfg))
    (cfg_kv cfg).

(** The count that the README branch reads when it does not clean up. *)
Definition read_count (f : file) : result nat :=
  match f with
  | None => Raise FileNotFoundError
  | Some Blank => Ok O
  | Some (Doc existing_data) => Ok (total_papers existing_data)
  | Some Malformed => Raise JSONDecodeError
  end.

(** [os.path.exists(json_file)] *)
Definition exists_file (f : file) : bool :=
  match f with Some _ => true | None => false end.

(** [config['cleanup']['enabled']] and [config['cleanup']['keep_days']],
    read at the start of [demo]: a missing key raises [KeyError]. *)
Definition cleanup_settings (cfg : config) : result (bool * Z) :=
  match cfg_cleanup cfg with
  | Some block =>
      match cleanup_enabled block, cleanup_keep_days block with
      | Some enabled, Some keep_days => Ok (enabled, keep_days)
      | _, _ => Raise KeyError
      end
  | None => Raise KeyError
  end.

(** One output target: the cleanup when it applies, the update and the
    rendering.  [count_first] is set for the README, whose branch reads
    the count of the store when it skips the cleanup.  The result is
    the store file and the document written; an exception leaves the
    store file as the step that raised left it and writes no document. *)
Definition run_target (today : date) (cfg : config) (cleanup_enabled : bool)
  (keep_days : Z) (data_collector : list store)
  (count_first to_web show_abstract : bool) (json : file)
  : file * result document :=
  let json_exists := exists_file json in
  let date_range_enabled := cfg_date_range_enabled cfg in
  let cleaned : file * result unit :=
    if cleanup_enabled && negb date_range_enabled && json_exists then
      match cleanup_old_papers today json keep_days with
      | (json', Ok _) => (json', Ok tt)
      | (json', Raise e) => (json', Raise e)
      end
    else if count_first && json_exists && negb date_range_enabled then
      match read_count json with
      | Ok _ => (json, Ok tt)
      | Raise e => (json, Raise e)
      end
    else (json, Ok tt) in
  match cleaned with
  | (json1, Raise e) => (json1, Raise e)
  | (json1, Ok _) =>
      match update_json_file json1 data_collector (cfg_kv cfg)
              date_range_enabled with
      | (json2, Raise e) => (json2, Raise e)
      | (json2, Ok _) => (json2, json_to_md json2 to_web show_abstract)
      end
  end.

(** [demo]: the cleanup settings are read first; then the fetch, the
    README target and the GitPage target.  An exception in the first
    target ends the run before the second. *)
Definition demo (client : provider) (today : date) (cfg : config) (fs : files)
  : files * result unit :=
  match cleanup_settings cfg with
  | Raise e => (fs, Raise e)
  | Ok (cleanup_enabled, keep_days) =>
      let data_collector := collect client cfg in
      let '(fs1, r1) :=
        if cfg_publish_readme cfg then
          match run_target today cfg cleanup_enabled keep_days data_collector
                  true false (cfg_show_abstract cfg) (json_readme fs) with
          | (json, Ok doc) =>
              (mkfiles json (Some doc) (json_gitpage fs) (md_gitpage fs), Ok tt)
          | (json, Raise e) =>
              (mkfiles json (md_readme fs) (json_gitpage fs) (md_gitpage fs),
               Raise e)
          end
        else (fs, Ok tt) in
      match r1 with
      | Raise e => (fs1, Raise e)
      | Ok _ =>
          if cfg_publish_gitpage cfg then
            match run_target today cfg cleanup_enabled keep_days data_collector
                    false true false (json_gitpage fs1) with
            | (json, Ok doc) =>
                (mkfiles (json_readme fs1) (md_readme fs1) json (Some doc), Ok tt)
            | (json, Raise e) =>
                (mkfiles (json_readme fs1) (md_readme fs1) json (md_gitpage fs1),
                 Raise e)
            end
          else (fs1, Ok tt)
      end
  end.

(** ** Notions for the further properties *)

(** The results a stream yields before it stops or fails. *)
Fixpoint yielded (s : stream) : list Result :=
  match s with
  | Stop => []
  | Fail _ => []
  | Yield r rest => r :: yielded rest
  end.

(** The row of the last of the results that has the key. *)
Fixpoint last_result_row (show_abstract : bool) (results : list Result)
  (key : string) : option string :=
  match results with
  | [] => None
  | r :: rest =>
      match last_result_row show_abstract rest key with
      | Some row => Some row
      | None =>
          match entry_of show_abstract r with
          | Ok (k, row) => if String.eqb k key then Some row else None
          | Raise _ => None
          end
      end
  end.

(** The mapping of the last fetched item of a topic. *)
Fixpoint last_item (items : list (string * dict string)) (topic : string)
  : option (dict string) :=
  match items with
  | [] => None
  | (t, papers) :: rest =>
      match last_item rest topic with
      | Some p => Some p
      | None => if String.eqb t topic then Some papers else None
      end
  end.

(** Descending order of two keys: [a] is not below [b]. *)
Definition key_ge (a b : string) : Prop := String.compare a b <> Lt.

(** The pruning of a store written as a filter of each topic. *)
Definition prune_filter (cutoff : Z) (data : store) : store :=
  map (fun kv => (fst kv, filter (fun e => keeps cutoff (snd e)) (snd kv))) data.

(** A configuration with a date range, and one without, for the topics
    SLAM and NeRF; and the first without its [cleanup] block. *)
Definition range_config : config :=
  mkconfig sample_keywords 2 true true false
    (Some (mkcleanup (Some false) (Some 30%Z))) true
    (Some (mkdate 2024 1 1)) (Some (mkdate 2024 3 31)).

Definition daily_config : config :=
  mkconfig sample_keywords 2 true true false
    (Some (mkcleanup (Some true) (Some 30%Z))) false None None.

Definition range_config_no_cleanup : config :=
  mkconfig sample_keywords 2 true true false None true
    (Some (mkdate 2024 1 1)) (Some (mkdate 2024 3 31)).

(** Case analysis on the scrutinee of a match in a hypothesis. *)
Ltac break_match_hyp :=
  match goal with
  | H : context [match ?x with _ => _ end] |- _ => destruct x eqn:?
  end.

(** ** Facts about dicts *)

Section DictFacts.
Context {V : Type}.
Implicit Types (d p : dict V) (k : string) (v : V).

Lemma get_set_same d k v : get (set d k v) k = Some v.
Proof.
  induction d as [|[k' v'] r IH]; simpl.
  - now rewrite String.eqb_refl.
  - destruct (String.eqb k' k) eqn:E; simpl; rewrite E; auto.
Qed.

Lemma get_set_other d k k' v : k <> k' -> get (set d k v) k' = get d k'.
Proof.
  intros Hne. apply String.eqb_neq in Hne.
  induction d as [|[k0 v0] r IH]; simpl.
  - now rewrite Hne.
  - destruct (String.eqb k0 k) eqn:E; simpl.
    + apply String.eqb_eq in E. subst k0. now rewrite Hne.
    + destruct (String.eqb k0 k'); auto.
Qed.

Lemma get_set d k k' v :
  get (set d k v) k' = if String.eqb k k' then Some v else get d k'.
Proof.
  destruct (String.eqb k k') eqn:E.
  - apply String.eqb_eq in E. subst. apply get_set_same.
  - apply String.eqb_neq in E. now apply get_set_other.
Qed.

Lemma get_none_keys d k : get d k = None <-> ~ In k (keys d).
Proof.
  induction d as [|[k' v'] r IH]; simpl.
  - tauto.
  - destruct (String.eqb k' k) eqn:E.
    + apply String.eqb_eq in E. split; [discriminate | intros H; exfalso; auto].
    + apply String.eqb_neq in E. rewrite IH. tauto.
Qed.

Lemma get_some_in d k v : get d k = Some v -> In (k, v) d.
Proof.
  induction d as [|[k' v'] r IH]; simpl; [discriminate|].
  destruct (String.eqb k' k) eqn:E.
  - apply String.eqb_eq in E. intros [= ->]. subst. now left.
  - intros H. right. auto.
Qed.

Lemma keys_set_mem d k v : get d k <> None -> keys (set d k v) = keys d.
Proof.
  unfold keys. induction d as [|[k' v'] r IH]; simpl; [congruence|].
  destruct (String.eqb k' k) eqn:E; simpl; auto.
  intros H. f_equal. auto.
Qed.

Lemma keys_set_new d k v :
  get d k = None -> keys (set d k v) = (keys d ++ [k])%list.
Proof.
  unfold keys. induction d as [|[k' v'] r IH]; simpl; auto.
  destruct (String.eqb k' k) eqn:E; [discriminate|].
  intros H. simpl. f_equal. auto.
Qed.

Lemma wf_set d k v : wf d -> wf (set d k v).
Proof.
  unfold wf. intros H. destruct (get d k) eqn:E.
  - rewrite keys_set_mem; congruence.
  - rewrite keys_set_new by assumption.
    apply get_none_keys in E.
    apply NoDup_app; [assumption | repeat constructor; auto | ].
    intros x Hx [<- | []]. contradiction.
Qed.

End DictFacts.

(** ** The pruner keeps topics and filters entries *)

Section PruneFacts.
Variable cutoff : Z.

Lemma get_keep_fold (papers acc : dict string) (k : string) :
  wf papers ->
  get (fold_left (keep_step cutoff) papers acc) k =
    match get papers k with
    | Some row => if keeps cutoff row then Some row else get acc k
    | None => get acc k
    end.
Proof.
  revert acc. induction papers as [|[k0 r0] l IH]; intros acc Hwf; simpl; auto.
  inversion Hwf as [|? ? Hnotin Hwf']; subst.
  rewrite IH by exact Hwf'.
  destruct (String.eqb k0 k) eqn:E.
  - apply String.eqb_eq in E. subst k0.
    apply get_none_keys in Hnotin. rewrite Hnotin.
    unfold keep_step; simpl. destruct (keeps cutoff r0); auto.
    apply get_set_same.
  - apply String.eqb_neq in E.
    assert (Hacc : get (keep_step cutoff acc (k0, r0)) k = get acc k).
    { unfold keep_step; simpl. destruct (keeps cutoff r0); auto.
      now apply get_set_other. }
    rewrite Hacc. reflexivity.
Qed.

Lemma get_papers_to_keep (papers : dict string) (k : string) :
  wf papers ->
  get (papers_to_keep cutoff papers) k =
    match get papers k with
    | Some row => if keeps cutoff row then Some row else None
    | None => None
    end.
Proof.
  intros Hwf. exact (get_keep_fold papers [] k Hwf).
Qed.

Lemma keys_prune_fold (l : store) (d : store) :
  (forall t, In t (keys l) -> get d t <> None) ->
  keys (fold_left (prune_step cutoff) l d) = keys d.
Proof.
  revert d. induction l as [|[t0 p0] l IH]; intros d Hin; simpl; auto.
  assert (H0 : get d t0 <> None) by (apply Hin; simpl; auto).
  rewrite IH.
  - unfold prune_step; simpl. now apply keys_set_mem.
  - intros t Ht. unfold prune_step; simpl. rewrite get_set.
    destruct (String.eqb t0 t); [discriminate|]. apply Hin. simpl; auto.
Qed.

Lemma get_prune_fold_other (l : store) (d : store) (t : string) :
  ~ In t (keys l) -> get (fold_left (prune_step cutoff) l d) t = get d t.
Proof.
  revert d. induction l as [|[t0 p0] l IH]; intros d Hnot; simpl; auto.
  rewrite IH by (intros H; apply Hnot; simpl; auto).
  unfold prune_step; simpl. apply get_set_other.
  intros ->. apply Hnot. simpl; auto.
Qed.

Lemma get_prune_fold (l : store) (d : store) (t : string) (p : dict string) :
  wf l -> get l t = Some p ->
  get (fold_left (prune_step cutoff) l d) t = Some (papers_to_keep cutoff p).
Proof.
  revert d. induction l as [|[t0 p0] l IH]; intros d Hwf Hget; simpl in *.
  - discriminate.
  - inversion Hwf as [|? ? Hnotin Hwf']; subst.
    destruct (String.eqb t0 t) eqn:E.
    + apply String.eqb_eq in E. subst t0. injection Hget as ->.
      rewrite get_prune_fold_other by assumption.
      unfold prune_step; simpl. apply get_set_same.
    + now apply IH.
Qed.

Lemma keys_prune_all (data : store) : keys (prune_all cutoff data) = keys data.
Proof.
  apply (keys_prune_fold data data). intros t Ht Hnone.
  apply get_none_keys in Hnone. contradiction.
Qed.

Lemma entry_prune_all (data : store) (topic key : string) :
  store_wf data ->
  entry (prune_all cutoff data) topic key =
    match entry data topic key with
    | Some row => if keeps cutoff row then Some row else None
    | None => None
    end.
Proof.
  intros [Hwf Hin]. unfold entry.
  destruct (get data topic) as [p|] eqn:E.
  - assert (Hp : get (prune_all cutoff data) topic
                 = Some (papers_to_keep cutoff p))
      by exact (get_prune_fold data data topic p Hwf E).
    rewrite Hp. apply get_papers_to_keep. apply (Hin topic). now apply get_some_in.
  - assert (Hn : get (prune_all cutoff data) topic = None).
    { apply get_none_keys. rewrite keys_prune_all. now apply get_none_keys. }
    now rewrite Hn.
Qed.

End PruneFacts.

(** ** Parsed dates are calendar dates *)

Lemma strptime_valid (s : string) (d : date) :
  strptime s = Some d -> valid d = true.
Proof.
  unfold strptime. intros H.
  repeat (break_match_hyp; try discriminate).
  congruence.
Qed.

Lemma days_before_month_aux_nonneg (y : Z) (n : nat) :
  (0 <= days_before_month_aux y n)%Z.
Proof.
  induction n as [|n IH]; [simpl; lia|].
  change (0 <= days_before_month_aux y n + days_in_month y (Z.of_nat (S n)))%Z.
  assert (28 <= days_in_month y (Z.of_nat (S n)))%Z.
  { unfold days_in_month.
    repeat match goal with |- context [if ?b then _ else _] => destruct b end; lia. }
  lia.
Qed.

Lemma days_before_year_nonneg (y : Z) : (1 <= y)%Z -> (0 <= days_before_year y)%Z.
Proof.
  intros Hy. unfold days_before_year. cbv zeta.
  assert (Hp : (0 <= y - 1)%Z) by lia.
  assert ((y - 1) / 100 <= (y - 1) / 4)%Z
    by (apply Z.div_le_compat_l; lia).
  assert (0 <= (y - 1) / 400)%Z by (apply Z.div_pos; lia).
  lia.
Qed.

Lemma valid_toordinal_pos (d : date) : valid d = true -> (1 <= toordinal d)%Z.
Proof.
  unfold valid. rewrite !andb_true_iff, !Z.leb_le.
  intros [[[[[Hy _] _] _] Hd] _]. unfold toordinal.
  pose proof (days_before_year_nonneg (year d) Hy).
  pose proof (days_before_month_aux_nonneg (year d) (Z.to_nat (month d - 1))).
  unfold days_before_month. lia.
Qed.

Lemma keeps_below_calendar (cutoff : Z) (row : string) :
  (cutoff < 1)%Z -> keeps cutoff row = true.
Proof.
  intros Hc. unfold keeps.
  destruct (parse_date_from_content row) as [d|] eqn:E; auto.
  assert (Hv : valid d = true).
  { unfold parse_date_from_content in E.
    repeat (break_match_hyp; try discriminate).
    eapply strptime_valid; eassumption. }
  apply valid_toordinal_pos in Hv. apply Z.leb_le. lia.
Qed.

(** ** Claims on the retention pruner *)

(** C9. The pruner never removes a topic: whatever path
    [cleanup_old_papers] takes on a stored document, the file holds a
    document with the same topics in the same order afterwards, and
    every entry that is still there has the row it had before. *)
Theorem cleanup_old_papers_keeps_topics (today : date) (keep_days : Z)
  (data : store) :
  store_wf data ->
  exists data' : store,
    fst (cleanup_old_papers today (Some (Doc data)) keep_days) = Some (Doc data')
    /\ keys data' = keys data
    /\ forall topic key row,
         entry data' topic key = Some row -> entry data topic key = Some row.
Proof.
  intros Hwf. unfold cleanup_old_papers.
  destruct (keep_days <=? 0)%Z; [exists data; auto|]. cbv zeta.
  destruct (toordinal today - keep_days <? 1)%Z; [exists data; auto|].
  exists (prune_all (toordinal today - keep_days) data).
  split; [reflexivity|]. split; [apply keys_prune_all|].
  intros topic key row. rewrite entry_prune_all by assumption.
  destruct (entry data topic key) as [row'|]; [|discriminate].
  destruct (keeps _ row'); [auto | discriminate].
Qed.

(** ** The decidable conditions are sound *)

Lemma existsb_eqb_In (x : string) (l : list string) :
  existsb (String.eqb x) l = true <-> In x l.
Proof.
  rewrite existsb_exists. split.
  - intros [y [Hin Heq]]. apply String.eqb_eq in Heq. now subst.
  - intros Hin. exists x. split; [assumption | apply String.eqb_refl].
Qed.

Lemma nodupb_sound (l : list string) : nodupb l = true -> NoDup l.
Proof.
  induction l as [|x r IH]; simpl; [constructor|].
  rewrite andb_true_iff, negb_true_iff. intros [Hx Hr].
  constructor; [|auto].
  intros Hin. apply existsb_eqb_In in Hin. congruence.
Qed.

Lemma store_wfb_sound (m : store) : store_wfb m = true -> store_wf m.
Proof.
  unfold store_wfb, store_wf. rewrite andb_true_iff, forallb_forall.
  intros [Hk Hall]. split; [now apply nodupb_sound|].
  intros topic papers Hin. apply nodupb_sound. apply (Hall _ Hin).
Qed.

Lemma batch_wfb_sound (data_dict : list store) :
  batch_wfb data_dict = true -> batch_wf data_dict.
Proof.
  unfold batch_wfb, batch_wf. rewrite forallb_forall.
  intros Hall topic papers Hin. apply nodupb_sound. apply (Hall _ Hin).
Qed.

Lemma cleanup_old_papers_keeps_topics_witness :
  store_wf retention_store
  /\ exists data' : store,
       fst (cleanup_old_papers retention_today (Some (Doc retention_store)) 30)
         = Some (Doc data')
       /\ keys data' = keys retention_store
       /\ forall topic key row,
            entry data' topic key = Some row ->
            entry retention_store topic key = Some row.
Proof.
  split; [apply store_wfb_sound; reflexivity|].
  apply (cleanup_old_papers_keeps_topics retention_today 30 retention_store).
  apply store_wfb_sound; reflexivity.
Defined.

(** The retention example: with today 2024-01-15 and thirty days kept,
    the row of 2023-01-01 goes, the row of 2024-01-01 and the undated
    row stay, and the empty topic is still there. *)
Example cleanup_old_papers_example :
  cleanup_old_papers retention_today (Some (Doc retention_store)) 30
  = (Some (Doc
       [("SLAM",
         [("2401.00001", "|**2024-01-01**|**Late**|B. Author|cs.RO|[2401.00001](http://arxiv.org/abs/2401.00001)||");
          ("2401.00002", "|**soon**|**Undated**|C. Author|cs.RO|[2401.00002](http://arxiv.org/abs/2401.00002)||")]);
        ("NeRF", [])]),
     Ok (3, 2)).
Proof. vm_compute. reflexivity. Qed.

(** ** Claims on the fetcher *)

Lemma get_authors_never_raises (authors : list Author) (last_author : bool) :
  exists out, get_authors authors last_author = Ok out.
Proof.
  unfold get_authors. destruct last_author; simpl; [|eauto].
  destruct authors as [|a l]; simpl; [eauto|].
  unfold index_last. destruct (rev (a :: l)) eqn:E; simpl; [|eauto].
  apply (f_equal (@length Author)) in E. rewrite length_rev in E. discriminate.
Qed.

(** C10. [get_authors] returns the empty string for an empty list of
    authors in both modes, and the last-author mode never raises the
    [IndexError] of indexing an empty list, whatever the list. *)
Theorem get_authors_empty :
  (forall last_author : bool,
      get_authors [] last_author = Ok (OutStr EmptyString))
  /\ (forall authors : list Author,
         get_authors authors true <> Raise IndexError).
Proof.
  split.
  - intros [|]; reflexivity.
  - intros authors H.
    destruct (get_authors_never_raises authors true) as [out Hout].
    congruence.
Qed.

Lemma find_from_absent (c : ascii) (s : string) (pos : Z) :
  PyStr.contains c s = false -> PyStr.find_from c s pos = (-1)%Z.
Proof.
  revert pos. induction s as [|a r IH]; intros pos; simpl; auto.
  destruct (Ascii.eqb a c); simpl; [discriminate | auto].
Qed.

(** An identifier without ['v'] is its own key. *)
Lemma paper_key_without_v (paper_id : string) :
  PyStr.contains "v" paper_id = false -> paper_key paper_id = paper_id.
Proof.
  intros H. unfold paper_key, PyStr.find.
  now rewrite find_from_absent.
Qed.

(** C6. The key is the identifier cut at its first ['v'], which is the
    version suffix only when no ['v'] comes before it: the identifier
    solv-int/9704011v1 gets the key sol, while 2108.09112v2 gets
    2108.09112 and 2108.09112 is unchanged. *)
Theorem paper_key_cuts_at_first_v :
  paper_key "solv-int/9704011v1" = "sol"
  /\ paper_key "solv-int/9704011v1" <> "solv-int/9704011"
  /\ paper_key "2108.09112v2" = "2108.09112"
  /\ paper_key "2108.09112" = "2108.09112".
Proof.
  repeat split; try reflexivity.
  vm_compute. discriminate.
Qed.

(** C3. With a provider that yields one result and then raises, the
    handler of [get_daily_papers] catches the exception and the mapping
    returned for the topic holds the entry formatted before the
    failure: one entry, not zero. *)
Theorem get_daily_papers_partial_on_error :
  get_daily_papers_log flaky_client "SLAM" "slam" 200 None None false
  = ([("SLAM", [("2403.00001", row_2024)])], Some (ProviderError "HTTP 503"))
  /\ (forall content,
         get (get_daily_papers flaky_client "SLAM" "slam" 200 None None false) "SLAM"
           = Some content -> len content = 1%nat).
Proof.
  split; [vm_compute; reflexivity|].
  intros content. vm_compute. intros [= <-]. reflexivity.
Qed.

(** When the provider fails before its first result, the topic is
    returned with no entry. *)
Lemma get_daily_papers_fail_first (client : provider) (topic query : string)
  (max_results : nat) (start_date end_date : option date)
  (show_abstract : bool) (e : exn) :
  client (full_query query start_date end_date) max_results = Fail e ->
  get_daily_papers client topic query max_results start_date end_date
    show_abstract = [(topic, [])].
Proof.
  intros H. unfold get_daily_papers, get_daily_papers_log. rewrite H.
  reflexivity.
Qed.

(** ** Claims on reading the store *)

(** C4. With no file at the path, [update_json_file] without
    [clear_existing] raises [FileNotFoundError] and writes nothing,
    for every batch; a file with empty content is read as the empty
    store, with an existing count of 0. *)
Theorem update_json_file_missing_file (data_dict : list store)
  (current_keywords : dict string) :
  update_json_file None data_dict current_keywords false
    = (None, Raise FileNotFoundError)
  /\ update_json_file (Some Blank) data_dict current_keywords false
     = update_json_file (Some (Doc [])) data_dict current_keywords false
  /\ exists json_data updated_count new_papers_count category_updates,
       update_json_file (Some Blank) data_dict current_keywords false
       = (Some (Doc json_data),
          Ok (O, updated_count, new_papers_count, category_updates)).
Proof.
  split; [reflexivity|]. split; [reflexivity|].
  unfold update_json_file; simpl.
  match goal with
  | |- context [merge_all ?c ?b ?st] =>
      destruct (merge_all c b st) as [[jd n] cu]
  end.
  exists jd, (total_papers jd), n, cu. reflexivity.
Qed.

(** ** Claims on the order of rendering *)

(** C2. Rendering orders the entries of a topic by descending entry
    key, not by date: for a store fetched with an entry hep-th/9901001
    dated 1999-01-04 and an entry 2403.00001 dated 2024-03-01, both
    layouts list the entry of 1999 before the entry of 2024. *)
Theorem json_to_md_orders_by_key :
  let data_dict :=
    [get_daily_papers two_results_client "Physics" "physics" 2 None None false] in
  let f :=
    fst (update_json_file (Some Blank) data_dict [("Physics", "physics")] false) in
  f = Some (Doc [("Physics",
                  [("2403.00001", row_2024); ("hep-th/9901001", row_1999)])])
  /\ forall to_web : bool,
       exists sections,
         json_to_md f to_web false = Ok sections
         /\ map (fun section => map item_date (snd section)) sections
            = [["1999-01-04"; "2024-03-01"]].
Proof.
  cbv zeta. split; [vm_compute; reflexivity|].
  intros [|]; eexists; (split; [vm_compute; reflexivity | vm_compute; reflexivity]).
Qed.

(** ** Facts about strings *)

Section StringFacts.
Implicit Types (s t u : string) (c : ascii).

Lemma append_assoc s t u : (s ++ t) ++ u = s ++ (t ++ u).
Proof. induction s as [|a s IH]; simpl; congruence. Qed.

Lemma length_append s t :
  String.length (s ++ t) = (String.length s + String.length t)%nat.
Proof. induction s as [|a s IH]; simpl; congruence. Qed.

Lemma contains_append c s t :
  PyStr.contains c (s ++ t) = PyStr.contains c s || PyStr.contains c t.
Proof.
  induction s as [|a s IH]; simpl; auto.
  rewrite IH. now rewrite orb_assoc.
Qed.

Lemma substring_prefix s t :
  substring 0 (String.length s) (s ++ t) = s.
Proof. induction s as [|a s IH]; simpl; [now destruct t | congruence]. Qed.

Lemma substring_skip s t (n : nat) :
  substring (String.length s) n (s ++ t) = substring 0 n t.
Proof. induction s as [|a s IH]; simpl; auto. Qed.

Lemma slice_from_skip s t : PyStr.slice_from (s ++ t) (String.length s) = t.
Proof. induction s as [|a s IH]; simpl; [now destruct t | auto]. Qed.

End StringFacts.

(** ** The math-span normaliser *)

Lemma last_dollar_absent (s : string) :
  PyStr.contains "$" s = false -> last_dollar s = None.
Proof.
  induction s as [|a s IH]; simpl; auto.
  destruct (Ascii.eqb a "$") eqn:E; simpl; [discriminate|].
  intros H. rewrite (IH H). now destruct (Ascii.eqb a newline).
Qed.

Lemma last_dollar_span (content after : string) :
  PyStr.contains newline content = false ->
  PyStr.contains "$" after = false ->
  last_dollar (content ++ "$" ++ after) = Some (S (String.length content)).
Proof.
  intros Hnl Hafter. induction content as [|a s IH]; simpl in *.
  - now rewrite (last_dollar_absent after Hafter).
  - apply orb_false_iff in Hnl. destruct Hnl as [Ha Hs].
    rewrite Ha. now rewrite (IH Hs).
Qed.

Lemma search_math_skip (before rest : string) (pos : nat) :
  PyStr.contains "$" before = false ->
  search_math (before ++ rest) pos = search_math rest (pos + String.length before).
Proof.
  revert pos. induction before as [|a s IH]; intros pos H; simpl in *.
  - f_equal. lia.
  - apply orb_false_iff in H. destruct H as [Ha Hs].
    rewrite Ha. rewrite (IH (S pos) Hs). f_equal. lia.
Qed.

Lemma search_math_at_dollar (r : string) (pos n : nat) :
  last_dollar r = Some n ->
  search_math (String "$" r) pos = Some (pos, (pos + 1 + n)%nat).
Proof. intros H. simpl. now rewrite H. Qed.

Lemma search_math_span (before content after : string) :
  PyStr.contains "$" before = false ->
  PyStr.contains newline content = false ->
  PyStr.contains "$" after = false ->
  search_math (before ++ "$" ++ content ++ "$" ++ after) 0
  = Some (String.length before,
          (String.length before + S (S (String.length content)))%nat).
Proof.
  intros Hb Hc Ha. rewrite (search_math_skip _ _ _ Hb).
  change ("$" ++ content ++ "$" ++ after)
    with (String "$" (content ++ "$" ++ after)).
  rewrite (search_math_at_dollar _ _ _ (last_dollar_span _ _ Hc Ha)).
  f_equal. f_equal. lia.
Qed.

Lemma search_math_absent (s : string) (pos : nat) :
  PyStr.contains "$" s = false -> search_math s pos = None.
Proof.
  revert pos. induction s as [|a s IH]; intros pos H; simpl in *; [reflexivity|].
  apply orb_false_iff in H. destruct H as [Ha Hs]. rewrite Ha. now apply IH.
Qed.

Lemma last_dollar_line_break (content rest : string) :
  PyStr.contains "$" content = false ->
  PyStr.contains newline content = true ->
  last_dollar (content ++ rest) = None.
Proof.
  induction content as [|a s IH]; simpl; [discriminate|].
  intros Hd Hn. apply orb_false_iff in Hd. destruct Hd as [Ha Hs].
  destruct (Ascii.eqb a newline) eqn:E; [reflexivity|].
  simpl in Hn. rewrite (IH Hs Hn). now rewrite Ha.
Qed.

(** A span that covers a line break is not found. *)
Lemma search_math_line_break (before content after : string) :
  PyStr.contains "$" before = false ->
  PyStr.contains "$" content = false ->
  PyStr.contains "$" after = false ->
  PyStr.contains newline content = true ->
  search_math (before ++ "$" ++ content ++ "$" ++ after) 0 = None.
Proof.
  intros Hb Hc Ha Hn. rewrite (search_math_skip _ _ _ Hb).
  change ("$" ++ content ++ "$" ++ after)
    with (String "$" (content ++ "$" ++ after)).
  cbn [search_math]. rewrite Ascii.eqb_refl.
  rewrite (last_dollar_line_break _ _ Hc Hn).
  rewrite (search_math_skip _ _ _ Hc).
  change ("$" ++ after) with (String "$" after).
  cbn [search_math]. rewrite Ascii.eqb_refl.
  rewrite (last_dollar_absent _ Ha). now apply search_math_absent.
Qed.

(** C8, as amended. For a string with a single span [$...$]: when the
    content of the span does not break the line, [pretty_math] returns
    the text before the span, one space if that text ends with a
    character that is neither whitespace nor [*], the span with its
    content stripped, one space if the text after it starts with a
    character that is neither whitespace nor [*], and the text after;
    when the content breaks the line, the string is returned as it is. *)
Theorem pretty_math_single_span (before content after : string) :
  PyStr.contains "$" before = false ->
  PyStr.contains "$" content = false ->
  PyStr.contains "$" after = false ->
  pretty_math (before ++ "$" ++ content ++ "$" ++ after)
  = if PyStr.contains newline content
    then before ++ "$" ++ content ++ "$" ++ after
    else
      before
        ++ match PyStr.last_char before with
           | Some c =>
               if PyStr.isspace c || Ascii.eqb c "*" then EmptyString else " "
           | None => EmptyString
           end
        ++ "$" ++ PyStr.strip content ++ "$"
        ++ match PyStr.first_char after with
           | Some c =>
               if PyStr.isspace c || Ascii.eqb c "*" then EmptyString else " "
           | None => EmptyString
           end
        ++ after.
Proof.
  intros Hb Hd Ha. unfold pretty_math.
  destruct (PyStr.contains newline content) eqn:Hc.
  { now rewrite (search_math_line_break _ _ _ Hb Hd Ha Hc). }
  rewrite (search_math_span _ _ _ Hb Hc Ha).
  set (span := "$" ++ content ++ "$").
  assert (Hs : before ++ "$" ++ content ++ "$" ++ after = before ++ span ++ after).
  { unfold span. simpl. now rewrite append_assoc. }
  rewrite Hs.
  assert (Hlen : S (S (String.length content)) = String.length span).
  { unfold span. simpl. rewrite length_append. simpl. lia. }
  rewrite Hlen. unfold PyStr.slice.
  replace (String.length before + String.length span - String.length before)%nat
    with (String.length span) by lia.
  rewrite substring_skip, substring_prefix.
  rewrite Nat.sub_0_r, substring_prefix.
  assert (Hbs : (String.length before + String.length span)%nat
                = String.length (before ++ span))
    by now rewrite length_append.
  rewrite Hbs, <- (append_assoc before span after), slice_from_skip.
  assert (Hin : substring 1 (String.length span - 1 - 1) span = content).
  { unfold span. simpl. rewrite length_append. simpl.
    replace (String.length content + 1 - 0 - 1)%nat
      with (String.length content) by lia.
    apply substring_prefix. }
  rewrite Hin. unfold needs_space.
  f_equal.
  destruct (PyStr.last_char before) as [c|], (PyStr.first_char after) as [c'|];
    repeat match goal with
      | |- context [PyStr.isspace ?x] => destruct (PyStr.isspace x)
      | |- context [Ascii.eqb ?x ?y] => destruct (Ascii.eqb x y)
      end; reflexivity.
Qed.

Lemma pretty_math_single_span_witness :
  PyStr.contains "$" "result" = false
  /\ PyStr.contains "$" "x+1" = false
  /\ PyStr.contains "$" "end" = false
  /\ pretty_math "result$x+1$end" = "result $x+1$ end".
Proof.
  repeat (split; [reflexivity|]).
  exact (pretty_math_single_span "result" "x+1" "end" eq_refl eq_refl eq_refl).
Defined.

(** The three examples of the normaliser. *)
Example pretty_math_examples :
  pretty_math "result$x+1$end" = "result $x+1$ end"
  /\ pretty_math "result $x+1$ end" = "result $x+1$ end"
  /\ pretty_math "**$x$**" = "**$x$**"
  /\ pretty_math "a$ x $b" = "a $x$ b".
Proof. repeat split; reflexivity. Qed.

(** C8, counterexample. The string [a$x], a line break, [y$b] holds a
    single span between two text characters, and [pretty_math] returns
    it unchanged: no space is put on either side of the span. *)
Lemma pretty_math_line_break_counterexample :
  let s := "a$x" ++ String newline "y$b" in
  let spaced := "a $x" ++ String newline "y$ b" in
  PyStr.contains "$" "a" = false
  /\ PyStr.contains "$" ("x" ++ String newline "y") = false
  /\ PyStr.contains "$" "b" = false
  /\ s = "a" ++ "$" ++ ("x" ++ String newline "y") ++ "$" ++ "b"
  /\ pretty_math s = s
  /\ pretty_math s <> spaced.
Proof.
  cbv zeta. repeat split; try reflexivity.
  vm_compute. discriminate.
Qed.

(** ** Splitting and stripping rows *)

Section RowFacts.
Implicit Types (s t f : string) (c : ascii).

Lemma split_nonempty c s : PyStr.split c s <> [].
Proof.
  destruct s as [|a s]; simpl; [discriminate|].
  destruct (Ascii.eqb a c); [discriminate|].
  destruct (PyStr.split c s); discriminate.
Qed.

Lemma split_field c f s :
  PyStr.contains c f = false ->
  PyStr.split c (f ++ String c s) = f :: PyStr.split c s.
Proof.
  induction f as [|a f IH]; simpl.
  - intros _. now rewrite Ascii.eqb_refl.
  - intros H. apply orb_false_iff in H. destruct H as [Ha Hf].
    rewrite Ha, (IH Hf). reflexivity.
Qed.

Lemma split_length_cons c a s :
  Ascii.eqb a c = false ->
  length (PyStr.split c (String a s)) = length (PyStr.split c s).
Proof.
  intros H. simpl. rewrite H.
  destruct (PyStr.split c s) eqn:E; [|reflexivity].
  now apply split_nonempty in E.
Qed.

Lemma split_length_any c f s :
  (S (length (PyStr.split c s)) <= length (PyStr.split c (f ++ String c s)))%nat.
Proof.
  induction f as [|a f IH].
  - simpl. rewrite Ascii.eqb_refl. simpl. lia.
  - change ((String a f) ++ String c s) with (String a (f ++ String c s)).
    destruct (Ascii.eqb a c) eqn:E.
    + simpl. rewrite E. simpl. lia.
    + rewrite (split_length_cons _ _ _ E). exact IH.
Qed.

Lemma rstrip_append s t :
  PyStr.nonempty (PyStr.rstrip t) = true ->
  PyStr.rstrip (s ++ t) = s ++ PyStr.rstrip t.
Proof.
  intros H. induction s as [|a s IH]; simpl; auto.
  rewrite IH. destruct (s ++ PyStr.rstrip t) eqn:E; [|reflexivity].
  destruct s; simpl in E; [|discriminate].
  rewrite E in H. discriminate.
Qed.

Lemma rstrip_all_plain s : all_plain s = true -> PyStr.rstrip s = s.
Proof.
  induction s as [|a s IH]; simpl; auto.
  rewrite andb_true_iff. intros [Ha Hs]. rewrite (IH Hs).
  destruct s; [|reflexivity].
  unfold plain in Ha. destruct (PyStr.isspace a); [discriminate | reflexivity].
Qed.

Lemma strip_all_plain s : all_plain s = true -> PyStr.strip s = s.
Proof.
  intros H. unfold PyStr.strip.
  assert (Hl : PyStr.lstrip s = s).
  { destruct s as [|a s]; simpl in *; auto.
    apply andb_true_iff in H. destruct H as [Ha _].
    unfold plain in Ha. destruct (PyStr.isspace a); [discriminate | reflexivity]. }
  rewrite Hl. now apply rstrip_all_plain.
Qed.

Lemma contains_all_plain s : all_plain s = true -> PyStr.contains "|" s = false.
Proof.
  induction s as [|a s IH]; simpl; auto.
  rewrite andb_true_iff. intros [Ha Hs]. rewrite (IH Hs).
  unfold plain in Ha. destruct (Ascii.eqb a "|"); [|reflexivity].
  rewrite andb_false_r in Ha. discriminate.
Qed.

(** The two equations of [replace_bold] and of [has_bold]. *)
Lemma replace_bold_other c s :
  Ascii.eqb c "*" = false ->
  PyStr.replace_bold (String c s) = String c (PyStr.replace_bold s).
Proof.
  destruct c as [[] [] [] [] [] [] [] []]; intros H;
    try reflexivity; discriminate.
Qed.

Lemma replace_bold_star_other c s :
  Ascii.eqb c "*" = false ->
  PyStr.replace_bold (String "*" (String c s))
  = String "*" (PyStr.replace_bold (String c s)).
Proof.
  destruct c as [[] [] [] [] [] [] [] []]; intros H;
    try reflexivity; discriminate.
Qed.

Lemma has_bold_other c s :
  Ascii.eqb c "*" = false -> PyStr.has_bold (String c s) = PyStr.has_bold s.
Proof.
  destruct c as [[] [] [] [] [] [] [] []]; intros H;
    try reflexivity; discriminate.
Qed.

Lemma has_bold_star_other c s :
  Ascii.eqb c "*" = false ->
  PyStr.has_bold (String "*" (String c s)) = PyStr.has_bold (String c s).
Proof.
  destruct c as [[] [] [] [] [] [] [] []]; intros H;
    try reflexivity; discriminate.
Qed.

Lemma replace_bold_closing s :
  PyStr.has_bold s = false -> PyStr.replace_bold (s ++ "**") = s.
Proof.
  induction s as [|a s IH]; [reflexivity|].
  intros H. change (String a s ++ "**") with (String a (s ++ "**")).
  destruct (Ascii.eqb a "*") eqn:Ea.
  - apply Ascii.eqb_eq in Ea. subst a.
    destruct s as [|b s]; [reflexivity|].
    destruct (Ascii.eqb b "*") eqn:Eb.
    + apply Ascii.eqb_eq in Eb. subst b. discriminate H.
    + rewrite (has_bold_star_other _ _ Eb) in H.
      change (String b s ++ "**") with (String b (s ++ "**")) in *.
      rewrite (replace_bold_star_other _ _ Eb). now rewrite (IH H).
  - rewrite (has_bold_other _ _ Ea) in H.
    rewrite (replace_bold_other _ _ Ea). now rewrite (IH H).
Qed.

Lemma replace_bold_wrapped s :
  PyStr.has_bold s = false -> PyStr.replace_bold ("**" ++ s ++ "**") = s.
Proof. intros H. simpl. now apply replace_bold_closing. Qed.

Lemma has_bold_all_plain s : all_plain s = true -> PyStr.has_bold s = false.
Proof.
  induction s as [|a s IH]; simpl all_plain; [reflexivity|].
  rewrite andb_true_iff. intros [Ha Hs].
  assert (Ea : Ascii.eqb a "*" = false).
  { unfold plain in Ha. destruct (Ascii.eqb a "*"); [|reflexivity].
    rewrite andb_false_r in Ha. discriminate. }
  rewrite (has_bold_other _ _ Ea). auto.
Qed.

End RowFacts.

(** ** Rows as lists of fields *)

Lemma body_of_fields_head (fields : list string) :
  exists z, body_of_fields fields = String "|" z.
Proof. destruct fields; simpl; eauto. Qed.

Lemma rstrip_row_of_fields (fields : list string) :
  PyStr.rstrip (row_of_fields fields) = body_of_fields fields.
Proof.
  induction fields as [|f fs IH]; [reflexivity|].
  change (row_of_fields (f :: fs)) with (String "|" (f ++ row_of_fields fs)).
  change (body_of_fields (f :: fs)) with (String "|" (f ++ body_of_fields fs)).
  assert (Hne : PyStr.nonempty (PyStr.rstrip (row_of_fields fs)) = true).
  { rewrite IH. destruct (body_of_fields_head fs) as [z ->]. reflexivity. }
  change (String "|" (f ++ row_of_fields fs))
    with (String "|" f ++ row_of_fields fs).
  rewrite (rstrip_append _ _ Hne), IH. reflexivity.
Qed.

Lemma strip_row_of_fields (fields : list string) :
  PyStr.strip (row_of_fields fields) = body_of_fields fields.
Proof.
  unfold PyStr.strip.
  assert (Hl : PyStr.lstrip (row_of_fields fields) = row_of_fields fields)
    by (destruct fields; reflexivity).
  rewrite Hl. apply rstrip_row_of_fields.
Qed.

Lemma split_body_cons (f : string) (fields : list string) :
  PyStr.contains "|" f = false ->
  PyStr.split "|" (body_of_fields (f :: fields))
  = EmptyString :: f :: tl (PyStr.split "|" (body_of_fields fields)).
Proof.
  intros Hf.
  change (body_of_fields (f :: fields))
    with (String "|" (f ++ body_of_fields fields)).
  destruct (body_of_fields_head fields) as [z ->].
  change (PyStr.split "|" (String "|" (f ++ String "|" z)))
    with (EmptyString :: PyStr.split "|" (f ++ String "|" z)).
  rewrite (split_field _ _ _ Hf). reflexivity.
Qed.

Lemma split_body_length (fields : list string) :
  (length fields + 2 <= length (PyStr.split "|" (body_of_fields fields)))%nat.
Proof.
  induction fields as [|f fs IH]; [simpl; lia|].
  change (body_of_fields (f :: fs)) with (String "|" (f ++ body_of_fields fs)).
  destruct (body_of_fields_head fs) as [z Hz]. rewrite Hz in *.
  change (PyStr.split "|" (String "|" (f ++ String "|" z)))
    with (EmptyString :: PyStr.split "|" (f ++ String "|" z)).
  change (PyStr.split "|" (String "|" z))
    with (EmptyString :: PyStr.split "|" z) in IH.
  pose proof (split_length_any "|" f z). simpl in *. lia.
Qed.

Lemma format_row_fields (show_abstract : bool) (d : date)
  (t a c k u com abs : string) :
  format_row show_abstract d t a c k u com abs
  = row_of_fields
      (("**" ++ to_str d ++ "**") :: ("**" ++ t ++ "**") :: a :: c
         :: ("[" ++ k ++ "](" ++ u ++ ")") :: com
         :: (if show_abstract then [abs] else [])).
Proof.
  unfold format_row, row_of_fields.
  destruct show_abstract; simpl; rewrite !append_assoc; simpl;
    repeat (f_equal; rewrite ?append_assoc; simpl); reflexivity.
Qed.

Lemma digit_char_plain (n : Z) : plain (digit_char n) = true.
Proof.
  unfold digit_char.
  assert (H : (Z.to_nat (n mod 10) < 10)%nat)
    by (pose proof (Z.mod_pos_bound n 10); lia).
  remember (Z.to_nat (n mod 10)) as k eqn:Ek. clear Ek.
  do 10 (destruct k as [|k]; [reflexivity|]). lia.
Qed.

Lemma to_str_all_plain (d : date) : all_plain (to_str d) = true.
Proof.
  unfold to_str, fmt4, fmt2. cbn [all_plain append].
  rewrite !digit_char_plain. reflexivity.
Qed.

(** What the styled renderer reads back from a row of fields. *)
Lemma parse_row_fields (show_abstract : bool) (f1 f2 f3 f4 : string)
  (more : list string) :
  PyStr.contains "|" f1 = false -> PyStr.contains "|" f2 = false ->
  PyStr.contains "|" f3 = false -> PyStr.contains "|" f4 = false ->
  (2 <= length more)%nat ->
  exists card,
    parse_row show_abstract (row_of_fields (f1 :: f2 :: f3 :: f4 :: more))
      = Some card
    /\ card_date card = PyStr.strip (PyStr.replace_bold f1)
    /\ card_title card = PyStr.strip (PyStr.replace_bold f2)
    /\ card_categories card = PyStr.strip f4.
Proof.
  intros H1 H2 H3 H4 Hmore. unfold parse_row.
  rewrite strip_row_of_fields.
  rewrite (split_body_cons _ _ H1).
  pose proof (split_body_cons f2 (f3 :: f4 :: more) H2) as E2.
  pose proof (split_body_cons f3 (f4 :: more) H3) as E3.
  pose proof (split_body_cons f4 more H4) as E4.
  pose proof (split_body_length more) as Hlen.
  rewrite E2, E3, E4. cbn [tl].
  destruct (PyStr.split "|" (body_of_fields more)) as [|p0 rest] eqn:Erest;
    [simpl in Hlen; lia|].
  cbn [tl length nth].
  assert (Hseven : (7 <=? S (S (S (S (S (length rest))))))%nat = true)
    by (apply Nat.leb_le; simpl in Hlen; lia).
  rewrite Hseven. eexists. split; [reflexivity|]. simpl. auto.
Qed.

(** ** Claims on the round trip of a row *)

(** C7, as amended. When the title of a fetched record holds no
    delimiter and no bold markup and has no whitespace at its ends,
    its last author holds no delimiter, and its joined categories hold
    no delimiter and have no whitespace at their ends, the styled
    renderer reads the record's title, date and categories back from
    the row the fetcher formats. *)
Theorem formatted_row_round_trip (show_abstract : bool) (r : Result)
  (key row : string) :
  entry_of show_abstract r = Ok (key, row) ->
  PyStr.contains "|" (title r) = false ->
  PyStr.has_bold (title r) = false ->
  PyStr.strip (title r) = title r ->
  PyStr.contains "|" (last_author_str r) = false ->
  PyStr.contains "|" (categories_str_of r) = false ->
  PyStr.strip (categories_str_of r) = categories_str_of r ->
  exists c : card,
    parse_row show_abstract row = Some c
    /\ card_title c = title r
    /\ card_date c = to_str (published r)
    /\ card_categories c = categories_str_of r.
Proof.
  intros Hentry Ht Hbold Hstrip Ha Hc Hcstrip.
  unfold entry_of in Hentry. unfold last_author_str in Ha.
  destruct (get_authors (authors r) false) as [o1|]; [|discriminate].
  destruct (get_authors (authors r) true) as [o2|]; [|discriminate].
  simpl in Hentry. injection Hentry as _ <-.
  rewrite format_row_fields.
  pose proof (to_str_all_plain (published r)) as Hd.
  destruct (parse_row_fields show_abstract
              ("**" ++ to_str (published r) ++ "**") ("**" ++ title r ++ "**")
              (format_output o2) (categories_str_of r)
              (("[" ++ paper_key (short_id r) ++ "]("
                  ++ (arxiv_url ++ "abs/" ++ paper_key (short_id r)) ++ ")")
                 :: comments_str_of r
                 :: (if show_abstract then [abstract_str_of show_abstract r]
                     else [])))
    as [c [Hparse [Hdate [Htitle Hcat]]]].
  - rewrite !contains_append, (contains_all_plain _ Hd). reflexivity.
  - rewrite !contains_append, Ht. reflexivity.
  - exact Ha.
  - exact Hc.
  - destruct show_abstract; simpl; lia.
  - exists c. split; [exact Hparse|].
    rewrite Htitle, Hdate, Hcat.
    rewrite (replace_bold_wrapped _ Hbold), Hstrip.
    rewrite (replace_bold_wrapped _ (has_bold_all_plain _ Hd)).
    rewrite (strip_all_plain _ Hd), Hcstrip. auto.
Qed.

Lemma formatted_row_round_trip_witness :
  entry_of false result_2024 = Ok ("2403.00001", row_2024)
  /\ PyStr.contains "|" (title result_2024) = false
  /\ PyStr.has_bold (title result_2024) = false
  /\ PyStr.strip (title result_2024) = title result_2024
  /\ PyStr.contains "|" (last_author_str result_2024) = false
  /\ PyStr.contains "|" (categories_str_of result_2024) = false
  /\ PyStr.strip (categories_str_of result_2024) = categories_str_of result_2024
  /\ exists c : card,
       parse_row false row_2024 = Some c
       /\ card_title c = "New paper"
       /\ card_date c = "2024-03-01"
       /\ card_categories c = "cs.RO".
Proof.
  repeat (split; [reflexivity|]).
  exact (formatted_row_round_trip false result_2024 "2403.00001" row_2024
           eq_refl eq_refl eq_refl eq_refl eq_refl eq_refl eq_refl).
Defined.

(** C7, counterexample. A record whose title holds the delimiter: the
    row formatted for it is read back with a title and with categories
    that are not the record's. *)
Lemma formatted_row_pipe_counterexample :
  exists key row c,
    entry_of false result_pipe = Ok (key, row)
    /\ parse_row false row = Some c
    /\ card_title c = "Measurement of"
    /\ card_title c <> title result_pipe
    /\ card_categories c <> categories_str_of result_pipe.
Proof.
  do 3 eexists. split; [reflexivity|]. split; [vm_compute; reflexivity|].
  split; [reflexivity|]. split; vm_compute; discriminate.
Qed.

(** ** Facts about [update] and [del] *)

Section UpdateFacts.
Context {V : Type}.
Implicit Types (d p : dict V) (k : string) (v : V).

Lemma get_update d p k :
  wf p ->
  get (update d p) k = match get p k with Some v => Some v | None => get d k end.
Proof.
  unfold update. revert d. induction p as [|[k0 v0] p IH]; intros d Hwf; simpl.
  - reflexivity.
  - inversion Hwf as [|? ? Hnotin Hwf']; subst.
    rewrite (IH _ Hwf'). destruct (String.eqb k0 k) eqn:E.
    + apply String.eqb_eq in E. subst k0.
      apply get_none_keys in Hnotin. rewrite Hnotin. apply get_set_same.
    + apply String.eqb_neq in E.
      destruct (get p k); [reflexivity | now apply get_set_other].
Qed.

Lemma update_nil_wf p : wf p -> update [] p = p.
Proof.
  unfold update.
  assert (H : forall d, wf (d ++ p)%list ->
            fold_left (fun acc kv => set acc (fst kv) (snd kv)) p d
            = (d ++ p)%list).
  { induction p as [|[k0 v0] p IH]; intros d Hwf; simpl.
    - now rewrite app_nil_r.
    - assert (Hset : set d k0 v0 = (d ++ [(k0, v0)])%list).
      { clear IH. unfold wf, keys in Hwf. rewrite map_app in Hwf. simpl in Hwf.
        apply NoDup_remove_2 in Hwf.
        assert (Hd : ~ In k0 (map fst d))
          by (intros Hin; apply Hwf; apply in_or_app; now left).
        clear Hwf. induction d as [|[k1 v1] d IHd]; simpl; [reflexivity|].
        destruct (String.eqb k1 k0) eqn:E.
        - apply String.eqb_eq in E. subst. exfalso. apply Hd. simpl; auto.
        - f_equal. apply IHd. intros Hin. apply Hd. simpl; auto. }
      rewrite Hset. rewrite IH.
      + now rewrite <- app_assoc.
      + now rewrite <- app_assoc. }
  intros Hwf. apply (H []). exact Hwf.
Qed.

Lemma keys_update_covered d p :
  (forall k, In k (keys p) -> In k (keys d)) -> keys (update d p) = keys d.
Proof.
  unfold update. revert d. induction p as [|[k0 v0] p IH]; intros d Hin; simpl.
  - reflexivity.
  - assert (Hk : keys (set d k0 v0) = keys d).
    { apply keys_set_mem. intros Hnone. apply get_none_keys in Hnone.
      apply Hnone, Hin. simpl; auto. }
    rewrite IH; [exact Hk|].
    intros k Hk'. rewrite Hk. apply Hin. simpl; auto.
Qed.

Lemma keys_set_incl d k v k' : In k' (keys d) -> In k' (keys (set d k v)).
Proof.
  intros Hin. destruct (get d k) eqn:E.
  - rewrite keys_set_mem; [assumption | congruence].
  - rewrite keys_set_new by assumption. apply in_or_app. now left.
Qed.

Lemma keys_set_self d k v : In k (keys (set d k v)).
Proof.
  destruct (get (set d k v) k) eqn:E.
  - apply get_some_in in E. change k with (fst (k, v0)). now apply in_map.
  - now rewrite get_set_same in E.
Qed.

Lemma keys_update_incl_l d p k : In k (keys d) -> In k (keys (update d p)).
Proof.
  unfold update. revert d. induction p as [|[k0 v0] p IH]; intros d Hin; simpl.
  - assumption.
  - apply IH. now apply keys_set_incl.
Qed.

Lemma keys_update_incl_r d p k : In k (keys p) -> In k (keys (update d p)).
Proof.
  unfold update. revert d. induction p as [|[k0 v0] p IH]; intros d Hin; simpl in *.
  - contradiction.
  - destruct Hin as [<- | Hin].
    + apply (keys_update_incl_l (set d k0 v0) p). apply keys_set_self.
    + now apply IH.
Qed.

Lemma del_app_fresh (pre d : dict V) k :
  ~ In k (keys pre) -> del (pre ++ d)%list k = (pre ++ del d k)%list.
Proof.
  induction pre as [|[k0 v0] pre IH]; simpl; intros Hnot; [reflexivity|].
  destruct (String.eqb k0 k) eqn:E.
  - apply String.eqb_eq in E. subst. exfalso. apply Hnot. auto.
  - f_equal. apply IH. intros Hin. apply Hnot. auto.
Qed.

Lemma get_filter_keys (keep : string -> bool) d k :
  get (filter (fun kv => keep (fst kv)) d) k
  = if keep k then get d k else None.
Proof.
  induction d as [|[k0 v0] d IH]; simpl.
  - now destruct (keep k).
  - destruct (keep k0) eqn:Ek0; simpl.
    + destruct (String.eqb k0 k) eqn:E.
      * apply String.eqb_eq in E. subst. now rewrite Ek0.
      * exact IH.
    + rewrite IH. destruct (String.eqb k0 k) eqn:E; [|reflexivity].
      apply String.eqb_eq in E. subst. now rewrite Ek0.
Qed.

End UpdateFacts.

(** ** Removing the topics that are no longer configured *)

Section RemoveFacts.
Variable current_keywords : dict string.

Lemma remove_old_keywords_fold (l : list string) (st : store * dict nat) :
  fst (fold_left
         (fun st keyword =>
            let removed_papers_count :=
              match get (fst st) keyword with Some p => len p | None => O end in
            (del (fst st) keyword, set (snd st) keyword removed_papers_count))
         l st)
  = fold_left (fun d keyword => del d keyword) l (fst st).
Proof.
  revert st. induction l as [|kw l IH]; intros st; simpl; [reflexivity|].
  now rewrite IH.
Qed.

Lemma del_stale_fold (pre json_data : store) :
  (forall kv, In kv pre -> (is_configured current_keywords) kv = true) ->
  fold_left (fun d keyword => del d keyword)
    (filter (fun kw => negb (configured current_keywords kw)) (keys json_data))
    (pre ++ json_data)%list
  = (pre ++ filter (is_configured current_keywords) json_data)%list.
Proof.
  revert pre. induction json_data as [|[t p] rest IH]; intros pre Hpre.
  - reflexivity.
  - unfold keys. cbn [map fst filter]. fold (keys rest).
    change ((is_configured current_keywords) (t, p)) with (configured current_keywords t).
    destruct (configured current_keywords t) eqn:E; cbn [negb fold_left].
    + change (pre ++ (t, p) :: rest)%list with (pre ++ [(t, p)] ++ rest)%list.
      rewrite app_assoc, IH.
      * now rewrite <- app_assoc.
      * intros kv Hin. apply in_app_or in Hin. destruct Hin as [Hin | [<- | []]].
        -- now apply Hpre.
        -- exact E.
    + rewrite del_app_fresh.
      * simpl. rewrite String.eqb_refl. now apply IH.
      * intros Hin. unfold keys in Hin. apply in_map_iff in Hin.
        destruct Hin as [[t' p'] [Heq Hin]]. simpl in Heq. subst t'.
        apply Hpre in Hin. unfold is_configured in Hin. simpl in Hin. congruence.
Qed.

Lemma remove_old_keywords_filter (json_data : store) :
  fst (remove_old_keywords json_data current_keywords)
  = filter (is_configured current_keywords) json_data.
Proof.
  unfold remove_old_keywords. rewrite remove_old_keywords_fold. simpl.
  apply (del_stale_fold [] json_data). intros kv [].
Qed.

End RemoveFacts.

(** ** The merge loop *)

Lemma merge_step_store (J : store) (n : nat) (cu : dict nat) (t : string)
  (p : dict string) :
  store_of (merge_step false (J, n, cu) (t, p))
  = set J t (match get J t with Some cur => update cur p | None => p end).
Proof. unfold merge_step, store_of. destruct (get J t); reflexivity. Qed.

Lemma entry_set (J : store) (t t' k : string) (v : dict string) :
  entry (set J t v) t' k = if String.eqb t t' then get v k else entry J t' k.
Proof. unfold entry. rewrite get_set. now destruct (String.eqb t t'). Qed.

Lemma entry_merge_step (J : store) (n : nat) (cu : dict nat) (t t' k : string)
  (p : dict string) :
  wf p ->
  entry (store_of (merge_step false (J, n, cu) (t, p))) t' k
  = if String.eqb t t'
    then match get p k with Some row => Some row | None => entry J t' k end
    else entry J t' k.
Proof.
  intros Hwf. rewrite merge_step_store, entry_set.
  destruct (String.eqb t t') eqn:E; [|reflexivity].
  apply String.eqb_eq in E. subst t'. unfold entry.
  destruct (get J t) as [cur|]; [now apply get_update|].
  now destruct (get p k).
Qed.

Lemma entry_merge_all (items : list (string * dict string)) (st : merge_state)
  (t k : string) :
  (forall topic papers, In (topic, papers) items -> wf papers) ->
  entry (store_of (fold_left (merge_step false) items st)) t k
  = match last_row items t k with
    | Some row => Some row
    | None => entry (store_of st) t k
    end.
Proof.
  revert st. induction items as [|[t0 p0] items IH]; intros st Hwf.
  - reflexivity.
  - cbn [fold_left last_row]. rewrite IH by (intros; eapply Hwf; right; eauto).
    destruct (last_row items t k); [reflexivity|].
    destruct st as [[J n] cu]. rewrite entry_merge_step by (eapply Hwf; left; eauto).
    now destruct (String.eqb t0 t).
Qed.

Lemma merge_step_grows (J : store) (n : nat) (cu : dict nat) (t t' : string)
  (p cur : dict string) :
  get J t' = Some cur ->
  exists cur',
    get (store_of (merge_step false (J, n, cu) (t, p))) t' = Some cur'
    /\ forall k, In k (keys cur) -> In k (keys cur').
Proof.
  intros Hget. rewrite merge_step_store, get_set.
  destruct (String.eqb t t') eqn:E.
  - apply String.eqb_eq in E. subst t'. rewrite Hget.
    eexists. split; [reflexivity|]. intros k. apply keys_update_incl_l.
  - exists cur. auto.
Qed.

Lemma merge_all_grows (items : list (string * dict string)) (st : merge_state)
  (t : string) (cur : dict string) :
  get (store_of st) t = Some cur ->
  exists cur',
    get (store_of (fold_left (merge_step false) items st)) t = Some cur'
    /\ forall k, In k (keys cur) -> In k (keys cur').
Proof.
  revert st cur. induction items as [|[t0 p0] items IH]; intros st cur Hget.
  - exists cur. auto.
  - cbn [fold_left]. destruct st as [[J n] cu].
    destruct (merge_step_grows J n cu t0 t p0 cur Hget) as [c1 [H1 Hincl1]].
    destruct (IH _ _ H1) as [c2 [H2 Hincl2]].
    exists c2. split; auto.
Qed.

Lemma merge_all_covers (items : list (string * dict string)) (st : merge_state) :
  covers (store_of (fold_left (merge_step false) items st)) items.
Proof.
  revert st. induction items as [|[t0 p0] items IH]; intros st t p Hin.
  - destruct Hin.
  - cbn [fold_left]. destruct Hin as [[= -> ->] | Hin]; [|now apply IH].
    destruct st as [[J n] cu].
    assert (Hstep : exists c1,
               get (store_of (merge_step false (J, n, cu) (t, p))) t = Some c1
               /\ forall k, In k (keys p) -> In k (keys c1)).
    { rewrite merge_step_store, get_set_same. eexists. split; [reflexivity|].
      intros k Hk. destruct (get J t); [now apply keys_update_incl_r | exact Hk]. }
    destruct Hstep as [c1 [H1 Hincl1]].
    destruct (merge_all_grows items _ t c1 H1) as [c2 [H2 Hincl2]].
    exists c2. split; auto.
Qed.

Lemma len_keys {V : Type} (d : dict V) : len d = length (keys d).
Proof. unfold len, keys. now rewrite length_map. Qed.

Lemma merge_step_covered (J : store) (n : nat) (cu : dict nat) (t : string)
  (p cur : dict string) :
  get J t = Some cur ->
  (forall k, In k (keys p) -> In k (keys cur)) ->
  merge_step false (J, n, cu) (t, p)
  = (set J t (update cur p), n + len p, cu)%nat
  /\ keys (update cur p) = keys cur.
Proof.
  intros Hget Hincl.
  assert (Hk : keys (update cur p) = keys cur) by now apply keys_update_covered.
  split; [|exact Hk].
  unfold merge_step. rewrite Hget. cbv zeta.
  rewrite (len_keys (update cur p)), (len_keys cur), Hk, Nat.sub_diag.
  reflexivity.
Qed.

Lemma total_papers_zero (J : store) (t : string) (p : dict string) :
  total_papers J = O -> In (t, p) J -> p = [].
Proof.
  unfold total_papers, values. induction J as [|[t0 p0] J IH]; simpl; [tauto|].
  intros Hsum Hin. apply Nat.eq_add_0 in Hsum. destruct Hsum as [H0 Hrest].
  destruct Hin as [[= -> ->] | Hin].
  - destruct p; [reflexivity | discriminate].
  - now apply IH.
Qed.

Lemma stale_empty_filter (current_keywords : dict string) (J : store) :
  stale_empty current_keywords (filter (is_configured current_keywords) J).
Proof.
  intros t p Hin Hstale. apply filter_In in Hin. destruct Hin as [_ Hc].
  unfold is_configured in Hc. simpl in Hc. congruence.
Qed.

(** ** Counting entries topic by topic *)

Section CountFacts.
Context {V : Type}.
Implicit Types (d : dict V) (k : string).

Lemma get_del_other d k k' : k <> k' -> get (del d k) k' = get d k'.
Proof.
  intros Hne. induction d as [|[k0 v0] d IH]; simpl; [reflexivity|].
  destruct (String.eqb k0 k) eqn:E; simpl.
  - apply String.eqb_eq in E. subst k0.
    apply String.eqb_neq in Hne. now rewrite Hne.
  - now rewrite IH.
Qed.

Lemma keys_del_incl d k k' : In k' (keys (del d k)) -> In k' (keys d).
Proof.
  unfold keys. induction d as [|[k0 v0] d IH]; simpl; [tauto|].
  destruct (String.eqb k0 k); simpl; [tauto|]. intros [H | H]; auto.
Qed.

Lemma wf_del d k : wf d -> wf (del d k).
Proof.
  unfold wf. induction d as [|[k0 v0] d IH]; simpl; [auto|].
  intros Hnd. inversion Hnd as [|? ? Hnotin Hnd']; subst.
  destruct (String.eqb k0 k); [assumption|].
  change (NoDup (k0 :: keys (del d k))). constructor; [|now apply IH].
  intros Hin. apply Hnotin. now apply keys_del_incl in Hin.
Qed.

Lemma get_del_same d k : wf d -> get (del d k) k = None.
Proof.
  unfold wf. induction d as [|[k0 v0] d IH]; simpl; [reflexivity|].
  intros Hnd. inversion Hnd as [|? ? Hnotin Hnd']; subst.
  destruct (String.eqb k0 k) eqn:E.
  - apply String.eqb_eq in E. subst k0. now apply get_none_keys.
  - simpl. rewrite E. now apply IH.
Qed.

Lemma keys_filter (keep : string -> bool) d :
  keys (filter (fun kv => keep (fst kv)) d) = filter keep (keys d).
Proof.
  unfold keys. induction d as [|[k0 v0] d IH]; simpl; [reflexivity|].
  destruct (keep k0); simpl; now rewrite IH.
Qed.

Lemma wf_filter (keep : string -> bool) d :
  wf d -> wf (filter (fun kv => keep (fst kv)) d).
Proof. unfold wf. rewrite keys_filter. apply NoDup_filter. Qed.

Lemma keys_set_cases d k (v : V) k' :
  In k' (keys (set d k v)) -> In k' (keys d) \/ k' = k.
Proof.
  destruct (get d k) eqn:E.
  - rewrite keys_set_mem by congruence. now left.
  - rewrite keys_set_new by assumption. intros Hin.
    apply in_app_or in Hin. destruct Hin as [Hin | [<- | []]]; auto.
Qed.

End CountFacts.

Lemma total_papers_del (m : store) (t : string) :
  total_papers m = (len_at m t + total_papers (del m t))%nat.
Proof.
  unfold total_papers, values, len_at.
  induction m as [|[t0 p0] m IH]; simpl; [reflexivity|].
  destruct (String.eqb t0 t); simpl; [reflexivity|].
  rewrite IH. lia.
Qed.

Lemma total_papers_none (m : store) :
  wf m -> (forall t, len_at m t = O) -> total_papers m = O.
Proof.
  unfold total_papers, values.
  induction m as [|[t0 p0] m IH]; intros Hwf Hlen; [reflexivity|].
  inversion Hwf as [|? ? Hnotin Hwf']; subst. simpl.
  pose proof (Hlen t0) as H0. unfold len_at in H0. simpl in H0.
  rewrite String.eqb_refl in H0. rewrite H0. simpl. apply IH; [exact Hwf'|].
  intros t. pose proof (Hlen t) as Ht. unfold len_at in *. simpl in Ht.
  destruct (String.eqb t0 t) eqn:E; [|exact Ht].
  apply String.eqb_eq in E. subst t.
  apply get_none_keys in Hnotin. now rewrite Hnotin.
Qed.

(** Two stores with unique topics and the same number of entries at
    every topic have the same number of entries. *)
Lemma total_papers_by_topic (m1 m2 : store) :
  wf m1 -> wf m2 -> (forall t, len_at m1 t = len_at m2 t) ->
  total_papers m1 = total_papers m2.
Proof.
  revert m2. induction m1 as [|[t0 p0] m1 IH]; intros m2 Hwf1 Hwf2 Hlen.
  - symmetry. apply total_papers_none; [exact Hwf2|].
    intros t. now rewrite <- Hlen.
  - inversion Hwf1 as [|? ? Hnotin Hwf1']; subst.
    rewrite (total_papers_del m2 t0), <- Hlen.
    rewrite (total_papers_del ((t0, p0) :: m1) t0).
    f_equal. simpl. rewrite String.eqb_refl.
    apply IH; [exact Hwf1' | now apply wf_del |].
    intros t. destruct (String.eqb t0 t) eqn:E.
    + apply String.eqb_eq in E. subst t. unfold len_at.
      rewrite (get_del_same m2 t0 Hwf2).
      apply get_none_keys in Hnotin. now rewrite Hnotin.
    + pose proof (Hlen t) as Ht. unfold len_at in *. simpl in Ht. rewrite E in Ht.
      apply String.eqb_neq in E. now rewrite (get_del_other m2 t0 t E).
Qed.

(** ** The mapping left at one topic *)

Lemma get_merge_all (items : list (string * dict string)) (st : merge_state)
  (t : string) :
  get (store_of (fold_left (merge_step false) items st)) t
  = merged_topic t items (get (store_of st) t).
Proof.
  revert st. induction items as [|[t0 p0] items IH]; intros st; [reflexivity|].
  cbn [fold_left merged_topic]. rewrite IH. f_equal.
  destruct st as [[J n] cu]. rewrite merge_step_store, get_set.
  change (store_of (J, n, cu)) with J.
  destruct (String.eqb t0 t) eqn:E; [|reflexivity].
  apply String.eqb_eq in E. now subst t0.
Qed.

Lemma wf_merge_all (items : list (string * dict string)) (st : merge_state) :
  wf (store_of st) -> wf (store_of (fold_left (merge_step false) items st)).
Proof.
  revert st. induction items as [|[t0 p0] items IH]; intros st Hwf; [exact Hwf|].
  cbn [fold_left]. apply IH. destruct st as [[J n] cu].
  rewrite merge_step_store. now apply wf_set.
Qed.

Lemma merged_topic_absent (t : string) (items : list (string * dict string))
  (acc : option (dict string)) :
  (forall p, ~ In (t, p) items) -> merged_topic t items acc = acc.
Proof.
  revert acc. induction items as [|[t0 p0] items IH]; intros acc Hnot; [reflexivity|].
  cbn [merged_topic]. destruct (String.eqb t0 t) eqn:E.
  - apply String.eqb_eq in E. subst t0. exfalso. apply (Hnot p0). now left.
  - apply IH. intros p Hin. apply (Hnot p). now right.
Qed.

Lemma merged_topic_covered (t : string) (items : list (string * dict string))
  (cur : dict string) :
  (forall p, In (t, p) items -> forall k, In k (keys p) -> In k (keys cur)) ->
  exists cur', merged_topic t items (Some cur) = Some cur' /\ keys cur' = keys cur.
Proof.
  revert cur. induction items as [|[t0 p0] items IH]; intros cur Hcov.
  - exists cur. auto.
  - cbn [merged_topic]. destruct (String.eqb t0 t) eqn:E.
    + apply String.eqb_eq in E. subst t0.
      assert (Hk : keys (update cur p0) = keys cur).
      { apply keys_update_covered. apply (Hcov p0). now left. }
      destruct (IH (update cur p0)) as [cur' [Hm Hk']].
      * intros p Hin k Hkin. rewrite Hk. apply (Hcov p); [now right | exact Hkin].
      * exists cur'. split; [exact Hm | congruence].
    + apply IH. intros p Hin. apply Hcov. now right.
Qed.

Lemma merged_topic_from_empty (t : string) (items : list (string * dict string)) :
  (forall p, In (t, p) items -> wf p) ->
  match merged_topic t items (Some []) with Some p => len p | None => O end
  = match merged_topic t items None with Some p => len p | None => O end.
Proof.
  induction items as [|[t0 p0] items IH]; intros Hwf; [reflexivity|].
  cbn [merged_topic]. destruct (String.eqb t0 t) eqn:E.
  - apply String.eqb_eq in E. subst t0.
    rewrite update_nil_wf by (apply Hwf; now left). reflexivity.
  - apply IH. intros p Hin. apply Hwf. now right.
Qed.

(** ** The additions a run reports *)

Lemma merge_step_updates (J : store) (n : nat) (cu : dict nat) (t0 t : string)
  (p0 : dict string) :
  In t (keys (snd (merge_step false (J, n, cu) (t0, p0)))) ->
  In t (keys cu) \/ t = t0.
Proof.
  unfold merge_step. destruct (get J t0) as [cur|]; cbn [snd].
  - destruct (0 <? len (update cur p0) - len cur)%nat; [|now left].
    apply keys_set_cases.
  - apply keys_set_cases.
Qed.

Lemma merge_all_updates (current_keywords : dict string)
  (items : list (string * dict string)) (J : store) (n : nat) (cu : dict nat) :
  (forall t p, In (t, p) items -> configured current_keywords t = true ->
     exists cur, get J t = Some cur
                 /\ forall k, In k (keys p) -> In k (keys cur)) ->
  forall t,
    In t (keys (snd (fold_left (merge_step false) items (J, n, cu)))) ->
    In t (keys cu)
    \/ (configured current_keywords t = false /\ exists p, In (t, p) items).
Proof.
  revert J n cu. induction items as [|[t0 p0] items IH]; intros J n cu Hcov t Hin.
  - now left.
  - cbn [fold_left] in Hin.
    destruct (merge_step false (J, n, cu) (t0, p0)) as [[J' n'] cu'] eqn:Estep.
    assert (HJ' : J' = store_of (merge_step false (J, n, cu) (t0, p0)))
      by now rewrite Estep.
    assert (Hcu' : cu' = snd (merge_step false (J, n, cu) (t0, p0)))
      by now rewrite Estep.
    destruct (IH J' n' cu') with (t := t) as [Hcu | [Hst [p Hp]]].
    + intros t1 p1 Hin1 Hc1.
      destruct (Hcov t1 p1 (or_intror Hin1) Hc1) as [cur [Hget Hincl]].
      destruct (merge_step_grows J n cu t0 t1 p0 cur Hget) as [cur' [Hget' Hincl']].
      exists cur'. rewrite HJ'. split; auto.
    + exact Hin.
    + destruct (configured current_keywords t0) eqn:Ec.
      * destruct (Hcov t0 p0 (or_introl eq_refl) Ec) as [cur [Hget Hincl]].
        destruct (merge_step_covered J n cu t0 p0 cur Hget Hincl) as [Hstep _].
        rewrite Hstep in Hcu'. simpl in Hcu'. subst cu'. now left.
      * rewrite Hcu' in Hcu. apply merge_step_updates in Hcu.
        destruct Hcu as [Hcu | ->]; [now left|].
        right. split; [exact Ec|]. exists p0. now left.
    + right. split; [exact Hst|]. exists p. now right.
Qed.

(** ** Claims on the merge *)

Section DictExt.
Context {V : Type}.

(** Two dicts with the same keys in the same order and the same value
    at every key are the same dict. *)
Lemma dict_ext (d1 d2 : dict V) :
  wf d1 -> keys d1 = keys d2 -> (forall k, get d1 k = get d2 k) -> d1 = d2.
Proof.
  unfold wf, keys. revert d2.
  induction d1 as [|[k1 v1] r1 IH]; intros d2 Hwf Hk Hg.
  - destruct d2; [reflexivity | discriminate].
  - destruct d2 as [|[k2 v2] r2]; [discriminate|].
    cbn [map fst] in Hk, Hwf. injection Hk as <- Hk.
    inversion Hwf as [|? ? Hnotin Hwf']; subst.
    pose proof (Hg k1) as H1. cbn [get] in H1.
    rewrite String.eqb_refl in H1. injection H1 as <-.
    f_equal. apply IH; auto. intros k. pose proof (Hg k) as Hgk.
    cbn [get] in Hgk. destruct (String.eqb k1 k) eqn:E; [|exact Hgk].
    apply String.eqb_eq in E. subst k.
    assert (H1 : get r1 k1 = None) by now apply get_none_keys.
    assert (H2 : get r2 k1 = None).
    { apply get_none_keys. unfold keys. now rewrite <- Hk. }
    congruence.
Qed.

Lemma wf_update (d p : dict V) : wf d -> wf (update d p).
Proof.
  unfold update. revert d. induction p as [|[k v] p IH]; intros d Hwf; simpl.
  - exact Hwf.
  - apply IH. now apply wf_set.
Qed.

Lemma filter_all (f : string * V -> bool) (d : dict V) :
  (forall kv, In kv d -> f kv = true) -> filter f d = d.
Proof.
  induction d as [|kv d IH]; intros H; simpl; [reflexivity|].
  rewrite (H kv (or_introl eq_refl)). f_equal. apply IH.
  intros kv' Hin. apply H. now right.
Qed.

End DictExt.

Lemma merged_topic_wf (t : string) (items : list (string * dict string))
  (acc : option (dict string)) (r : dict string) :
  (forall p, In (t, p) items -> wf p) ->
  (forall cur, acc = Some cur -> wf cur) ->
  merged_topic t items acc = Some r -> wf r.
Proof.
  revert acc. induction items as [|[t0 p0] items IH]; intros acc Hp Hacc Hm.
  - now apply Hacc.
  - cbn [merged_topic] in Hm. eapply IH; [| |exact Hm].
    + intros p Hin. apply Hp. now right.
    + intros cur Hcur. destruct (String.eqb t0 t) eqn:E; [|now apply Hacc].
      apply String.eqb_eq in E. subst t0. injection Hcur as <-.
      destruct acc as [c|].
      * apply wf_update. now apply Hacc.
      * apply Hp. now left.
Qed.

Lemma keys_merge_all_present (items : list (string * dict string)) (J : store)
  (n : nat) (cu : dict nat) :
  (forall t p, In (t, p) items -> get J t <> None) ->
  keys (store_of (fold_left (merge_step false) items (J, n, cu))) = keys J.
Proof.
  revert J n cu. induction items as [|[t0 p0] items IH]; intros J n cu Hin.
  - reflexivity.
  - cbn [fold_left].
    destruct (merge_step false (J, n, cu) (t0, p0)) as [[J' n'] cu'] eqn:Estep.
    assert (HJ' : J' = store_of (merge_step false (J, n, cu) (t0, p0)))
      by now rewrite Estep.
    rewrite merge_step_store in HJ'.
    rewrite IH.
    + rewrite HJ'. apply keys_set_mem. apply (Hin t0 p0). now left.
    + intros t p Hp. rewrite HJ', get_set.
      destruct (String.eqb t0 t); [discriminate|]. apply (Hin t p). now right.
Qed.

(** Two runs of the merge with the same batch. *)
Lemma update_json_file_twice (S : store) (data_dict : list store)
  (current_keywords : dict string) :
  wf S ->
  batch_wf data_dict ->
  exists S1 existing1 updated1 new1 updates1,
    update_json_file (Some (Doc S)) data_dict current_keywords false
    = (Some (Doc S1), Ok (existing1, updated1, new1, updates1))
    /\ updated1 = total_papers S1
    /\ exists S2 new2 updates2,
         update_json_file (Some (Doc S1)) data_dict current_keywords false
         = (Some (Doc S2), Ok (updated1, updated1, new2, updates2))
         /\ (forall topic key, entry S2 topic key = entry S1 topic key)
         /\ (forall topic, len_at S2 topic = len_at S1 topic)
         /\ total_papers S2 = total_papers S1
         /\ (forall topic,
                configured current_keywords topic = true ->
                get updates2 topic = None)
         /\ (batch_configured data_dict current_keywords -> updates2 = [])
         /\ (store_wf S -> batch_configured data_dict current_keywords ->
             S2 = if (0 <? total_papers S1)%nat
                  then filter (is_configured current_keywords) S1 else S1).
Proof.
  intros HwfS Hwf.
  set (items := concat data_dict) in *.
  set (keep := is_configured current_keywords).
  assert (Hrem : forall J, fst (remove_old_keywords J current_keywords)
                           = filter keep J)
    by (intros; apply remove_old_keywords_filter).
  assert (Hgetkeep : forall (J : store) t,
             get (filter keep J) t
             = if configured current_keywords t then get J t else None).
  { intros J t. apply (get_filter_keys (configured current_keywords)). }
  assert (Hwfkeep : forall J : store, wf J -> wf (filter keep J)).
  { intros J. apply (wf_filter (configured current_keywords)). }
  (* the first run *)
  pose (J1 := if (0 <? total_papers S)%nat then filter keep S else S).
  assert (HJ1 : stale_empty current_keywords J1).
  { unfold J1. destruct (0 <? total_papers S)%nat eqn:E.
    - apply stale_empty_filter.
    - intros t p Hin _. apply (total_papers_zero S t p); [|exact Hin].
      apply Nat.ltb_ge in E. lia. }
  assert (HwfJ1 : wf J1).
  { unfold J1. destruct (0 <? total_papers S)%nat; auto. }
  destruct (fold_left (merge_step false) items (J1, O, []))
    as [[S1 n1] cu1] eqn:E1.
  assert (HS1 : S1 = store_of (fold_left (merge_step false) items (J1, O, [])))
    by now rewrite E1.
  assert (HwfS1 : wf S1) by (rewrite HS1; now apply wf_merge_all).
  assert (Hcov1 : covers S1 items) by (rewrite HS1; apply merge_all_covers).
  assert (Hent1 : forall t k,
             entry S1 t k = match last_row items t k with
                            | Some row => Some row
                            | None => entry J1 t k
                            end).
  { intros t k. rewrite HS1. now apply entry_merge_all. }
  assert (Hget1 : forall t, get S1 t = merged_topic t items (get J1 t)).
  { intros t. rewrite HS1. apply get_merge_all. }
  assert (Hstale1 : forall t p,
             get J1 t = Some p -> configured current_keywords t = false ->
             p = []).
  { intros t p Hg Hc. apply (HJ1 t p); [now apply get_some_in | exact Hc]. }
  (* the second run *)
  pose (J2 := if (0 <? total_papers S1)%nat then filter keep S1 else S1).
  assert (HwfJ2 : wf J2).
  { unfold J2. destruct (0 <? total_papers S1)%nat; auto. }
  assert (HgetJ2 : forall t,
             get J2 t
             = if (0 <? total_papers S1)%nat
                  && negb (configured current_keywords t)
               then None else get S1 t).
  { intros t. unfold J2. destruct (0 <? total_papers S1)%nat; [|reflexivity].
    rewrite Hgetkeep. now destruct (configured current_keywords t). }
  destruct (fold_left (merge_step false) items (J2, O, []))
    as [[S2 n2] cu2] eqn:E2.
  assert (HS2 : S2 = store_of (fold_left (merge_step false) items (J2, O, [])))
    by now rewrite E2.
  assert (Hcu2 : cu2 = snd (fold_left (merge_step false) items (J2, O, [])))
    by now rewrite E2.
  assert (HwfS2 : wf S2) by (rewrite HS2; now apply wf_merge_all).
  assert (Hget2 : forall t, get S2 t = merged_topic t items (get J2 t)).
  { intros t. rewrite HS2. apply get_merge_all. }
  assert (Hlen : forall t, len_at S2 t = len_at S1 t).
  { intros t. unfold len_at. rewrite Hget2, HgetJ2.
    destruct ((0 <? total_papers S1)%nat && negb (configured current_keywords t))
      eqn:Eb.
    - apply andb_true_iff in Eb. destruct Eb as [_ Ec].
      apply negb_true_iff in Ec. rewrite Hget1.
      destruct (get J1 t) as [p|] eqn:EJ1; [|reflexivity].
      rewrite (Hstale1 t p EJ1 Ec). symmetry.
      apply merged_topic_from_empty. intros q Hin. now apply (Hwf t q).
    - destruct (get S1 t) as [cur|] eqn:ES1.
      + destruct (merged_topic_covered t items cur) as [cur' [Hm Hk]].
        { intros p Hin k Hkin. destruct (Hcov1 t p Hin) as [c [Hg Hi]].
          rewrite ES1 in Hg. injection Hg as <-. now apply Hi. }
        rewrite Hm, (len_keys cur'), Hk. symmetry. apply len_keys.
      + rewrite merged_topic_absent; [reflexivity|].
        intros p Hin. destruct (Hcov1 t p Hin) as [c [Hg _]]. congruence. }
  assert (Htot : total_papers S2 = total_papers S1)
    by now apply total_papers_by_topic.
  assert (Hent2 : forall t k, entry S2 t k = entry S1 t k).
  { intros t k.
    assert (H2 : entry S2 t k = match last_row items t k with
                                | Some row => Some row
                                | None => entry J2 t k
                                end).
    { rewrite HS2. now apply entry_merge_all. }
    rewrite H2. destruct (last_row items t k) eqn:El.
    - now rewrite Hent1, El.
    - unfold entry at 1. rewrite HgetJ2.
      destruct ((0 <? total_papers S1)%nat
                && negb (configured current_keywords t)) eqn:Eb;
        [|reflexivity].
      apply andb_true_iff in Eb. destruct Eb as [_ Ec].
      apply negb_true_iff in Ec. rewrite Hent1, El. unfold entry.
      destruct (get J1 t) as [p|] eqn:EJ1; [|reflexivity].
      now rewrite (Hstale1 t p EJ1 Ec). }
  assert (Hupd : forall t,
             In t (keys cu2) ->
             configured current_keywords t = false /\ exists p, In (t, p) items).
  { intros t Hin. rewrite Hcu2 in Hin.
    apply (merge_all_updates current_keywords) in Hin.
    - destruct Hin as [[] | H]. exact H.
    - intros t1 p1 Hin1 Hc1. destruct (Hcov1 t1 p1 Hin1) as [cur [Hg Hi]].
      exists cur. split; [|exact Hi]. rewrite HgetJ2, Hc1.
      now rewrite andb_false_r. }
  assert (Hstore : store_wf S -> batch_configured data_dict current_keywords ->
                   S2 = J2).
  { intros [_ HinS] Hconf.
    assert (HinJ1 : forall t cur, get J1 t = Some cur -> wf cur).
    { intros t cur Hg. apply get_some_in in Hg. apply (HinS t cur).
      unfold J1 in Hg. destruct (0 <? total_papers S)%nat; [|exact Hg].
      apply filter_In in Hg. tauto. }
    assert (HinS1 : forall t cur, get S1 t = Some cur -> wf cur).
    { intros t cur Hg. rewrite Hget1 in Hg.
      apply (merged_topic_wf t items (get J1 t) cur);
        [intros p Hin; now apply (Hwf t p)
        |intros c Hc; now apply (HinJ1 t)
        |exact Hg]. }
    assert (HJ2S1 : forall t cur, get J2 t = Some cur -> get S1 t = Some cur).
    { intros t cur Hg. rewrite HgetJ2 in Hg.
      now destruct ((0 <? total_papers S1)%nat
                    && negb (configured current_keywords t)). }
    assert (Hpresent : forall t p, In (t, p) items -> get J2 t <> None).
    { intros t p Hin. rewrite HgetJ2.
      assert (Hc : configured current_keywords t = true).
      { apply existsb_eqb_In. now apply (Hconf t p). }
      rewrite Hc, andb_false_r. destruct (Hcov1 t p Hin) as [c [Hg _]].
      congruence. }
    apply dict_ext; [exact HwfS2 | |].
    - rewrite HS2. now apply keys_merge_all_present.
    - intros t. rewrite Hget2. destruct (get J2 t) as [cur|] eqn:EJ2.
      + pose proof (HJ2S1 t cur EJ2) as ES1.
        destruct (merged_topic_covered t items cur) as [cur' [Hm Hk]].
        { intros p Hin k Hkin. destruct (Hcov1 t p Hin) as [c [Hg Hi]].
          rewrite ES1 in Hg. injection Hg as <-. now apply Hi. }
        rewrite Hm. f_equal. apply dict_ext; [|exact Hk|].
        * apply (merged_topic_wf t items (Some cur) cur');
            [intros p Hin; now apply (Hwf t p)
            |intros c [= <-]; now apply (HinS1 t)
            |exact Hm].
        * intros k. pose proof (Hent2 t k) as He. unfold entry in He.
          now rewrite Hget2, EJ2, Hm, ES1 in He.
      + apply merged_topic_absent. intros p Hin.
        now apply (Hpresent t p Hin). }
  exists S1, (total_papers S), (total_papers S1), n1, cu1. split; [|split; [reflexivity|]].
  { unfold update_json_file. cbn [load_existing negb andb]. rewrite Hrem.
    match goal with
    | |- context [merge_all ?c ?b ?st] =>
        replace (merge_all c b st) with (S1, n1, cu1) by (symmetry; exact E1)
    end.
    reflexivity. }
  exists S2, n2, cu2. split.
  { unfold update_json_file. cbn [load_existing negb andb]. rewrite Hrem.
    match goal with
    | |- context [merge_all ?c ?b ?st] =>
        replace (merge_all c b st) with (S2, n2, cu2) by (symmetry; exact E2)
    end.
    now rewrite Htot. }
  split; [exact Hent2|]. split; [exact Hlen|]. split; [exact Htot|].
  split; [|split; [|exact Hstore]].
  - intros t Hc. apply get_none_keys. intros Hin.
    destruct (Hupd t Hin) as [Hst _]. congruence.
  - intros Hconf. destruct cu2 as [|[t x] r]; [reflexivity|]. exfalso.
    destruct (Hupd t (or_introl eq_refl)) as [Hst [p Hp]].
    assert (Hc : configured current_keywords t = true).
    { apply existsb_eqb_In. now apply (Hconf t p). }
    congruence.
Qed.

Lemma sample_batch_configured : batch_configured sample_batch sample_keywords.
Proof.
  intros t p Hin. cbn in Hin.
  destruct Hin as [[= <- _] | [[= <- _] | []]]; cbn; auto.
Qed.

(** C1. For every store and every fetched batch whose topics are
    configured, as the topics of every batch the orchestrator collects
    are, reconciling without [clear_existing] and then reconciling the
    same batch again against the store just written leaves every entry
    as it was and the number of entries as it was, in the whole store
    and at each topic (the second run returns the updated count of the
    first both as its existing and as its updated count), and the
    second run reports no addition for any topic.  The store written
    by the second run is the one written by the first without its
    topics that are not configured, when it has entries at all; such
    topics hold no entry, and when there are none the two stores are
    the same. *)
Theorem update_json_file_idempotent (S : store) (data_dict : list store)
  (current_keywords : dict string) :
  wf S ->
  batch_wf data_dict ->
  batch_configured data_dict current_keywords ->
  exists S1 existing1 updated1 new1 updates1,
    update_json_file (Some (Doc S)) data_dict current_keywords false
    = (Some (Doc S1), Ok (existing1, updated1, new1, updates1))
    /\ updated1 = total_papers S1
    /\ exists S2 new2,
         update_json_file (Some (Doc S1)) data_dict current_keywords false
         = (Some (Doc S2), Ok (updated1, updated1, new2, []))
         /\ (forall topic key, entry S2 topic key = entry S1 topic key)
         /\ (forall topic, len_at S2 topic = len_at S1 topic)
         /\ total_papers S2 = total_papers S1
         /\ (store_wf S ->
             S2 = if (0 <? total_papers S1)%nat
                  then filter (is_configured current_keywords) S1 else S1)
         /\ (store_wf S ->
             (forall topic,
                 In topic (keys S1) ->
                 configured current_keywords topic = true) ->
             S2 = S1).
Proof.
  intros HwfS Hwf Hconf.
  destruct (update_json_file_twice S data_dict current_keywords HwfS Hwf)
    as [S1 [e1 [u1 [n1 [cu1 [Hrun1 [Hu1 [S2 [n2 [cu2 H2]]]]]]]]]].
  destruct H2 as [Hrun2 [Hent [Hlen [Htot [_ [Hnone Hstore]]]]]].
  exists S1, e1, u1, n1, cu1. split; [exact Hrun1|]. split; [exact Hu1|].
  exists S2, n2. rewrite (Hnone Hconf) in Hrun2.
  split; [exact Hrun2|]. split; [exact Hent|]. split; [exact Hlen|].
  split; [exact Htot|]. split.
  - intros HS. now apply Hstore.
  - intros HS Hall. rewrite (Hstore HS Hconf).
    destruct (0 <? total_papers S1)%nat; [|reflexivity].
    apply filter_all. intros [t p] Hin. unfold is_configured. cbn [fst].
    apply Hall. unfold keys. change t with (fst (t, p)). now apply in_map.
Qed.

Lemma update_json_file_idempotent_witness :
  wf retention_store
  /\ batch_wf sample_batch
  /\ batch_configured sample_batch sample_keywords
  /\ store_wf retention_store
  /\ exists S1 existing1 updated1 new1 updates1,
       update_json_file (Some (Doc retention_store)) sample_batch
         sample_keywords false
       = (Some (Doc S1), Ok (existing1, updated1, new1, updates1))
       /\ updated1 = total_papers S1
       /\ exists S2 new2,
            update_json_file (Some (Doc S1)) sample_batch sample_keywords false
            = (Some (Doc S2), Ok (updated1, updated1, new2, []))
            /\ (forall topic key, entry S2 topic key = entry S1 topic key)
            /\ (forall topic, len_at S2 topic = len_at S1 topic)
            /\ total_papers S2 = total_papers S1
            /\ S2 = (if (0 <? total_papers S1)%nat
                     then filter (is_configured sample_keywords) S1 else S1).
Proof.
  split; [apply nodupb_sound; reflexivity|].
  split; [apply batch_wfb_sound; reflexivity|].
  split; [exact sample_batch_configured|].
  split; [apply store_wfb_sound; reflexivity|].
  destruct (update_json_file_idempotent retention_store sample_batch
              sample_keywords (nodupb_sound (keys retention_store) eq_refl)
              (batch_wfb_sound sample_batch eq_refl) sample_batch_configured)
    as [S1 [e1 [u1 [n1 [cu1 [Hrun1 [Hu1 [S2 [n2 H2]]]]]]]]].
  destruct H2 as [Hrun2 [Hent [Hlen [Htot [Hstore _]]]]].
  exists S1, e1, u1, n1, cu1. split; [exact Hrun1|]. split; [exact Hu1|].
  exists S2, n2. split; [exact Hrun2|]. split; [exact Hent|].
  split; [exact Hlen|]. split; [exact Htot|].
  apply Hstore. apply store_wfb_sound. reflexivity.
Defined.

(** The two runs of the witness, evaluated. *)
Example update_json_file_twice_example :
  exists S1,
    update_json_file (Some (Doc retention_store)) sample_batch sample_keywords false
    = (Some (Doc S1), Ok (3, 4, 1, [("SLAM", 1)]))%nat
    /\ update_json_file (Some (Doc S1)) sample_batch sample_keywords false
       = (Some (Doc S1), Ok (4, 4, 1, []))%nat.
Proof. eexists. split; vm_compute; reflexivity. Qed.

(** A batch whose topic is not configured, which the orchestrator
    never passes: the first run stores the topic, the second run
    removes it as stale and inserts it again from the batch, and
    reports one addition for it. *)
Example update_json_file_unconfigured_example :
  exists S1,
    update_json_file (Some (Doc [])) unconfigured_batch sample_keywords false
    = (Some (Doc S1), Ok (0, 1, 1, [("Robotics", 1)]))%nat
    /\ update_json_file (Some (Doc S1)) unconfigured_batch sample_keywords false
       = (Some (Doc S1), Ok (1, 1, 1, [("Robotics", 1)]))%nat.
Proof. eexists. split; vm_compute; reflexivity. Qed.

(** A store with a topic that is not configured and has no entry: the
    first run reads no entry and leaves the topic, the second run
    removes it; the entries are the same. *)
Example update_json_file_stale_topic_example :
  update_json_file (Some (Doc [("Old", [])]))
    [[("SLAM", [("2403.00001", row_2024)])]] sample_keywords false
  = (Some (Doc [("Old", []); ("SLAM", [("2403.00001", row_2024)])]),
     Ok (0, 1, 1, [("SLAM", 1)]))%nat
  /\ update_json_file
       (Some (Doc [("Old", []); ("SLAM", [("2403.00001", row_2024)])]))
       [[("SLAM", [("2403.00001", row_2024)])]] sample_keywords false
     = (Some (Doc [("SLAM", [("2403.00001", row_2024)])]),
        Ok (1, 1, 1, []))%nat.
Proof. split; vm_compute; reflexivity. Qed.

(** * Further properties of the code *)

(** ** The fetcher *)

(** X1. In the last-author mode a list of authors that is not empty
    gives its final author, whose name is what the row shows; in the
    joined mode the names are separated by a comma and a space. *)
Theorem get_authors_last (front : list Author) (a : Author) :
  (exists out,
      get_authors (front ++ [a])%list true = Ok out
      /\ format_output out = author_name a)
  /\ get_authors (front ++ [a])%list false
     = Ok (OutStr (String.concat ", "
                     (map author_name front ++ [author_name a])%list)).
Proof.
  split.
  - exists (OutAuthor a). split; [|reflexivity].
    unfold get_authors, index_last. cbn [negb].
    rewrite rev_app_distr. cbn [rev app].
    destruct front; reflexivity.
  - unfold get_authors. cbn [negb]. now rewrite map_app.
Qed.

Lemma find_from_split (c : ascii) (s : string) (pos : Z) :
  (PyStr.contains c s = false /\ PyStr.find_from c s pos = (-1)%Z)
  \/ exists a b,
       s = a ++ String c b
       /\ PyStr.contains c a = false
       /\ PyStr.find_from c s pos = (pos + Z.of_nat (String.length a))%Z.
Proof.
  revert pos. induction s as [|x s IH]; intros pos.
  - left. auto.
  - simpl. destruct (Ascii.eqb x c) eqn:E.
    + right. apply Ascii.eqb_eq in E. subst x.
      exists EmptyString, s. simpl. repeat split. lia.
    + destruct (IH (pos + 1)%Z) as [[Hc Hf] | [a [b [Hs [Hc Hf]]]]].
      * left. simpl. auto.
      * right. exists (String x a), b. simpl. rewrite E, Hc, Hf.
        subst s. repeat split. lia.
Qed.

Lemma find_from_prefix (c : ascii) (base rest : string) (pos : Z) :
  PyStr.contains c base = false ->
  PyStr.find_from c (base ++ String c rest) pos
  = (pos + Z.of_nat (String.length base))%Z.
Proof.
  revert pos. induction base as [|x s IH]; intros pos Hbase; simpl.
  - rewrite Ascii.eqb_refl. lia.
  - simpl in Hbase. apply orb_false_iff in Hbase. destruct Hbase as [Hx Hs].
    rewrite Hx, (IH _ Hs). lia.
Qed.

Lemma paper_key_cases (paper_id : string) :
  (PyStr.contains "v" paper_id = false /\ paper_key paper_id = paper_id)
  \/ exists base rest,
       paper_id = base ++ String "v" rest
       /\ PyStr.contains "v" base = false
       /\ paper_key paper_id = base.
Proof.
  destruct (find_from_split "v" paper_id 0) as [[Hc Hf] | [a [b [Hs [Hc Hf]]]]].
  - left. split; [exact Hc | now apply paper_key_without_v].
  - right. exists a, b. repeat split; auto.
    unfold paper_key, PyStr.find. rewrite Hf.
    assert (Hne : (0 + Z.of_nat (String.length a) =? -1)%Z = false)
      by (apply Z.eqb_neq; lia).
    rewrite Hne. unfold PyStr.slice.
    replace (Z.to_nat (0 + Z.of_nat (String.length a)) - 0)%nat
      with (String.length a) by lia.
    subst paper_id. apply substring_prefix.
Qed.

(** X2. The key of an identifier is the identifier when it holds no
    ['v'] and its part before the first ['v'] otherwise; so a key holds
    no ['v'], and the key of a key is the key itself. *)
Theorem paper_key_idempotent (paper_id : string) :
  PyStr.contains "v" (paper_key paper_id) = false
  /\ paper_key (paper_key paper_id) = paper_key paper_id
  /\ (forall base rest,
         paper_id = base ++ String "v" rest ->
         PyStr.contains "v" base = false ->
         paper_key paper_id = base).
Proof.
  assert (Hno : PyStr.contains "v" (paper_key paper_id) = false).
  { destruct (paper_key_cases paper_id) as [[Hc Hk] | [a [b [Hs [Hc Hk]]]]];
      now rewrite Hk. }
  split; [exact Hno|]. split; [now apply paper_key_without_v|].
  intros base rest Hs Hbase.
  destruct (find_from_split "v" paper_id 0) as [[Hc Hf] | [a [b [Hs' [Hc Hf]]]]].
  - subst paper_id. rewrite contains_append in Hc. simpl in Hc.
    rewrite orb_true_r in Hc. discriminate.
  - unfold paper_key, PyStr.find.
    assert (Hfb : PyStr.find_from "v" paper_id 0
                  = (0 + Z.of_nat (String.length base))%Z)
      by (rewrite Hs; now apply find_from_prefix).
    rewrite Hfb.
    assert (Hne : (0 + Z.of_nat (String.length base) =? -1)%Z = false)
      by (apply Z.eqb_neq; lia).
    rewrite Hne. unfold PyStr.slice.
    replace (Z.to_nat (0 + Z.of_nat (String.length base)) - 0)%nat
      with (String.length base) by lia.
    subst paper_id. apply substring_prefix.
Qed.

Lemma paper_key_idempotent_witness :
  paper_key (paper_key "2108.09112v1") = paper_key "2108.09112v1"
  /\ paper_key "2108.09112v1" = "2108.09112".
Proof.
  destruct (paper_key_idempotent "2108.09112v1") as [_ [H1 H2]].
  split; [exact H1|]. apply (H2 "2108.09112" "1"); reflexivity.
Defined.

Lemma entry_of_ok (show_abstract : bool) (r : Result) :
  exists row, entry_of show_abstract r = Ok (paper_key (short_id r), row).
Proof.
  unfold entry_of.
  destruct (get_authors_never_raises (authors r) false) as [o1 H1].
  destruct (get_authors_never_raises (authors r) true) as [o2 H2].
  rewrite H1, H2. simpl. eauto.
Qed.

Lemma consume_content (show_abstract : bool) (s : stream) (content : dict string) :
  wf content ->
  let final := fst (consume show_abstract s content) in
  wf final
  /\ (forall key,
         get final key
         = match last_result_row show_abstract (yielded s) key with
           | Some row => Some row
           | None => get content key
           end)
  /\ (len final <= len content + length (yielded s))%nat.
Proof.
  revert content. induction s as [|r rest IH|e]; intros content Hwf; cbn zeta.
  - simpl. repeat split; auto. lia.
  - cbn [consume yielded last_result_row].
    destruct (entry_of_ok show_abstract r) as [row Hrow]. rewrite Hrow.
    destruct (IH (set content (paper_key (short_id r)) row) (wf_set _ _ _ Hwf))
      as [Hw [Hg Hl]].
    split; [exact Hw|]. split.
    + intros key. rewrite Hg.
      destruct (last_result_row show_abstract (yielded rest) key); [reflexivity|].
      rewrite get_set. now destruct (String.eqb (paper_key (short_id r)) key).
    + cbn [length]. eapply Nat.le_trans; [exact Hl|].
      assert (len (set content (paper_key (short_id r)) row) <= S (len content))%nat.
      { rewrite !len_keys. destruct (get content (paper_key (short_id r))) eqn:E.
        - rewrite keys_set_mem by congruence. lia.
        - rewrite keys_set_new by assumption. rewrite length_app. simpl. lia. }
      lia.
  - simpl. repeat split; auto. lia.
Qed.

(** X3. [get_daily_papers] returns the requested topic alone, with a
    mapping of unique keys that holds, for each key, the row of the
    last result yielded with that key: two versions of one paper give
    one entry, and there are at most as many entries as results
    yielded before the stream stopped or failed. *)
Theorem get_daily_papers_dedup (client : provider) (topic query : string)
  (max_results : nat) (start_date end_date : option date)
  (show_abstract : bool) :
  let results :=
    yielded (client (full_query query start_date end_date) max_results) in
  exists content,
    get_daily_papers client topic query max_results start_date end_date
      show_abstract = [(topic, content)]
    /\ wf content
    /\ (forall key,
           get content key = last_result_row show_abstract results key)
    /\ (len content <= length results)%nat.
Proof.
  cbn zeta. unfold get_daily_papers, get_daily_papers_log.
  pose proof (consume_content show_abstract
                (client (full_query query start_date end_date) max_results) [])
    as H.
  destruct (consume show_abstract
              (client (full_query query start_date end_date) max_results) [])
    as [content caught].
  cbn zeta in H. cbn [fst] in *.
  destruct H as [Hw [Hg Hl]]; [constructor|].
  exists content. repeat split; auto.
  intros key. rewrite Hg. now destruct (last_result_row _ _ key).
Qed.

(** ** Dates written by the fetcher and read by the pruner *)

Lemma digit_val_digit_char (n : Z) : digit_val (digit_char n) = Some (n mod 10)%Z.
Proof.
  unfold digit_val, digit_char.
  assert (Hk : (Z.to_nat (n mod 10) < 10)%nat)
    by (pose proof (Z.mod_pos_bound n 10); lia).
  rewrite nat_ascii_embedding by lia.
  assert (H1 : (48 <=? 48 + Z.to_nat (n mod 10))%nat = true)
    by (apply Nat.leb_le; lia).
  assert (H2 : (48 + Z.to_nat (n mod 10) <=? 57)%nat = true)
    by (apply Nat.leb_le; lia).
  rewrite H1, H2. cbn [andb]. f_equal.
  pose proof (Z.mod_pos_bound n 10). lia.
Qed.

Lemma year_digits (y : Z) :
  (0 <= y <= 9999)%Z ->
  (1000 * ((y / 1000) mod 10) + 100 * ((y / 100) mod 10)
   + 10 * ((y / 10) mod 10) + y mod 10 = y)%Z.
Proof. intros H. Z.to_euclidean_division_equations. lia. Qed.

Lemma parse_month_fmt2 (m : Z) (rest : string) :
  (1 <= m <= 12)%Z -> parse_month (fmt2 m ++ rest) = Some (m, rest).
Proof.
  intros H. remember (Z.to_nat m) as k eqn:Ek.
  assert (Hm : m = Z.of_nat k) by lia. subst m. clear Ek.
  do 13 (destruct k as [|k]; [try (exfalso; lia); try reflexivity|]).
  exfalso. lia.
Qed.

Lemma parse_day_fmt2 (d : Z) (rest : string) :
  (1 <= d <= 31)%Z -> parse_day (fmt2 d ++ rest) = Some (d, rest).
Proof.
  intros H. remember (Z.to_nat d) as k eqn:Ek.
  assert (Hd : d = Z.of_nat k) by lia. subst d. clear Ek.
  do 32 (destruct k as [|k]; [try (exfalso; lia); try reflexivity|]).
  exfalso. lia.
Qed.

Lemma strptime_digits (y1 y2 y3 y4 : ascii) (r : string) :
  strptime (String y1 (String y2 (String y3 (String y4 (String "-" r)))))
  = match digit_val y1, digit_val y2, digit_val y3, digit_val y4 with
    | Some a, Some b, Some c, Some d =>
        match parse_month r with
        | Some (m, String "-" r') =>
            match parse_day r' with
            | Some (dd, EmptyString) =>
                let res := mkdate (1000 * a + 100 * b + 10 * c + d) m dd in
                if valid res then Some res else None
            | _ => None
            end
        | _ => None
        end
    | _, _, _, _ => None
    end.
Proof. reflexivity. Qed.

Lemma days_in_month_le (y m : Z) : (days_in_month y m <= 31)%Z.
Proof.
  unfold days_in_month.
  repeat match goal with |- context [if ?b then _ else _] => destruct b end; lia.
Qed.

(** The text of a calendar date parses back to the date. *)
Lemma strptime_to_str (d : date) : valid d = true -> strptime (to_str d) = Some d.
Proof.
  intros Hv. pose proof Hv as Hb. unfold valid in Hb.
  rewrite !andb_true_iff, !Z.leb_le in Hb.
  destruct Hb as [[[[[Hy1 Hy2] Hm1] Hm2] Hd1] Hd2].
  pose proof (days_in_month_le (year d) (month d)) as Hdim.
  destruct d as [y m dd]. cbn [year month day] in *.
  assert (Hshape : to_str (mkdate y m dd)
                   = String (digit_char (y / 1000)) (String (digit_char (y / 100))
                       (String (digit_char (y / 10)) (String (digit_char y)
                          (String "-" (fmt2 m ++ String "-" (fmt2 dd ++ EmptyString)))))))
    by reflexivity.
  rewrite Hshape, strptime_digits, !digit_val_digit_char.
  rewrite parse_month_fmt2 by lia. rewrite parse_day_fmt2 by lia.
  cbv zeta. rewrite year_digits by lia. now rewrite Hv.
Qed.

Lemma row_of_fields_head (fields : list string) :
  exists z, row_of_fields fields = String "|" z.
Proof. destruct fields; simpl; eauto. Qed.

Lemma split_row_cons (f : string) (fields : list string) :
  PyStr.contains "|" f = false ->
  PyStr.split "|" (row_of_fields (f :: fields))
  = EmptyString :: f :: tl (PyStr.split "|" (row_of_fields fields)).
Proof.
  intros Hf.
  change (row_of_fields (f :: fields))
    with (String "|" (f ++ row_of_fields fields)).
  destruct (row_of_fields_head fields) as [z ->].
  change (PyStr.split "|" (String "|" (f ++ String "|" z)))
    with (EmptyString :: PyStr.split "|" (f ++ String "|" z)).
  rewrite (split_field _ _ _ Hf). reflexivity.
Qed.

Lemma strip_bold_wrapped (s : string) :
  PyStr.strip ("**" ++ s ++ "**") = "**" ++ s ++ "**".
Proof.
  unfold PyStr.strip.
  change (PyStr.lstrip ("**" ++ s ++ "**")) with ("**" ++ s ++ "**").
  change ("**" ++ s ++ "**") with (String "*" (String "*" s) ++ "**").
  now rewrite rstrip_append.
Qed.

(** The date field of a row of fields, as the pruner reads it. *)
Lemma parse_date_row_of_fields (d : date) (more : list string) :
  valid d = true ->
  parse_date_from_content (row_of_fields (("**" ++ to_str d ++ "**") :: more))
  = Some d.
Proof.
  intros Hv. pose proof (to_str_all_plain d) as Hp.
  unfold parse_date_from_content.
  assert (Hc : PyStr.contains "|"
                 (row_of_fields (("**" ++ to_str d ++ "**") :: more)) = true)
    by reflexivity.
  rewrite Hc. rewrite split_row_cons
    by (rewrite !contains_append, (contains_all_plain _ Hp); reflexivity).
  destruct (row_of_fields_head more) as [z Hz]. rewrite Hz.
  change (PyStr.split "|" (String "|" z)) with (EmptyString :: PyStr.split "|" z).
  cbn [tl]. destruct (PyStr.split "|" z) as [|p ps] eqn:Es;
    [now apply split_nonempty in Es|].
  cbn [length Nat.leb nth].
  rewrite strip_bold_wrapped, (replace_bold_wrapped _ (has_bold_all_plain _ Hp)).
  now apply strptime_to_str.
Qed.

(** X4. The pruner reads from every row the fetcher formats the
    publication date of the record, whatever its other fields hold:
    the date field is written first and holds no delimiter. *)
Theorem fetched_row_date (show_abstract : bool) (r : Result) (key row : string) :
  entry_of show_abstract r = Ok (key, row) ->
  valid (published r) = true ->
  parse_date_from_content row = Some (published r).
Proof.
  intros Hentry Hv. unfold entry_of in Hentry.
  destruct (get_authors (authors r) false) as [o1|]; [|discriminate].
  destruct (get_authors (authors r) true) as [o2|]; [|discriminate].
  simpl in Hentry. injection Hentry as _ <-.
  rewrite format_row_fields. now apply parse_date_row_of_fields.
Qed.

Lemma fetched_row_date_witness :
  entry_of false result_pipe
  = Ok ("2403.00002",
        "|**2024-03-02**|**Measurement of |V_ub|**|C. Author|hep-ex|[2403.00002](http://arxiv.org/abs/2403.00002)||"
          ++ String newline EmptyString)
  /\ valid (published result_pipe) = true
  /\ parse_date_from_content
       ("|**2024-03-02**|**Measurement of |V_ub|**|C. Author|hep-ex|[2403.00002](http://arxiv.org/abs/2403.00002)||"
          ++ String newline EmptyString)
     = Some (mkdate 2024 3 2).
Proof.
  split; [reflexivity|]. split; [reflexivity|].
  exact (fetched_row_date false result_pipe _ _ eq_refl eq_refl).
Defined.

(** ** The texts that parse as a date *)

Lemma digit_val_inv (c : ascii) (a : Z) :
  digit_val c = Some a -> (0 <= a <= 9)%Z /\ c = digit_char a.
Proof.
  unfold digit_val, digit_char.
  destruct ((48 <=? nat_of_ascii c) && (nat_of_ascii c <=? 57))%nat eqn:E;
    [|discriminate].
  apply andb_true_iff in E. destruct E as [E1 E2].
  apply Nat.leb_le in E1. apply Nat.leb_le in E2.
  intros [= <-]. split; [lia|].
  rewrite Z.mod_small by lia.
  replace (48 + Z.to_nat (Z.of_nat (nat_of_ascii c) - 48))%nat
    with (nat_of_ascii c) by lia.
  symmetry. apply ascii_nat_embedding.
Qed.

Lemma digit_cases (a : Z) :
  (0 <= a <= 9)%Z ->
  a = 0%Z \/ a = 1%Z \/ a = 2%Z \/ a = 3%Z \/ a = 4%Z \/ a = 5%Z \/ a = 6%Z
  \/ a = 7%Z \/ a = 8%Z \/ a = 9%Z.
Proof. lia. Qed.

(** A character that reads as a digit is one of the ten digits. *)
Lemma digit_val_cases (c : ascii) (a : Z) :
  digit_val c = Some a ->
  In (c, a)
    [("0"%char, 0%Z); ("1"%char, 1%Z); ("2"%char, 2%Z); ("3"%char, 3%Z);
     ("4"%char, 4%Z); ("5"%char, 5%Z); ("6"%char, 6%Z); ("7"%char, 7%Z);
     ("8"%char, 8%Z); ("9"%char, 9%Z)].
Proof.
  intros H. apply digit_val_inv in H. destruct H as [Hb ->].
  apply digit_cases in Hb.
  destruct Hb as [->|[->|[->|[->|[->|[->|[->|[->|[->| ->]]]]]]]]]; cbv; auto 12.
Qed.

Ltac digit_inv E :=
  apply digit_val_cases in E; cbn [In] in E;
  destruct E as [E|[E|[E|[E|[E|[E|[E|[E|[E|[E|[]]]]]]]]]]];
  injection E as <- <-.

Ltac read_as v :=
  split; [lia|];
  first [ exists (fmt2 v); split; [cbv; auto 6 | reflexivity]
        | exists (one_digit v); split; [cbv; auto 6 | reflexivity]
        | exists (String " " (one_digit v)); split; [cbv; auto 6 | reflexivity] ].

Ltac read_goal :=
  match goal with
  | |- _ /\ (exists t, In t (_ ?v) /\ _) => read_as v
  end.

Lemma parse_month_sound (r rest : string) (m : Z) :
  parse_month r = Some (m, rest) ->
  (1 <= m <= 12)%Z /\ exists t, In t (month_texts m) /\ r = t ++ rest.
Proof.
  destruct r as [|c1 r1]; [discriminate|]. unfold parse_month.
  destruct (digit_val c1) as [a|] eqn:E1.
  - destruct r1 as [|c2 r2].
    + digit_inv E1; intros H; vm_compute in H; try discriminate;
        injection H as <- <-; read_goal.
    + destruct (digit_val c2) as [b|] eqn:E2.
      * digit_inv E1; digit_inv E2; intros H; vm_compute in H; try discriminate;
          injection H as <- <-; read_goal.
      * digit_inv E1; intros H; vm_compute in H; try discriminate;
          injection H as <- <-; read_goal.
  - destruct r1 as [|c2 r2]; [discriminate|].
    destruct (digit_val c2); discriminate.
Qed.

Lemma parse_day_sound (r rest : string) (d : Z) :
  parse_day r = Some (d, rest) ->
  (1 <= d <= 31)%Z /\ exists t, In t (day_texts d) /\ r = t ++ rest.
Proof.
  destruct r as [|c1 r1]; [discriminate|]. unfold parse_day.
  destruct (digit_val c1) as [a|] eqn:E1.
  - destruct r1 as [|c2 r2].
    + digit_inv E1; intros H; vm_compute in H; try discriminate;
        injection H as <- <-; read_goal.
    + destruct (digit_val c2) as [b|] eqn:E2.
      * digit_inv E1; digit_inv E2; intros H; vm_compute in H; try discriminate;
          injection H as <- <-; read_goal.
      * digit_inv E1; intros H; vm_compute in H; try discriminate;
          injection H as <- <-; read_goal.
  - assert (Htwo : match r1 with
                   | String c2 r2 =>
                       match (None : option Z), digit_val c2 with
                       | Some 3%Z, Some b =>
                           if (b <=? 1)%Z then Some ((30 + b)%Z, r2) else None
                       | Some 1%Z, Some b => Some ((10 + b)%Z, r2)
                       | Some 2%Z, Some b => Some ((20 + b)%Z, r2)
                       | Some 0%Z, Some b =>
                           if (1 <=? b)%Z then Some (b, r2) else None
                       | _, _ => None
                       end
                   | EmptyString => None
                   end = None).
    { destruct r1 as [|c2 r2]; [reflexivity|]. now destruct (digit_val c2). }
    rewrite Htwo. destruct (Ascii.eqb c1 " ") eqn:Es; [|discriminate].
    apply Ascii.eqb_eq in Es. subst c1.
    destruct r1 as [|c2 r2]; [discriminate|].
    destruct (digit_val c2) as [b|] eqn:E2; [|discriminate].
    digit_inv E2; intros H; vm_compute in H; try discriminate;
      injection H as <- <-; read_goal.
Qed.

Lemma parse_month_complete (m : Z) (t rest : string) :
  (1 <= m <= 12)%Z -> In t (month_texts m) ->
  parse_month (t ++ String "-" rest) = Some (m, String "-" rest).
Proof.
  intros H Hin. remember (Z.to_nat m) as k eqn:Ek.
  assert (Hm : m = Z.of_nat k) by lia. subst m. clear Ek.
  do 13 (destruct k as [|k];
         [try (exfalso; lia); cbv in Hin;
          repeat (destruct Hin as [<- | Hin]; [reflexivity|]); destruct Hin|]).
  exfalso. lia.
Qed.

Lemma parse_day_complete (d : Z) (t : string) :
  (1 <= d <= 31)%Z -> In t (day_texts d) -> parse_day t = Some (d, EmptyString).
Proof.
  intros H Hin. remember (Z.to_nat d) as k eqn:Ek.
  assert (Hd : d = Z.of_nat k) by lia. subst d. clear Ek.
  do 32 (destruct k as [|k];
         [try (exfalso; lia); cbv in Hin;
          repeat (destruct Hin as [<- | Hin]; [reflexivity|]); destruct Hin|]).
  exfalso. lia.
Qed.

Lemma fmt4_digits (a b c e : Z) :
  (0 <= a <= 9)%Z -> (0 <= b <= 9)%Z -> (0 <= c <= 9)%Z -> (0 <= e <= 9)%Z ->
  fmt4 (1000 * a + 100 * b + 10 * c + e)
  = String (digit_char a) (String (digit_char b)
      (String (digit_char c) (String (digit_char e) EmptyString))).
Proof.
  intros Ha Hb Hc He. unfold fmt4, fmt2, digit_char.
  set (y := (1000 * a + 100 * b + 10 * c + e)%Z).
  assert (H1 : ((y / 1000) mod 10 = a mod 10)%Z)
    by (unfold y; Z.to_euclidean_division_equations; lia).
  assert (H2 : ((y / 100) mod 10 = b mod 10)%Z)
    by (unfold y; Z.to_euclidean_division_equations; lia).
  assert (H3 : ((y / 10) mod 10 = c mod 10)%Z)
    by (unfold y; Z.to_euclidean_division_equations; lia).
  assert (H4 : (y mod 10 = e mod 10)%Z)
    by (unfold y; Z.to_euclidean_division_equations; lia).
  now rewrite H1, H2, H3, H4.
Qed.

Lemma append_empty_r (s : string) : s ++ EmptyString = s.
Proof. induction s as [|a s IH]; simpl; [reflexivity | now rewrite IH]. Qed.

(** [strptime] accepts exactly the texts of the calendar dates. *)
Lemma strptime_spec (s : string) (d : date) :
  strptime s = Some d <-> valid d = true /\ In s (date_texts d).
Proof.
  split.
  - intros H. pose proof (strptime_valid s d H) as Hv. split; [exact Hv|].
    destruct s as [|y1 [|y2 [|y3 [|y4 [|c5 r]]]]]; try discriminate.
    destruct (Ascii.eqb c5 "-") eqn:E5.
    2: { exfalso. destruct c5 as [[] [] [] [] [] [] [] []];
           try discriminate E5; discriminate H. }
    apply Ascii.eqb_eq in E5. subst c5. rewrite strptime_digits in H.
    destruct (digit_val y1) as [a|] eqn:E1; [|discriminate].
    destruct (digit_val y2) as [b|] eqn:E2; [|discriminate].
    destruct (digit_val y3) as [c|] eqn:E3; [|discriminate].
    destruct (digit_val y4) as [e|] eqn:E4; [|discriminate].
    destruct (parse_month r) as [[m r']|] eqn:Em; [|discriminate].
    destruct r' as [|c6 r'']; [discriminate|].
    destruct (Ascii.eqb c6 "-") eqn:E6.
    2: { exfalso. destruct c6 as [[] [] [] [] [] [] [] []];
           try discriminate E6; discriminate H. }
    apply Ascii.eqb_eq in E6. subst c6.
    destruct (parse_day r'') as [[dd rest]|] eqn:Ed; [|discriminate].
    destruct rest; [|discriminate]. cbv zeta in H.
    apply digit_val_inv in E1, E2, E3, E4.
    destruct E1 as [Ha ->], E2 as [Hb ->], E3 as [Hc ->], E4 as [He ->].
    pose proof (fmt4_digits a b c e Ha Hb Hc He) as Hy.
    remember (1000 * a + 100 * b + 10 * c + e)%Z as y eqn:Ey. clear Ey.
    destruct (valid (mkdate y m dd)); [|discriminate].
    injection H as <-.
    apply parse_month_sound in Em. destruct Em as [_ [mt [Hmt ->]]].
    apply parse_day_sound in Ed. destruct Ed as [_ [dt [Hdt ->]]].
    unfold date_texts, year, month, day.
    apply in_flat_map. exists mt. split; [exact Hmt|].
    apply in_map_iff. exists dt. split; [|exact Hdt].
    rewrite Hy, append_empty_r. reflexivity.
  - intros [Hv Hin]. pose proof Hv as Hb. unfold valid in Hb.
    rewrite !andb_true_iff, !Z.leb_le in Hb.
    destruct Hb as [[[[[Hy1 Hy2] Hm1] Hm2] Hd1] Hd2].
    pose proof (days_in_month_le (year d) (month d)) as Hdim.
    unfold date_texts in Hin. apply in_flat_map in Hin.
    destruct Hin as [mt [Hmt Hin]]. apply in_map_iff in Hin.
    destruct Hin as [dt [<- Hdt]].
    destruct d as [y m dd]. cbn [year month day] in *.
    assert (Hshape : fmt4 y ++ "-" ++ mt ++ "-" ++ dt
                     = String (digit_char (y / 1000)) (String (digit_char (y / 100))
                         (String (digit_char (y / 10)) (String (digit_char y)
                            (String "-" (mt ++ String "-" dt))))))
      by reflexivity.
    rewrite Hshape, strptime_digits, !digit_val_digit_char.
    rewrite (parse_month_complete m mt) by (assumption || lia).
    rewrite (parse_day_complete dd dt) by (assumption || lia).
    cbv zeta. rewrite year_digits by lia. now rewrite Hv.
Qed.

(** ** The row of a date *)

Lemma split_inv (c : ascii) (s f g : string) (more : list string) :
  PyStr.split c s = f :: g :: more ->
  exists rest,
    s = f ++ String c rest
    /\ PyStr.contains c f = false
    /\ PyStr.split c rest = g :: more.
Proof.
  revert f. induction s as [|a s IH]; intros f H; [discriminate|].
  cbn [PyStr.split] in H. destruct (Ascii.eqb a c) eqn:E.
  - apply Ascii.eqb_eq in E. subst a. injection H as <- H.
    exists s. auto.
  - destruct (PyStr.split c s) as [|h t] eqn:Es; [discriminate|].
    injection H as <- ->.
    destruct (IH h eq_refl) as [rest [-> [Hc Hs]]].
    exists rest. cbn [PyStr.contains append]. rewrite E, Hc. auto.
Qed.

(** [parse_date_from_content] reads the date of a row, and nothing
    else. *)
Lemma parse_date_row_dated (row : string) (d : date) :
  parse_date_from_content row = Some d <-> row_dated row d.
Proof.
  unfold parse_date_from_content, row_dated. split.
  - destruct (PyStr.contains "|" row); [|discriminate].
    destruct (PyStr.split "|" row) as [|f0 [|f1 [|f2 more]]] eqn:Es;
      try discriminate.
    cbn [length Nat.leb nth]. intros H. apply strptime_spec in H.
    destruct H as [Hv Hin]. split; [exact Hv|].
    destruct (split_inv _ _ _ _ _ Es) as [r1 [-> [H0 Es1]]].
    destruct (split_inv _ _ _ _ _ Es1) as [r2 [-> [H1 _]]].
    exists f0, f1, r2. auto.
  - intros [Hv [f0 [f1 [rest [-> [H0 [H1 Hin]]]]]]].
    rewrite contains_append. cbn [append PyStr.contains].
    rewrite Ascii.eqb_refl, orb_true_r.
    rewrite (split_field _ _ _ H0), (split_field _ _ _ H1).
    destruct (PyStr.split "|" rest) as [|p ps] eqn:Er;
      [now apply split_nonempty in Er|].
    cbn [length Nat.leb nth]. apply strptime_spec. auto.
Qed.

(** C5. [cleanup_old_papers] changes nothing and returns (0, 0) when
    [keep_days <= 0].  Otherwise, on a stored document, an entry whose
    row has a publish date (the second field delimited by [|], trimmed
    and without bold markup, being a text YYYY-MM-DD of a calendar
    date) is dropped exactly when that date is before today minus
    [keep_days], and an entry whose row has no such date is kept; a
    kept entry keeps its row.  The last part states the same with the
    parse of the code. *)
Theorem cleanup_old_papers_retention (today : date) (keep_days : Z) :
  ((keep_days <= 0)%Z ->
     forall f : file, cleanup_old_papers today f keep_days = (f, Ok (O, O)))
  /\ ((0 < keep_days)%Z ->
        forall data : store, store_wf data ->
          exists data' : store,
            fst (cleanup_old_papers today (Some (Doc data)) keep_days)
              = Some (Doc data')
            /\ forall topic key row,
                 entry data topic key = Some row ->
                 (forall d,
                     row_dated row d ->
                     entry data' topic key =
                       if (toordinal d <? toordinal today - keep_days)%Z
                       then None else Some row)
                 /\ ((forall d, ~ row_dated row d) ->
                     entry data' topic key = Some row)
                 /\ entry data' topic key =
                      match parse_date_from_content row with
                      | Some paper_date =>
                          if (toordinal paper_date
                              <? toordinal today - keep_days)%Z
                          then None else Some row
                      | None => Some row
                      end).
Proof.
  split.
  - intros Hk f. unfold cleanup_old_papers.
    apply Z.leb_le in Hk. now rewrite Hk.
  - intros Hk data Hwf.
    assert (Hrule : exists data' : store,
               fst (cleanup_old_papers today (Some (Doc data)) keep_days)
                 = Some (Doc data')
               /\ forall topic key row,
                    entry data topic key = Some row ->
                    entry data' topic key =
                      match parse_date_from_content row with
                      | Some paper_date =>
                          if (toordinal paper_date
                              <? toordinal today - keep_days)%Z
                          then None else Some row
                      | None => Some row
                      end).
    { unfold cleanup_old_papers.
      assert (Hk' : (keep_days <=? 0)%Z = false) by (apply Z.leb_gt; lia).
      rewrite Hk'. cbv zeta.
      destruct (toordinal today - keep_days <? 1)%Z eqn:Hover.
      + exists data. split; [reflexivity|].
        intros topic key row Hrow. apply Z.ltb_lt in Hover.
        pose proof (keeps_below_calendar _ row Hover) as Hkeep.
        unfold keeps in Hkeep.
        destruct (parse_date_from_content row) as [d|]; auto.
        apply Z.leb_le in Hkeep.
        assert (Hlt : (toordinal d <? toordinal today - keep_days)%Z = false)
          by (apply Z.ltb_ge; lia).
        now rewrite Hlt.
      + exists (prune_all (toordinal today - keep_days) data).
        split; [reflexivity|].
        intros topic key row Hrow.
        rewrite entry_prune_all by assumption. rewrite Hrow.
        unfold keeps. destruct (parse_date_from_content row) as [d|]; auto.
        rewrite Z.ltb_antisym. now destruct (_ <=? toordinal d)%Z. }
    destruct Hrule as [data' [Hfile Hrule]]. exists data'.
    split; [exact Hfile|]. intros topic key row Hrow.
    specialize (Hrule topic key row Hrow). split; [|split; [|exact Hrule]].
    + intros d Hd. apply parse_date_row_dated in Hd. now rewrite Hrule, Hd.
    + intros Hnone. rewrite Hrule.
      destruct (parse_date_from_content row) as [d|] eqn:Ep; [|reflexivity].
      apply parse_date_row_dated in Ep. now apply Hnone in Ep.
Qed.

Lemma cleanup_old_papers_retention_witness :
  (0 <= 0)%Z /\ (0 < 30)%Z /\ store_wf retention_store
  /\ cleanup_old_papers retention_today (Some (Doc retention_store)) 0
       = (Some (Doc retention_store), Ok (O, O))
  /\ exists (data' : store) (early late undated : string),
       fst (cleanup_old_papers retention_today (Some (Doc retention_store)) 30)
         = Some (Doc data')
       /\ entry retention_store "SLAM" "2301.00001" = Some early
       /\ row_dated early (mkdate 2023 1 1)
       /\ entry data' "SLAM" "2301.00001" = None
       /\ entry retention_store "SLAM" "2401.00001" = Some late
       /\ row_dated late (mkdate 2024 1 1)
       /\ entry data' "SLAM" "2401.00001" = Some late
       /\ entry retention_store "SLAM" "2401.00002" = Some undated
       /\ (forall d, ~ row_dated undated d)
       /\ entry data' "SLAM" "2401.00002" = Some undated.
Proof.
  split; [lia|]. split; [lia|].
  split; [apply store_wfb_sound; reflexivity|].
  split.
  - apply (proj1 (cleanup_old_papers_retention retention_today 0)). lia.
  - destruct (proj2 (cleanup_old_papers_retention retention_today 30)
                ltac:(lia) retention_store
                (store_wfb_sound retention_store eq_refl))
      as [data' [Hfile Hrule]].
    assert (Hearly : row_dated
              "|**2023-01-01**|**Early**|A. Author|cs.RO|[2301.00001](http://arxiv.org/abs/2301.00001)||"
              (mkdate 2023 1 1))
      by (apply parse_date_row_dated; reflexivity).
    assert (Hlate : row_dated
              "|**2024-01-01**|**Late**|B. Author|cs.RO|[2401.00001](http://arxiv.org/abs/2401.00001)||"
              (mkdate 2024 1 1))
      by (apply parse_date_row_dated; reflexivity).
    assert (Hundated : forall d, ~ row_dated
              "|**soon**|**Undated**|C. Author|cs.RO|[2401.00002](http://arxiv.org/abs/2401.00002)||"
              d).
    { intros d Hd. apply parse_date_row_dated in Hd. discriminate Hd. }
    eexists data', _, _, _. split; [exact Hfile|].
    split; [reflexivity|]. split; [exact Hearly|].
    split; [exact (proj1 (Hrule "SLAM" "2301.00001" _ eq_refl) _ Hearly)|].
    split; [reflexivity|]. split; [exact Hlate|].
    split; [exact (proj1 (Hrule "SLAM" "2401.00001" _ eq_refl) _ Hlate)|].
    split; [reflexivity|]. split; [exact Hundated|].
    exact (proj1 (proj2 (Hrule "SLAM" "2401.00002" _ eq_refl)) Hundated).
Defined.

(** ** The configuration *)

Lemma parse_filters_loop (filters pre suf : list string) (ret : string) :
  filters = (pre ++ suf)%list ->
  fold_left
    (fun ret idx =>
       let filter := nth idx filters EmptyString in
       let ret := ret ++ filter_term filter in
       if negb (idx =? length filters - 1)%nat then ret ++ OR else ret)
    (seq (length pre) (length suf)) ret
  = ret ++ String.concat OR (map filter_term suf).
Proof.
  remember (fun (ret : string) (idx : nat) =>
              let filter := nth idx filters EmptyString in
              let ret := ret ++ filter_term filter in
              if negb (idx =? length filters - 1)%nat then ret ++ OR else ret)
    as body eqn:Hbody.
  revert pre ret. induction suf as [|f suf IH]; intros pre ret Hf.
  - simpl. now rewrite append_empty_r.
  - cbn [length seq fold_left].
    assert (Hstep : body ret (length pre)
                    = match suf with
                      | [] => ret ++ filter_term f
                      | _ :: _ => (ret ++ filter_term f) ++ OR
                      end).
    { rewrite Hbody. cbv zeta.
      assert (Hnth : nth (length pre) filters EmptyString = f)
        by (rewrite Hf; apply nth_middle).
      rewrite Hnth.
      assert (Hlen : (length filters - 1 = length pre + length suf)%nat)
        by (rewrite Hf, length_app; simpl; lia).
      rewrite Hlen. destruct suf as [|g suf].
      - simpl. now rewrite Nat.add_0_r, Nat.eqb_refl.
      - assert (Hne : (length pre =? length pre + length (g :: suf))%nat = false)
          by (apply Nat.eqb_neq; simpl; lia).
        now rewrite Hne. }
    rewrite Hstep.
    replace (S (length pre)) with (length (pre ++ [f])%list)
      by (rewrite length_app; simpl; lia).
    rewrite (IH (pre ++ [f])%list) by (rewrite Hf, <- app_assoc; reflexivity).
    destruct suf as [|g suf].
    + simpl. now rewrite append_empty_r.
    + cbn [map String.concat]. now rewrite !append_assoc.
Qed.

Lemma get_pretty_filters_fold (l : dict (list string)) (acc : dict string)
  (t : string) :
  wf l ->
  get (fold_left (fun kv item => set kv (fst item) (parse_filters (snd item)))
         l acc) t
  = match get l t with
    | Some filters => Some (parse_filters filters)
    | None => get acc t
    end.
Proof.
  revert acc. induction l as [|[t0 f0] l IH]; intros acc Hwf; [reflexivity|].
  inversion Hwf as [|? ? Hnotin Hwf']; subst.
  cbn [fold_left fst snd get]. rewrite (IH _ Hwf').
  destruct (String.eqb t0 t) eqn:E.
  - apply String.eqb_eq in E. subst t0.
    apply get_none_keys in Hnotin. rewrite Hnotin. apply get_set_same.
  - destruct (get l t); [reflexivity|].
    apply get_set_other. now apply String.eqb_neq.
Qed.

Lemma split_ws_cons (c c' : ascii) (r : string) :
  PyStr.isspace c = false -> PyStr.isspace c' = false ->
  split_ws (String c (String c' r))
  = match split_ws (String c' r) with
    | h :: t => String c h :: t
    | [] => [String c EmptyString]
    end.
Proof.
  intros Hc Hc'.
  change (split_ws (String c (String c' r)))
    with (if PyStr.isspace c then split_ws (String c' r)
          else if PyStr.isspace c' then String c EmptyString :: split_ws (String c' r)
               else match split_ws (String c' r) with
                    | h :: t => String c h :: t
                    | [] => [String c EmptyString]
                    end).
  now rewrite Hc, Hc'.
Qed.

Lemma split_ws_word (s : string) :
  has_space s = false -> s <> EmptyString -> split_ws s = [s].
Proof.
  induction s as [|c r IH]; [congruence|]. intros H _.
  cbn [has_space] in H. apply orb_false_iff in H. destruct H as [Hc Hr].
  destruct r as [|c' r']; [cbn [split_ws]; now rewrite Hc|].
  pose proof Hr as Hr'. cbn [has_space] in Hr'.
  apply orb_false_iff in Hr'. destruct Hr' as [Hc' _].
  rewrite (split_ws_cons _ _ _ Hc Hc').
  rewrite IH by (assumption || discriminate). reflexivity.
Qed.

Lemma split_ws_words (a b : string) (sp : ascii) :
  has_space a = false -> a <> EmptyString -> PyStr.isspace sp = true ->
  split_ws (a ++ String sp b) = a :: split_ws b.
Proof.
  induction a as [|c r IH]; [congruence|]. intros H _ Hsp.
  cbn [has_space] in H. apply orb_false_iff in H. destruct H as [Hc Hr].
  destruct r as [|c' r'].
  - cbn [append split_ws]. now rewrite Hc, Hsp.
  - pose proof Hr as Hr'. cbn [has_space] in Hr'.
    apply orb_false_iff in Hr'. destruct Hr' as [Hc' _].
    change (String c (String c' r') ++ String sp b)
      with (String c (String c' (r' ++ String sp b))).
    rewrite (split_ws_cons _ _ _ Hc Hc').
    change (String c' (r' ++ String sp b)) with (String c' r' ++ String sp b).
    rewrite IH by (assumption || discriminate). reflexivity.
Qed.

(** X5. [parse_filters] joins the terms of the filters with [ OR ].
    The term of a filter of several words is the filter between
    double quotes, the term of a filter of at most one word is the
    filter itself: a filter without whitespace is left as it is, two
    words separated by a space are quoted.  [pretty_filters] gives
    each configured topic the query of its own filters. *)
Theorem parse_filters_join (filters : list string) :
  parse_filters filters = String.concat " OR " (map filter_term filters)
  /\ (forall f, (length (split_ws f) <= 1)%nat -> filter_term f = f)
  /\ (forall f,
         (1 < length (split_ws f))%nat ->
         filter_term f = String "034" (f ++ String "034" EmptyString))
  /\ (forall f, has_space f = false -> filter_term f = f)
  /\ (forall a b,
         has_space a = false -> a <> EmptyString ->
         has_space b = false -> b <> EmptyString ->
         filter_term (a ++ " " ++ b)
         = String "034" ((a ++ " " ++ b) ++ String "034" EmptyString))
  /\ (forall keywords topic,
         wf keywords ->
         get (pretty_filters keywords) topic
         = option_map parse_filters (get keywords topic)).
Proof.
  assert (Hone : forall f, (length (split_ws f) <= 1)%nat -> filter_term f = f).
  { intros f Hf. unfold filter_term.
    assert (H : (1 <? length (split_ws f))%nat = false)
      by (apply Nat.ltb_ge; exact Hf).
    rewrite H. unfold QUOTA. simpl. apply append_empty_r. }
  assert (Hmany : forall f,
             (1 < length (split_ws f))%nat ->
             filter_term f = String "034" (f ++ String "034" EmptyString)).
  { intros f Hf. unfold filter_term.
    assert (H : (1 <? length (split_ws f))%nat = true)
      by (apply Nat.ltb_lt; exact Hf).
    rewrite H. reflexivity. }
  split; [|split; [exact Hone|split; [exact Hmany|split; [|split]]]].
  - unfold parse_filters.
    apply (parse_filters_loop filters [] filters EmptyString eq_refl).
  - intros f Hf. apply Hone. destruct f as [|c r]; [simpl; lia|].
    rewrite split_ws_word by (assumption || discriminate). simpl. lia.
  - intros a b Ha Hane Hb Hbne. apply Hmany.
    change (a ++ " " ++ b) with (a ++ String " " b).
    rewrite split_ws_words by (assumption || reflexivity).
    rewrite split_ws_word by assumption. simpl. lia.
  - intros keywords topic Hwf. unfold pretty_filters.
    rewrite get_pretty_filters_fold by assumption.
    now destruct (get keywords topic).
Qed.

Lemma parse_filters_join_witness :
  parse_filters ["SLAM"; "visual odometry"]
  = "SLAM OR " ++ String "034" ("visual odometry" ++ String "034" EmptyString)
  /\ filter_term "SLAM" = "SLAM"
  /\ filter_term "visual odometry"
     = String "034" ("visual odometry" ++ String "034" EmptyString)
  /\ get (pretty_filters [("SLAM", ["SLAM"; "visual odometry"])]) "SLAM"
     = Some (parse_filters ["SLAM"; "visual odometry"]).
Proof.
  destruct (parse_filters_join ["SLAM"; "visual odometry"])
    as [H1 [H2 [H3 [H4 [H5 H6]]]]].
  split; [exact H1|]. split; [|split].
  - apply H4. reflexivity.
  - apply (H5 "visual" "odometry"); (reflexivity || discriminate).
  - apply (H6 [("SLAM", ["SLAM"; "visual odometry"])] "SLAM").
    apply nodupb_sound. reflexivity.
Defined.

Lemma parse_bound_text (bound : option yaml_value) :
  bound_raises bound = false ->
  parse_bound bound
  = Ok (match bound_text bound with
        | Some t => strptime t
        | None => None
        end).
Proof.
  destruct bound as [[t|d|[]]|]; try discriminate; try reflexivity.
  intros _. cbn [parse_bound bound_text]. now destruct t.
Qed.

Lemma parse_bound_raises (bound : option yaml_value) :
  bound_raises bound = true -> parse_bound bound = Raise TypeError.
Proof. destruct bound as [[t|d|[]]|]; try discriminate; reflexivity. Qed.

(** X6. The date-range part of [load_config].  Without a block, or
    with a block that is not enabled, nothing is set.  With an enabled
    block whose bounds are strings, null or absent, each bound is set
    to the calendar date of which its string is a text YYYY-MM-DD and
    left unset otherwise; the range is enabled exactly when a bound is
    set, and exactly then the [enabled] key of the [cleanup] block, if
    the configuration has the block, is set to false.  A bound that is
    a date, as an unquoted date of the file is loaded, or another
    value that is true, ends the load with [TypeError]. *)
Theorem load_date_range_settings (cleanup : option cleanup_block)
  (start_v end_v : option yaml_value) :
  load_date_range None cleanup = Ok (mksettings None None false cleanup)
  /\ load_date_range (Some (mkrange false start_v end_v)) cleanup
     = Ok (mksettings None None false cleanup)
  /\ (bound_raises start_v = true ->
      load_date_range (Some (mkrange true start_v end_v)) cleanup
      = Raise TypeError)
  /\ (bound_raises start_v = false -> bound_raises end_v = true ->
      load_date_range (Some (mkrange true start_v end_v)) cleanup
      = Raise TypeError)
  /\ (bound_raises start_v = false -> bound_raises end_v = false ->
      exists s,
        load_date_range (Some (mkrange true start_v end_v)) cleanup = Ok s
        /\ (forall d,
               set_start_date s = Some d <->
               valid d = true
               /\ exists t, bound_text start_v = Some t /\ In t (date_texts d))
        /\ (forall d,
               set_end_date s = Some d <->
               valid d = true
               /\ exists t, bound_text end_v = Some t /\ In t (date_texts d))
        /\ set_date_range_enabled s
           = match set_start_date s, set_end_date s with
             | None, None => false
             | _, _ => true
             end
        /\ set_cleanup s
           = if set_date_range_enabled s
             then option_map
                    (fun c => mkcleanup (Some false) (cleanup_keep_days c))
                    cleanup
             else cleanup).
Proof.
  split; [reflexivity|]. split; [reflexivity|]. split; [|split].
  - intros Hs. unfold load_date_range. cbn [range_enabled range_start].
    now rewrite (parse_bound_raises _ Hs).
  - intros Hs He. unfold load_date_range.
    cbn [range_enabled range_start range_end].
    now rewrite (parse_bound_text _ Hs), (parse_bound_raises _ He).
  - intros Hs He. unfold load_date_range.
    cbn [range_enabled range_start range_end].
    rewrite (parse_bound_text _ Hs), (parse_bound_text _ He). cbn [bind].
    assert (Hread : forall (v : option yaml_value) (d : date),
               match bound_text v with
               | Some t => strptime t
               | None => None
               end = Some d <->
               valid d = true
               /\ exists t, bound_text v = Some t /\ In t (date_texts d)).
    { intros v d. destruct (bound_text v) as [t|].
      - rewrite strptime_spec. split.
        + intros [Hv Hin]. split; [exact Hv|]. exists t. auto.
        + intros [Hv [t' [[= <-] Hin]]]. auto.
      - split; [discriminate|]. now intros [_ [t [Ht _]]]. }
    set (start_date := match bound_text start_v with
                       | Some t => strptime t
                       | None => None
                       end) in *.
    set (end_date := match bound_text end_v with
                     | Some t => strptime t
                     | None => None
                     end) in *.
    pose proof (Hread start_v) as Hsd. pose proof (Hread end_v) as Hed.
    fold start_date in Hsd. fold end_date in Hed.
    destruct start_date as [ds|]; destruct end_date as [de|];
      cbv zeta; eexists; (split; [reflexivity|]);
      cbn [set_start_date set_end_date set_date_range_enabled set_cleanup];
      (split; [exact Hsd|]); (split; [exact Hed|]); (split; [reflexivity|]);
      now destruct cleanup.
Qed.

Lemma load_date_range_settings_witness :
  bound_raises (Some (YStr "2024-01-01")) = false
  /\ bound_raises (Some (YStr "soon")) = false
  /\ bound_raises (Some (YDate (mkdate 2024 1 1))) = true
  /\ load_date_range
       (Some (mkrange true (Some (YDate (mkdate 2024 1 1))) (Some (YStr "soon"))))
       None = Raise TypeError
  /\ exists s,
       load_date_range
         (Some (mkrange true (Some (YStr "2024-01-01")) (Some (YStr "soon"))))
         None = Ok s
       /\ set_start_date s = Some (mkdate 2024 1 1)
       /\ set_end_date s = None
       /\ set_date_range_enabled s = true
       /\ set_cleanup s = None.
Proof.
  split; [reflexivity|]. split; [reflexivity|]. split; [reflexivity|]. split.
  - exact (proj1 (proj2 (proj2
             (load_date_range_settings None (Some (YDate (mkdate 2024 1 1)))
                (Some (YStr "soon"))))) eq_refl).
  - destruct (proj2 (proj2 (proj2 (proj2
                (load_date_range_settings None (Some (YStr "2024-01-01"))
                   (Some (YStr "soon")))))) eq_refl eq_refl)
      as [s [Hs [Hsd [Hed [Hon Hcl]]]]].
    assert (H1 : set_start_date s = Some (mkdate 2024 1 1)).
    { apply Hsd. split; [reflexivity|]. exists "2024-01-01".
      split; [reflexivity|]. cbv. auto. }
    assert (H2 : set_end_date s = None).
    { destruct (set_end_date s) as [d|] eqn:E; [|reflexivity].
      destruct (proj1 (Hed d) eq_refl) as [Hv [t [[= <-] Hin]]].
      assert (Hp : strptime "soon" = Some d) by (apply strptime_spec; auto).
      discriminate Hp. }
    exists s. split; [exact Hs|]. split; [exact H1|]. split; [exact H2|].
    rewrite H1 in Hon. split; [exact Hon|]. now rewrite Hcl, Hon.
Defined.

(** ** The reconciler *)

Lemma removed_keywords_fold (l : list string) (d : store) (rm : dict nat)
  (t : string) :
  NoDup l ->
  get (snd (fold_left
              (fun st keyword =>
                 let removed_papers_count :=
                   match get (fst st) keyword with
                   | Some p => len p
                   | None => O
                   end in
                 (del (fst st) keyword,
                  set (snd st) keyword removed_papers_count))
              l (d, rm))) t
  = if existsb (String.eqb t) l
    then Some (match get d t with Some p => len p | None => O end)
    else get rm t.
Proof.
  revert d rm. induction l as [|k l IH]; intros d rm Hnd; [reflexivity|].
  inversion Hnd as [|? ? Hnotin Hnd']; subst.
  cbn [fold_left fst snd existsb]. rewrite (IH _ _ Hnd').
  destruct (String.eqb t k) eqn:E.
  - apply String.eqb_eq in E. subst k.
    assert (Hex : existsb (String.eqb t) l = false).
    { destruct (existsb (String.eqb t) l) eqn:Hex; [|reflexivity].
      apply existsb_eqb_In in Hex. contradiction. }
    rewrite Hex. cbn [orb]. apply get_set_same.
  - cbn [orb]. apply String.eqb_neq in E.
    rewrite get_del_other by congruence.
    destruct (existsb (String.eqb t) l); [reflexivity|].
    apply get_set_other. congruence.
Qed.

(** X7. [remove_old_keywords] keeps the configured topics as they
    are, in their order, removes every other topic, and reports each
    removed topic with the number of entries it had. *)
Theorem remove_old_keywords_report (json_data : store)
  (current_keywords : dict string) :
  wf json_data ->
  fst (remove_old_keywords json_data current_keywords)
  = filter (is_configured current_keywords) json_data
  /\ forall topic,
       get (snd (remove_old_keywords json_data current_keywords)) topic
       = if configured current_keywords topic then None
         else option_map len (get json_data topic).
Proof.
  intros Hwf. split; [apply remove_old_keywords_filter|].
  intros t. unfold remove_old_keywords.
  rewrite removed_keywords_fold by (apply NoDup_filter; exact Hwf).
  destruct (existsb (String.eqb t)
              (filter (fun kw => negb (existsb (String.eqb kw)
                                         (keys current_keywords)))
                 (keys json_data))) eqn:Hex.
  - apply existsb_eqb_In in Hex. apply filter_In in Hex.
    destruct Hex as [Hin Hst]. apply negb_true_iff in Hst.
    unfold configured. rewrite Hst.
    destruct (get json_data t) eqn:Hg; [reflexivity|].
    apply get_none_keys in Hg. contradiction.
  - destruct (configured current_keywords t) eqn:Hc; [reflexivity|].
    destruct (get json_data t) eqn:Hg; [|reflexivity].
    exfalso. assert (Hin : In t (keys json_data)).
    { apply get_some_in in Hg. change t with (fst (t, d)). now apply in_map. }
    assert (Hf : In t (filter (fun kw => negb (existsb (String.eqb kw)
                                                (keys current_keywords)))
                         (keys json_data))).
    { apply filter_In. split; [exact Hin|]. unfold configured in Hc. now rewrite Hc. }
    apply existsb_eqb_In in Hf. congruence.
Qed.

Lemma remove_old_keywords_report_witness :
  wf retention_store
  /\ fst (remove_old_keywords retention_store [("NeRF", "nerf")])
     = [("NeRF", [])]
  /\ forall topic,
       get (snd (remove_old_keywords retention_store [("NeRF", "nerf")])) topic
       = if configured [("NeRF", "nerf")] topic then None
         else option_map len (get retention_store topic).
Proof.
  split; [apply nodupb_sound; reflexivity|].
  apply (remove_old_keywords_report retention_store [("NeRF", "nerf")]).
  apply nodupb_sound; reflexivity.
Defined.

Lemma merge_step_clear (J : store) (n : nat) (cu : dict nat) (t : string)
  (p : dict string) :
  merge_step true (J, n, cu) (t, p)
  = (set J t p, (n + len p)%nat, set cu t (len p)).
Proof. unfold merge_step. now destruct (get J t). Qed.

Lemma merge_all_clear (items : list (string * dict string)) (J : store)
  (n : nat) (cu : dict nat) (t : string) :
  get (store_of (fold_left (merge_step true) items (J, n, cu))) t
  = match last_item items t with Some p => Some p | None => get J t end
  /\ get (snd (fold_left (merge_step true) items (J, n, cu))) t
     = match last_item items t with
       | Some p => Some (len p)
       | None => get cu t
       end.
Proof.
  revert J n cu. induction items as [|[t0 p0] items IH]; intros J n cu.
  - cbn. auto.
  - cbn [fold_left last_item]. rewrite merge_step_clear.
    destruct (IH (set J t0 p0) (n + len p0)%nat (set cu t0 (len p0))) as [H1 H2].
    split; (etransitivity; [first [exact H1 | exact H2]|]);
      (destruct (last_item items t); [reflexivity|]);
      rewrite get_set; now destruct (String.eqb t0 t).
Qed.

(** X8. With [clear_existing] the file is not read: whatever is at
    the path, also no file or a text that is not JSON, the call
    succeeds with an existing count of 0, and the store written holds
    for each topic the mapping of its last occurrence in the batch and
    nothing else; each such topic is reported with the size of that
    mapping. *)
Theorem update_json_file_clear (f : file) (data_dict : list store)
  (current_keywords : dict string) :
  exists S' new_papers_count category_updates,
    update_json_file f data_dict current_keywords true
    = (Some (Doc S'),
       Ok (O, total_papers S', new_papers_count, category_updates))
    /\ (forall topic, get S' topic = last_item (concat data_dict) topic)
    /\ (forall topic,
           get category_updates topic
           = option_map len (last_item (concat data_dict) topic)).
Proof.
  unfold update_json_file. cbn [load_existing negb andb]. unfold merge_all.
  pose proof (merge_all_clear (concat data_dict) [] O []) as H.
  match goal with
  | |- context [fold_left ?g ?l ?st] =>
      change (fold_left (merge_step true) (concat data_dict) ([], O, []))
        with (fold_left g l st) in H;
      destruct (fold_left g l st) as [[S' n] cu]
  end.
  exists S', n, cu. split; [reflexivity|].
  split; intros t; destruct (H t) as [H1 H2].
  - etransitivity; [exact H1|]. now destruct (last_item (concat data_dict) t).
  - etransitivity; [exact H2|]. now destruct (last_item (concat data_dict) t).
Qed.

Lemma update_json_file_doc (S : store) (data_dict : list store)
  (current_keywords : dict string) :
  batch_wf data_dict ->
  exists S1 counts,
    update_json_file (Some (Doc S)) data_dict current_keywords false
    = (Some (Doc S1), Ok counts)
    /\ forall topic key,
         entry S1 topic key
         = match last_row (concat data_dict) topic key with
           | Some row => Some row
           | None =>
               if (0 <? total_papers S)%nat
                  && negb (configured current_keywords topic)
               then None
               else entry S topic key
           end.
Proof.
  intros Hwf. unfold update_json_file. cbn [load_existing negb andb].
  rewrite remove_old_keywords_filter. unfold merge_all.
  set (J1 := if (0 <? total_papers S)%nat
             then filter (is_configured current_keywords) S else S).
  pose proof (fun t k => entry_merge_all (concat data_dict) (J1, O, []) t k Hwf)
    as H.
  match goal with
  | |- context [fold_left ?g ?l ?st] =>
      change (fold_left (merge_step false) (concat data_dict) (J1, O, []))
        with (fold_left g l st) in H;
      destruct (fold_left g l st) as [[S1 n] cu]
  end.
  eexists S1, _. split; [reflexivity|].
  intros t k. etransitivity; [exact (H t k)|].
  destruct (last_row (concat data_dict) t k); [reflexivity|].
  change (store_of (J1, O, [])) with J1. unfold J1, entry.
  destruct (0 <? total_papers S)%nat; [|reflexivity].
  change (is_configured current_keywords)
    with (fun kv : string * dict string => configured current_keywords (fst kv)).
  rewrite (get_filter_keys (configured current_keywords)).
  now destruct (configured current_keywords t).
Qed.

(** X9. After a merge, every fetched entry is in the store with the
    row of its last occurrence in the batch, a stored row of the same
    key being overwritten; every other entry keeps its row, except
    that the topics that are not configured lose their entries when
    the store read had entries at all. *)
Theorem update_json_file_entries (S : store) (data_dict : list store)
  (current_keywords : dict string) :
  batch_wf data_dict ->
  exists S1 counts,
    update_json_file (Some (Doc S)) data_dict current_keywords false
    = (Some (Doc S1), Ok counts)
    /\ forall topic key,
         entry S1 topic key
         = match last_row (concat data_dict) topic key with
           | Some row => Some row
           | None =>
               if (0 <? total_papers S)%nat
                  && negb (configured current_keywords topic)
               then None
               else entry S topic key
           end.
Proof.
  intros Hwf. unfold update_json_file. cbn [load_existing negb andb].
  rewrite remove_old_keywords_filter. unfold merge_all.
  set (J1 := if (0 <? total_papers S)%nat
             then filter (is_configured current_keywords) S else S).
  pose proof (fun t k => entry_merge_all (concat data_dict) (J1, O, []) t k Hwf)
    as H.
  match goal with
  | |- context [fold_left ?g ?l ?st] =>
      change (fold_left (merge_step false) (concat data_dict) (J1, O, []))
        with (fold_left g l st) in H;
      destruct (fold_left g l st) as [[S1 n] cu]
  end.
  eexists S1, _. split; [reflexivity|].
  intros t k. etransitivity; [exact (H t k)|].
  destruct (last_row (concat data_dict) t k); [reflexivity|].
  change (store_of (J1, O, [])) with J1. unfold J1, entry.
  destruct (0 <? total_papers S)%nat; [|reflexivity].
  change (is_configured current_keywords)
    with (fun kv : string * dict string => configured current_keywords (fst kv)).
  rewrite (get_filter_keys (configured current_keywords)).
  now destruct (configured current_keywords t).
Qed.

Lemma update_json_file_entries_witness :
  batch_wf sample_batch
  /\ exists S1 counts,
       update_json_file (Some (Doc retention_store)) sample_batch
         [("SLAM", "slam")] false
       = (Some (Doc S1), Ok counts)
       /\ forall topic key,
            entry S1 topic key
            = match last_row (concat sample_batch) topic key with
              | Some row => Some row
              | None =>
                  if (0 <? total_papers retention_store)%nat
                     && negb (configured [("SLAM", "slam")] topic)
                  then None
                  else entry retention_store topic key
              end.
Proof.
  split; [apply batch_wfb_sound; reflexivity|].
  apply (update_json_file_entries retention_store sample_batch [("SLAM", "slam")]).
  apply batch_wfb_sound; reflexivity.
Defined.

Lemma total_papers_set (J : store) (t : string) (v : dict string) :
  (total_papers (set J t v) + len_at J t = total_papers J + len v)%nat.
Proof.
  unfold total_papers, values, len_at.
  induction J as [|[t0 p0] J IH]; simpl; [lia|].
  destruct (String.eqb t0 t); simpl; lia.
Qed.

Lemma len_set_bounds {V : Type} (d : dict V) (k : string) (v : V) :
  (len d <= len (set d k v) <= S (len d))%nat.
Proof.
  rewrite !len_keys. destruct (get d k) eqn:E.
  - rewrite keys_set_mem by congruence. lia.
  - rewrite keys_set_new by assumption. rewrite length_app. simpl. lia.
Qed.

Lemma len_update_bounds {V : Type} (cur p : dict V) :
  (len cur <= len (update cur p) <= len cur + len p)%nat.
Proof.
  unfold update. revert cur. induction p as [|[k v] p IH]; intros cur; simpl.
  - lia.
  - pose proof (IH (set cur k v)). pose proof (len_set_bounds cur k v).
    unfold len in *. simpl. lia.
Qed.

Lemma merge_all_counts (items : list (string * dict string)) (J : store)
  (n : nat) (cu : dict nat) :
  exists J' cu',
    fold_left (merge_step false) items (J, n, cu)
    = (J', (n + list_sum (map (fun kv => len (snd kv)) items))%nat, cu')
    /\ (total_papers J <= total_papers J')%nat
    /\ (total_papers J'
        <= total_papers J + list_sum (map (fun kv => len (snd kv)) items))%nat.
Proof.
  revert J n cu. induction items as [|[t p] items IH]; intros J n cu.
  - exists J, cu. simpl. rewrite Nat.add_0_r. repeat split; lia.
  - cbn [fold_left map list_sum snd].
    assert (Hstep : exists J1 cu1,
               merge_step false (J, n, cu) (t, p) = (J1, (n + len p)%nat, cu1)
               /\ (total_papers J <= total_papers J1)%nat
               /\ (total_papers J1 <= total_papers J + len p)%nat).
    { unfold merge_step. destruct (get J t) as [cur|] eqn:Eg.
      - eexists _, _. split; [reflexivity|].
        pose proof (total_papers_set J t (update cur p)) as Ht.
        unfold len_at in Ht. rewrite Eg in Ht.
        pose proof (len_update_bounds cur p). lia.
      - eexists _, _. split; [reflexivity|].
        pose proof (total_papers_set J t p) as Ht.
        unfold len_at in Ht. rewrite Eg in Ht. lia. }
    destruct Hstep as [J1 [cu1 [Hs [Hlo Hhi]]]]. rewrite Hs.
    destruct (IH J1 (n + len p)%nat cu1) as [J' [cu' [Hf [Hlo' Hhi']]]].
    exists J', cu'. rewrite Hf. simpl list_sum.
    split; [f_equal; f_equal; lia|]. lia.
Qed.

Lemma total_papers_filter_le (keep : string * dict string -> bool) (J : store) :
  (total_papers (filter keep J) <= total_papers J)%nat.
Proof.
  unfold total_papers, values. induction J as [|kv J IH]; simpl; [lia|].
  destruct (keep kv); simpl; lia.
Qed.

(** X10. The counts a merge returns: the existing count is the number
    of entries read, the new count is the number of entries of all the
    fetched mappings, counted with those already stored, and the
    updated count is the number of entries written, which is at least
    the number left after the stale topics were removed and exceeds it
    by the new count at most. *)
Theorem update_json_file_counts (S : store) (data_dict : list store)
  (current_keywords : dict string) :
  exists S1 updated_count category_updates,
    update_json_file (Some (Doc S)) data_dict current_keywords false
    = (Some (Doc S1),
       Ok (total_papers S, updated_count,
           list_sum (map (fun kv => len (snd kv)) (concat data_dict)),
           category_updates))
    /\ updated_count = total_papers S1
    /\ (let kept :=
          if (0 <? total_papers S)%nat
          then total_papers (fst (remove_old_keywords S current_keywords))
          else total_papers S in
        kept <= total_papers S
        /\ kept <= updated_count
        /\ updated_count
           <= kept + list_sum (map (fun kv => len (snd kv)) (concat data_dict)))%nat.
Proof.
  unfold update_json_file. cbn [load_existing negb andb]. unfold merge_all.
  set (J1 := if (0 <? total_papers S)%nat
             then fst (remove_old_keywords S current_keywords) else S).
  destruct (merge_all_counts (concat data_dict) J1 O []) as [S1 [cu [Hf [Hlo Hhi]]]].
  match goal with
  | |- context [fold_left ?g ?l ?st] =>
      change (fold_left (merge_step false) (concat data_dict) (J1, O, []))
        with (fold_left g l st) in Hf;
      rewrite Hf
  end.
  exists S1, (total_papers S1), cu. split; [reflexivity|]. split; [reflexivity|].
  cbv zeta.
  assert (Hk : (if (0 <? total_papers S)%nat
                then total_papers (fst (remove_old_keywords S current_keywords))
                else total_papers S) = total_papers J1)
    by (unfold J1; now destruct (0 <? total_papers S)%nat).
  rewrite Hk. repeat split; auto.
  unfold J1. destruct (0 <? total_papers S)%nat; [|lia].
  rewrite remove_old_keywords_filter. apply total_papers_filter_le.
Qed.

(** ** The pruner as a filter *)

Section FilterFacts.
Context {V : Type}.
Implicit Types (d : dict V) (k : string) (v : V).

Lemma set_fresh d k v : ~ In k (keys d) -> set d k v = (d ++ [(k, v)])%list.
Proof.
  unfold keys. induction d as [|[k0 v0] d IH]; simpl; intros Hnot; [reflexivity|].
  destruct (String.eqb k0 k) eqn:E.
  - apply String.eqb_eq in E. subst. exfalso. auto.
  - f_equal. apply IH. auto.
Qed.

Lemma set_app_fresh (pre l : dict V) k v0 v :
  ~ In k (keys pre) ->
  set (pre ++ (k, v0) :: l)%list k v = (pre ++ (k, v) :: l)%list.
Proof.
  unfold keys. induction pre as [|[k1 v1] pre IH]; simpl; intros Hnot.
  - now rewrite String.eqb_refl.
  - destruct (String.eqb k1 k) eqn:E.
    + apply String.eqb_eq in E. subst. exfalso. auto.
    + f_equal. apply IH. auto.
Qed.

Lemma keys_app (d1 d2 : dict V) : keys (d1 ++ d2)%list = (keys d1 ++ keys d2)%list.
Proof. unfold keys. apply map_app. Qed.

Lemma filter_idem (f : string * V -> bool) (l : dict V) :
  filter f (filter f l) = filter f l.
Proof.
  induction l as [|x l IH]; simpl; [reflexivity|].
  destruct (f x) eqn:E; simpl; [rewrite E; f_equal|]; exact IH.
Qed.

Lemma wf_filter_any (f : string * V -> bool) (l : dict V) :
  wf l -> wf (filter f l).
Proof.
  unfold wf, keys. induction l as [|[k v] l IH]; simpl; intros Hnd; [constructor|].
  inversion Hnd as [|? ? Hnotin Hnd']; subst.
  destruct (f (k, v)); simpl; [|auto].
  constructor; [|auto]. intros Hin. apply Hnotin.
  apply in_map_iff in Hin. destruct Hin as [[k' v'] [Hk Hin]].
  apply filter_In in Hin. destruct Hin as [Hin _].
  simpl in Hk. subst k'. change k with (fst (k, v')). now apply in_map.
Qed.

End FilterFacts.

Section PruneFilter.
Variable cutoff : Z.

Lemma keep_fold_filter (papers acc : dict string) :
  NoDup (keys acc ++ keys papers) ->
  fold_left (keep_step cutoff) papers acc
  = (acc ++ filter (fun e => keeps cutoff (snd e)) papers)%list.
Proof.
  revert acc. induction papers as [|[k r] p IH]; intros acc Hnd; simpl.
  - now rewrite app_nil_r.
  - unfold keep_step at 2. cbn [fst snd].
    destruct (keeps cutoff r) eqn:Ek.
    + rewrite set_fresh.
      * rewrite IH; [now rewrite <- app_assoc|].
        rewrite keys_app. simpl. now rewrite <- app_assoc.
      * intros Hin. simpl in Hnd. apply NoDup_remove_2 in Hnd.
        apply Hnd. apply in_or_app. now left.
    + apply IH. simpl in Hnd. now apply NoDup_remove_1 in Hnd.
Qed.

Lemma papers_to_keep_filter (papers : dict string) :
  wf papers ->
  papers_to_keep cutoff papers = filter (fun e => keeps cutoff (snd e)) papers.
Proof.
  intros Hwf. unfold papers_to_keep. now rewrite keep_fold_filter.
Qed.

Lemma prune_fold_map (l pre : store) :
  NoDup (keys pre ++ keys l) ->
  fold_left (prune_step cutoff) l (pre ++ l)%list
  = (pre ++ map (fun kv => (fst kv, papers_to_keep cutoff (snd kv))) l)%list.
Proof.
  revert pre. induction l as [|[t p] l IH]; intros pre Hnd; simpl.
  - reflexivity.
  - unfold prune_step at 2. cbn [fst snd].
    rewrite set_app_fresh.
    + change (pre ++ (t, papers_to_keep cutoff p) :: l)%list
        with (pre ++ [(t, papers_to_keep cutoff p)] ++ l)%list.
      rewrite app_assoc, IH.
      * now rewrite <- app_assoc.
      * rewrite keys_app. simpl. now rewrite <- app_assoc.
    + intros Hin. simpl in Hnd. apply NoDup_remove_2 in Hnd.
      apply Hnd. apply in_or_app. now left.
Qed.

Lemma prune_all_filter (data : store) :
  store_wf data -> prune_all cutoff data = prune_filter cutoff data.
Proof.
  intros [Hwf Hin]. unfold prune_all, prune_filter.
  etransitivity; [exact (prune_fold_map data [] Hwf)|]. cbn [app].
  apply map_ext_in. intros [t p] Htp. simpl. f_equal.
  apply papers_to_keep_filter. now apply (Hin t p).
Qed.

Lemma store_wf_prune_filter (data : store) :
  store_wf data -> store_wf (prune_filter cutoff data).
Proof.
  intros [Hwf Hin]. unfold prune_filter. split.
  - unfold wf, keys. rewrite map_map. simpl. exact Hwf.
  - intros t p Htp. apply in_map_iff in Htp. destruct Htp as [[t0 p0] [Heq Hin0]].
    simpl in Heq. injection Heq as <- <-.
    apply wf_filter_any. now apply (Hin t0 p0).
Qed.

Lemma prune_filter_idem (data : store) :
  prune_filter cutoff (prune_filter cutoff data) = prune_filter cutoff data.
Proof.
  unfold prune_filter. rewrite map_map. apply map_ext. intros [t p]. simpl.
  now rewrite filter_idem.
Qed.

Lemma total_prune_filter_le (data : store) :
  (total_papers (prune_filter cutoff data) <= total_papers data)%nat.
Proof.
  unfold total_papers, values, prune_filter.
  induction data as [|[t p] data IH]; simpl; [lia|].
  pose proof (filter_length_le (fun e : string * string => keeps cutoff (snd e)) p).
  unfold len at 1 3. lia.
Qed.

End PruneFilter.

Lemma cleanup_old_papers_doc (today : date) (keep_days : Z) (data : store) :
  store_wf data ->
  (0 < keep_days)%Z ->
  cleanup_old_papers today (Some (Doc data)) keep_days
  = if (toordinal today - keep_days <? 1)%Z
    then (Some (Doc data), Raise OverflowError)
    else (Some (Doc (prune_filter (toordinal today - keep_days) data)),
          Ok (total_papers data,
              total_papers (prune_filter (toordinal today - keep_days) data))).
Proof.
  intros Hwf Hk. unfold cleanup_old_papers.
  assert (Hk' : (keep_days <=? 0)%Z = false) by (apply Z.leb_gt; lia).
  rewrite Hk'. cbv zeta.
  destruct (toordinal today - keep_days <? 1)%Z; [reflexivity|].
  now rewrite prune_all_filter.
Qed.

(** X11. With a positive [keep_days], [cleanup_old_papers] on a stored
    document raises [OverflowError] and leaves the file when the
    cutoff would precede the first day of the calendar; otherwise it
    writes the store in which each topic holds, in their order, the
    entries it kept, and returns the numbers of entries before and
    after, the second being the smaller. *)
Theorem cleanup_old_papers_filters (today : date) (keep_days : Z) (data : store) :
  store_wf data ->
  (0 < keep_days)%Z ->
  let cutoff := (toordinal today - keep_days)%Z in
  cleanup_old_papers today (Some (Doc data)) keep_days
  = (if (cutoff <? 1)%Z then (Some (Doc data), Raise OverflowError)
     else (Some (Doc (prune_filter cutoff data)),
           Ok (total_papers data, total_papers (prune_filter cutoff data))))
  /\ (total_papers (prune_filter cutoff data) <= total_papers data)%nat.
Proof.
  intros Hwf Hk. cbv zeta. split; [|apply total_prune_filter_le].
  now apply cleanup_old_papers_doc.
Qed.

Lemma cleanup_old_papers_filters_witness :
  store_wf retention_store
  /\ (0 < 30)%Z
  /\ cleanup_old_papers retention_today (Some (Doc retention_store)) 30
     = (Some (Doc (prune_filter 738870 retention_store)), Ok (3, 2))%nat.
Proof.
  split; [apply store_wfb_sound; reflexivity|]. split; [lia|].
  exact (proj1 (cleanup_old_papers_filters retention_today 30 retention_store
                  (store_wfb_sound retention_store eq_refl) eq_refl)).
Defined.

(** X12. Pruning twice is pruning once: a second [cleanup_old_papers]
    on the same day with the same [keep_days] leaves the store the
    first one wrote and returns its count twice. *)
Theorem cleanup_old_papers_idempotent (today : date) (keep_days : Z)
  (data : store) :
  store_wf data ->
  (0 < keep_days)%Z ->
  (1 <= toordinal today - keep_days)%Z ->
  exists data' before,
    cleanup_old_papers today (Some (Doc data)) keep_days
    = (Some (Doc data'), Ok (before, total_papers data'))
    /\ cleanup_old_papers today (Some (Doc data')) keep_days
       = (Some (Doc data'), Ok (total_papers data', total_papers data')).
Proof.
  intros Hwf Hk Hc.
  set (cutoff := (toordinal today - keep_days)%Z) in *.
  assert (Hov : (cutoff <? 1)%Z = false) by (apply Z.ltb_ge; lia).
  exists (prune_filter cutoff data), (total_papers data).
  pose proof (cleanup_old_papers_doc today keep_days data Hwf Hk) as H1.
  pose proof (cleanup_old_papers_doc today keep_days
                (prune_filter cutoff data)
                (store_wf_prune_filter cutoff data Hwf) Hk) as H2.
  fold cutoff in H1, H2. rewrite Hov in H1, H2.
  split; [exact H1|]. now rewrite prune_filter_idem in H2.
Qed.

Lemma cleanup_old_papers_idempotent_witness :
  store_wf retention_store
  /\ (0 < 30)%Z
  /\ (1 <= toordinal retention_today - 30)%Z
  /\ exists data' before,
       cleanup_old_papers retention_today (Some (Doc retention_store)) 30
       = (Some (Doc data'), Ok (before, total_papers data'))
       /\ cleanup_old_papers retention_today (Some (Doc data')) 30
          = (Some (Doc data'), Ok (total_papers data', total_papers data')).
Proof.
  split; [apply store_wfb_sound; reflexivity|]. split; [lia|].
  split; [vm_compute; discriminate|].
  apply (cleanup_old_papers_idempotent retention_today 30 retention_store).
  - apply store_wfb_sound; reflexivity.
  - lia.
  - vm_compute. discriminate.
Defined.

Lemma cleanup_old_papers_entry (today : date) (keep_days : Z) (data : store) :
  store_wf data ->
  (0 < keep_days)%Z ->
  exists data',
    fst (cleanup_old_papers today (Some (Doc data)) keep_days) = Some (Doc data')
    /\ forall topic key,
         entry data' topic key
         = match entry data topic key with
           | Some row =>
               if keeps (toordinal today - keep_days) row then Some row else None
           | None => None
           end.
Proof.
  intros Hwf Hk. unfold cleanup_old_papers.
  assert (Hk' : (keep_days <=? 0)%Z = false) by (apply Z.leb_gt; lia).
  rewrite Hk'. cbv zeta.
  destruct (toordinal today - keep_days <? 1)%Z eqn:Hov.
  - exists data. split; [reflexivity|]. intros t key.
    destruct (entry data t key) as [row|]; [|reflexivity].
    rewrite keeps_below_calendar; [reflexivity|]. now apply Z.ltb_lt.
  - exists (prune_all (toordinal today - keep_days) data).
    split; [reflexivity|]. intros t key. now apply entry_prune_all.
Qed.

Lemma keeps_monotone (c1 c2 : Z) (row : string) :
  (c2 <= c1)%Z -> keeps c1 row = true -> keeps c2 row = true.
Proof.
  unfold keeps. destruct (parse_date_from_content row); [|auto].
  rewrite !Z.leb_le. lia.
Qed.

(** X13. A longer retention keeps more: on the same day and the same
    store, every entry that survives [cleanup_old_papers] with some
    positive [keep_days] survives it, with the same row, with any
    larger [keep_days]. *)
Theorem cleanup_old_papers_monotone (today : date) (keep_days keep_days' : Z)
  (data : store) :
  store_wf data ->
  (0 < keep_days)%Z ->
  (keep_days <= keep_days')%Z ->
  exists data1 data2,
    fst (cleanup_old_papers today (Some (Doc data)) keep_days)
      = Some (Doc data1)
    /\ fst (cleanup_old_papers today (Some (Doc data)) keep_days')
       = Some (Doc data2)
    /\ forall topic key row,
         entry data1 topic key = Some row -> entry data2 topic key = Some row.
Proof.
  intros Hwf Hk Hle.
  destruct (cleanup_old_papers_entry today keep_days data Hwf Hk)
    as [d1 [H1 He1]].
  destruct (cleanup_old_papers_entry today keep_days' data Hwf ltac:(lia))
    as [d2 [H2 He2]].
  exists d1, d2. split; [exact H1|]. split; [exact H2|].
  intros t key row. rewrite He1, He2.
  destruct (entry data t key) as [row'|]; [|discriminate].
  destruct (keeps (toordinal today - keep_days) row') eqn:Ek; [|discriminate].
  intros [= <-].
  rewrite (keeps_monotone (toordinal today - keep_days)
             (toordinal today - keep_days') row') by (assumption || lia).
  reflexivity.
Qed.

Lemma cleanup_old_papers_monotone_witness :
  store_wf retention_store
  /\ (0 < 30)%Z
  /\ (30 <= 400)%Z
  /\ exists data1 data2,
       fst (cleanup_old_papers retention_today (Some (Doc retention_store)) 30)
         = Some (Doc data1)
       /\ fst (cleanup_old_papers retention_today (Some (Doc retention_store)) 400)
          = Some (Doc data2)
       /\ forall topic key row,
            entry data1 topic key = Some row -> entry data2 topic key = Some row.
Proof.
  split; [apply store_wfb_sound; reflexivity|]. split; [lia|]. split; [lia|].
  apply (cleanup_old_papers_monotone retention_today 30 400 retention_store).
  - apply store_wfb_sound; reflexivity.
  - lia.
  - lia.
Defined.

(** X14. [parse_date_from_content] returns only dates of the calendar,
    from rows that hold the delimiter: a row such as one dated
    2024-02-30 gives no date, and the pruner keeps it. *)
Theorem parse_date_from_content_valid (paper_content : string) (d : date) :
  parse_date_from_content paper_content = Some d ->
  valid d = true
  /\ (1 <= toordinal d)%Z
  /\ PyStr.contains "|" paper_content = true.
Proof.
  intros H. unfold parse_date_from_content in H.
  destruct (PyStr.contains "|" paper_content) eqn:Hc; [|discriminate].
  destruct (3 <=? length (PyStr.split "|" paper_content))%nat; [|discriminate].
  apply strptime_valid in H. repeat split; auto.
  now apply valid_toordinal_pos.
Qed.

Lemma parse_date_from_content_valid_witness :
  parse_date_from_content "|**2024-02-29**|x|" = Some (mkdate 2024 2 29)
  /\ parse_date_from_content "|**2024-02-30**|x|" = None
  /\ parse_date_from_content "2024-02-29" = None
  /\ valid (mkdate 2024 2 29) = true
  /\ (1 <= toordinal (mkdate 2024 2 29))%Z
  /\ PyStr.contains "|" "|**2024-02-29**|x|" = true.
Proof.
  split; [reflexivity|]. split; [reflexivity|]. split; [reflexivity|].
  exact (parse_date_from_content_valid "|**2024-02-29**|x|" (mkdate 2024 2 29)
           eq_refl).
Defined.

(** ** The order of rendering *)

Lemma key_ge_antisym (a b : string) : key_ge a b -> key_ge b a -> a = b.
Proof.
  unfold key_ge. intros Hab Hba. apply String.compare_eq_iff.
  rewrite String.compare_antisym in Hba.
  destruct (String.compare a b); simpl in *; congruence.
Qed.

Lemma key_ge_trans (a b c : string) : key_ge a b -> key_ge b c -> key_ge a c.
Proof.
  unfold key_ge. intros Hab Hbc Hac.
  destruct (String.compare a b) eqn:E; [| congruence |].
  - apply String.compare_eq_iff in E. subst. contradiction.
  - assert (Hba : String.compare b a = Lt).
    { rewrite String.compare_antisym, E. reflexivity. }
    apply Hbc. apply OrderedTypeEx.String_as_OT.cmp_lt.
    apply OrderedTypeEx.String_as_OT.lt_trans with a;
      now apply OrderedTypeEx.String_as_OT.cmp_lt.
Qed.

Lemma insert_desc_perm (k : string) (l : list string) :
  Permutation (insert_desc k l) (k :: l).
Proof.
  induction l as [|h t IH]; simpl; [reflexivity|].
  destruct (String.compare h k); try reflexivity.
  rewrite IH. apply perm_swap.
Qed.

Lemma insert_desc_hd (h k : string) (t : list string) :
  HdRel key_ge h t -> key_ge h k -> HdRel key_ge h (insert_desc k t).
Proof.
  intros Hhd Hk. destruct t as [|h' t]; simpl; [now constructor|].
  inversion Hhd; subst. destruct (String.compare h' k); now constructor.
Qed.

Lemma insert_desc_sorted (k : string) (l : list string) :
  Sorted key_ge l -> Sorted key_ge (insert_desc k l).
Proof.
  induction 1 as [|h t Hs IH Hhd]; simpl; [repeat constructor|].
  destruct (String.compare h k) eqn:E.
  - constructor; [now constructor|]. constructor. unfold key_ge.
    rewrite String.compare_antisym, E. discriminate.
  - constructor; [now constructor|]. constructor. unfold key_ge.
    rewrite String.compare_antisym, E. discriminate.
  - constructor; [exact IH|]. apply insert_desc_hd; [exact Hhd|].
    unfold key_ge. rewrite E. discriminate.
Qed.

Lemma sort_desc_sorted (l : list string) : Sorted key_ge (sort_desc l).
Proof.
  induction l as [|k l IH]; simpl; [constructor|]. now apply insert_desc_sorted.
Qed.

Lemma sort_desc_perm (l : list string) : Permutation (sort_desc l) l.
Proof.
  induction l as [|k l IH]; simpl; [reflexivity|].
  rewrite insert_desc_perm. now constructor.
Qed.

(** A list in descending order is determined by its elements. *)
Lemma sorted_desc_unique (l1 l2 : list string) :
  Sorted key_ge l1 -> Sorted key_ge l2 -> Permutation l1 l2 -> l1 = l2.
Proof.
  intros H1 H2.
  assert (Ht : Relations_1.Transitive key_ge)
    by (intros a b c; apply key_ge_trans).
  apply (Sorted_StronglySorted Ht) in H1. apply (Sorted_StronglySorted Ht) in H2.
  revert l2 H2. induction H1 as [|a l1 Hs1 IH Hall1]; intros l2 H2 Hp.
  - apply Permutation_nil in Hp. now subst.
  - destruct H2 as [|b l2 Hs2 Hall2].
    + apply Permutation_sym, Permutation_nil in Hp. discriminate.
    + assert (Hab : a = b).
      { assert (Ha : In a (b :: l2))
          by (apply (Permutation_in _ Hp); now left).
        assert (Hb : In b (a :: l1))
          by (apply (Permutation_in _ (Permutation_sym Hp)); now left).
        destruct Ha as [<- | Ha]; [reflexivity|].
        destruct Hb as [<- | Hb]; [reflexivity|].
        rewrite Forall_forall in Hall1, Hall2.
        apply key_ge_antisym; auto. }
      subst b. f_equal. apply IH; [exact Hs2|].
      now apply Permutation_cons_inv in Hp.
Qed.

Lemma in_get_wf (papers : dict string) (k v : string) :
  wf papers -> In (k, v) papers -> get papers k = Some v.
Proof.
  unfold wf, keys. induction papers as [|[k' v'] r IH]; simpl; [tauto|].
  intros Hnd [Heq | Hin].
  - injection Heq as -> ->. now rewrite String.eqb_refl.
  - inversion Hnd as [|? ? Hnotin Hnd']; subst.
    destruct (String.eqb k' k) eqn:E; auto.
    apply String.eqb_eq in E. subst. exfalso. apply Hnotin.
    change k with (fst (k, v)). now apply in_map.
Qed.

Lemma sort_papers_fold (papers : dict string) (ks : list string)
  (acc : dict string) :
  NoDup (keys acc ++ ks) ->
  (forall k, In k ks -> get papers k <> None) ->
  fold_left
    (fun output key =>
       match get papers key with
       | Some v => set output key v
       | None => output
       end) ks acc
  = (acc ++ map (fun k => (k, match get papers k with
                              | Some v => v
                              | None => EmptyString
                              end)) ks)%list.
Proof.
  revert acc. induction ks as [|k ks IH]; intros acc Hnd Hall; simpl.
  - now rewrite app_nil_r.
  - destruct (get papers k) as [v|] eqn:Ek;
      [|exfalso; apply (Hall k); [now left | exact Ek]].
    rewrite set_fresh.
    + rewrite IH.
      * now rewrite <- app_assoc.
      * rewrite keys_app. simpl. now rewrite <- app_assoc.
      * intros k' Hk'. apply Hall. now right.
    + intros Hin. apply NoDup_remove_2 in Hnd. apply Hnd.
      apply in_or_app. now left.
Qed.

Lemma sort_papers_map (papers : dict string) :
  wf papers ->
  sort_papers papers
  = map (fun k => (k, match get papers k with
                      | Some v => v
                      | None => EmptyString
                      end)) (sort_desc (keys papers)).
Proof.
  intros Hwf. unfold sort_papers.
  rewrite (sort_papers_fold papers (sort_desc (keys papers)) []); [reflexivity| |].
  - simpl. apply (Permutation_NoDup (Permutation_sym (sort_desc_perm _))). exact Hwf.
  - intros k Hk Hnone. apply (Permutation_in _ (sort_desc_perm _)) in Hk.
    apply get_none_keys in Hnone. contradiction.
Qed.

Lemma keys_sort_papers (papers : dict string) :
  wf papers -> keys (sort_papers papers) = sort_desc (keys papers).
Proof.
  intros Hwf. rewrite sort_papers_map by assumption.
  unfold keys. rewrite map_map. simpl. apply map_id.
Qed.

Lemma get_map_values (g : string -> string) (l : list string) (k : string) :
  get (map (fun x => (x, g x)) l) k
  = if existsb (String.eqb k) l then Some (g k) else None.
Proof.
  induction l as [|x l IH]; simpl; [reflexivity|].
  rewrite (String.eqb_sym k x). destruct (String.eqb x k) eqn:E; simpl.
  - apply String.eqb_eq in E. now subst.
  - exact IH.
Qed.

Lemma get_sort_papers (papers : dict string) (k : string) :
  wf papers -> get (sort_papers papers) k = get papers k.
Proof.
  intros Hwf. rewrite sort_papers_map by assumption. rewrite get_map_values.
  destruct (existsb (String.eqb k) (sort_desc (keys papers))) eqn:E.
  - destruct (get papers k) eqn:Eg; [reflexivity|].
    apply existsb_eqb_In in E. apply (Permutation_in _ (sort_desc_perm _)) in E.
    apply get_none_keys in Eg. contradiction.
  - destruct (get papers k) eqn:Eg; [|reflexivity]. exfalso.
    assert (Hin : In k (keys papers)).
    { apply get_some_in in Eg. change k with (fst (k, s)). now apply in_map. }
    apply (Permutation_in _ (Permutation_sym (sort_desc_perm _))) in Hin.
    apply existsb_eqb_In in Hin. congruence.
Qed.

Lemma wf_sort_papers (papers : dict string) :
  wf papers -> wf (sort_papers papers).
Proof.
  intros Hwf. unfold wf. rewrite keys_sort_papers by assumption.
  apply (Permutation_NoDup (Permutation_sym (sort_desc_perm _))). exact Hwf.
Qed.

(** X15. [sort_papers] returns the same mapping with its keys in
    descending order: the keys are those of the argument, each once,
    each key is not below the next, and every key has the row it had. *)
Theorem sort_papers_sorted (papers : dict string) :
  wf papers ->
  Sorted key_ge (keys (sort_papers papers))
  /\ Permutation (keys (sort_papers papers)) (keys papers)
  /\ wf (sort_papers papers)
  /\ forall k, get (sort_papers papers) k = get papers k.
Proof.
  intros Hwf. rewrite keys_sort_papers by assumption.
  split; [apply sort_desc_sorted|]. split; [apply sort_desc_perm|]. split.
  - now apply wf_sort_papers.
  - intros k. now apply get_sort_papers.
Qed.

Lemma sort_papers_sorted_witness :
  wf [("2403.00001", row_2024); ("hep-th/9901001", row_1999)]
  /\ Sorted key_ge
       (keys (sort_papers [("2403.00001", row_2024); ("hep-th/9901001", row_1999)]))
  /\ keys (sort_papers [("2403.00001", row_2024); ("hep-th/9901001", row_1999)])
     = ["hep-th/9901001"; "2403.00001"].
Proof.
  split; [apply nodupb_sound; reflexivity|].
  split; [|reflexivity].
  apply (sort_papers_sorted [("2403.00001", row_2024); ("hep-th/9901001", row_1999)]).
  apply nodupb_sound; reflexivity.
Defined.

(** X16. The order of rendering does not depend on the order of the
    store: two mappings with unique keys that give every key the same
    row are sorted into the same mapping, so sorting a permuted
    mapping, or sorting twice, changes nothing. *)
Theorem sort_papers_order_independent (papers1 papers2 : dict string) :
  wf papers1 -> wf papers2 ->
  (forall k, get papers1 k = get papers2 k) ->
  sort_papers papers1 = sort_papers papers2
  /\ sort_papers (sort_papers papers1) = sort_papers papers1.
Proof.
  assert (Hmain : forall p1 p2 : dict string,
             wf p1 -> wf p2 -> (forall k, get p1 k = get p2 k) ->
             sort_papers p1 = sort_papers p2).
  { intros p1 p2 H1 H2 Hg.
    rewrite (sort_papers_map p1 H1), (sort_papers_map p2 H2).
    assert (Hk : sort_desc (keys p1) = sort_desc (keys p2)).
    { apply sorted_desc_unique; try apply sort_desc_sorted.
      rewrite !sort_desc_perm. apply NoDup_Permutation; try assumption.
      intros k. split; intros Hin;
        destruct (get p1 k) eqn:E1; destruct (get p2 k) eqn:E2;
        try (apply get_none_keys in E1; contradiction);
        try (apply get_none_keys in E2; contradiction);
        try (pose proof (Hg k); congruence).
      - apply get_some_in in E2. change k with (fst (k, s0)). now apply in_map.
      - apply get_some_in in E1. change k with (fst (k, s)). now apply in_map. }
    rewrite Hk. apply map_ext. intros k. now rewrite Hg. }
  intros H1 H2 Hg. split; [now apply Hmain|].
  pose proof (wf_sort_papers papers1 H1) as Hw.
  apply Hmain; [exact Hw | exact H1 |].
  intros k. now apply get_sort_papers.
Qed.

Lemma sort_papers_order_independent_witness :
  wf [("2403.00001", row_2024); ("hep-th/9901001", row_1999)]
  /\ wf [("hep-th/9901001", row_1999); ("2403.00001", row_2024)]
  /\ sort_papers [("2403.00001", row_2024); ("hep-th/9901001", row_1999)]
     = sort_papers [("hep-th/9901001", row_1999); ("2403.00001", row_2024)].
Proof.
  split; [apply nodupb_sound; reflexivity|].
  split; [apply nodupb_sound; reflexivity|].
  refine (proj1 (sort_papers_order_independent
                   [("2403.00001", row_2024); ("hep-th/9901001", row_1999)]
                   [("hep-th/9901001", row_1999); ("2403.00001", row_2024)]
                   _ _ _)).
  - apply nodupb_sound; reflexivity.
  - apply nodupb_sound; reflexivity.
  - intros k. cbn [get].
    destruct (String.eqb "2403.00001" k) eqn:E1;
      destruct (String.eqb "hep-th/9901001" k) eqn:E2; try reflexivity.
    apply String.eqb_eq in E1. apply String.eqb_eq in E2. congruence.
Defined.

(** ** The math-span normaliser, continued *)

(** X17. A string with no [$], or with a single [$], has no span and
    [pretty_math] returns it as it is. *)
Theorem pretty_math_without_span (a b : string) :
  PyStr.contains "$" a = false ->
  PyStr.contains "$" b = false ->
  pretty_math (a ++ b) = a ++ b
  /\ pretty_math (a ++ "$" ++ b) = a ++ "$" ++ b.
Proof.
  intros Ha Hb. unfold pretty_math. split.
  - rewrite search_math_absent; [reflexivity|].
    rewrite contains_append, Ha, Hb. reflexivity.
  - rewrite (search_math_skip _ _ _ Ha).
    change ("$" ++ b) with (String "$" b). cbn [search_math].
    rewrite Ascii.eqb_refl, (last_dollar_absent _ Hb).
    now rewrite search_math_absent.
Qed.

Lemma pretty_math_without_span_witness :
  PyStr.contains "$" "costs 5" = false
  /\ PyStr.contains "$" " today" = false
  /\ pretty_math "costs 5 today" = "costs 5 today"
  /\ pretty_math "costs 5$ today" = "costs 5$ today".
Proof.
  split; [reflexivity|]. split; [reflexivity|].
  exact (pretty_math_without_span "costs 5" " today" eq_refl eq_refl).
Defined.

Lemma pretty_math_span (before content after : string) :
  PyStr.contains "$" before = false ->
  PyStr.contains "$" after = false ->
  PyStr.contains newline content = false ->
  pretty_math (before ++ "$" ++ content ++ "$" ++ after)
  = before
      ++ (if needs_space (PyStr.last_char before) then " " else EmptyString)
      ++ "$" ++ PyStr.strip content ++ "$"
      ++ (if needs_space (PyStr.first_char after) then " " else EmptyString)
      ++ after.
Proof.
  intros Hb Ha Hc. unfold pretty_math.
  rewrite (search_math_span _ _ _ Hb Hc Ha).
  set (span := "$" ++ content ++ "$").
  assert (Hs : before ++ "$" ++ content ++ "$" ++ after = before ++ span ++ after).
  { unfold span. simpl. now rewrite append_assoc. }
  rewrite Hs.
  assert (Hlen : S (S (String.length content)) = String.length span).
  { unfold span. simpl. rewrite length_append. simpl. lia. }
  rewrite Hlen. unfold PyStr.slice.
  replace (String.length before + String.length span - String.length before)%nat
    with (String.length span) by lia.
  rewrite substring_skip, substring_prefix, Nat.sub_0_r, substring_prefix.
  assert (Hbs : (String.length before + String.length span)%nat
                = String.length (before ++ span))
    by now rewrite length_append.
  rewrite Hbs, <- (append_assoc before span after), slice_from_skip.
  assert (Hin : substring 1 (String.length span - 1 - 1) span = content).
  { unfold span. simpl. rewrite length_append. simpl.
    replace (String.length content + 1 - 0 - 1)%nat
      with (String.length content) by lia.
    apply substring_prefix. }
  now rewrite Hin.
Qed.

Lemma contains_lstrip (c : ascii) (s : string) :
  PyStr.contains c s = false -> PyStr.contains c (PyStr.lstrip s) = false.
Proof.
  induction s as [|a s IH]; simpl; [auto|].
  intros H. apply orb_false_iff in H. destruct H as [Ha Hs].
  destruct (PyStr.isspace a); [auto|]. simpl. now rewrite Ha, Hs.
Qed.

Lemma contains_rstrip (c : ascii) (s : string) :
  PyStr.contains c s = false -> PyStr.contains c (PyStr.rstrip s) = false.
Proof.
  induction s as [|a s IH]; simpl; [auto|].
  intros H. apply orb_false_iff in H. destruct H as [Ha Hs].
  specialize (IH Hs). destruct (PyStr.rstrip s) as [|b r].
  - destruct (PyStr.isspace a); [reflexivity|]. simpl. now rewrite Ha.
  - cbn [PyStr.contains]. rewrite Ha. exact IH.
Qed.

Lemma contains_strip (c : ascii) (s : string) :
  PyStr.contains c s = false -> PyStr.contains c (PyStr.strip s) = false.
Proof. intros H. unfold PyStr.strip. now apply contains_rstrip, contains_lstrip. Qed.

Lemma rstrip_idem (s : string) : PyStr.rstrip (PyStr.rstrip s) = PyStr.rstrip s.
Proof.
  induction s as [|a s IH]; [reflexivity|]. cbn [PyStr.rstrip].
  destruct (PyStr.rstrip s) as [|b r] eqn:E.
  - destruct (PyStr.isspace a) eqn:Ea; [reflexivity|].
    cbn [PyStr.rstrip]. now rewrite Ea.
  - cbn [PyStr.rstrip] in *. now rewrite IH.
Qed.

(** a string that does not start with whitespace *)
Lemma lstrip_head (s : string) :
  match PyStr.first_char s with
  | Some c => PyStr.isspace c = false
  | None => True
  end ->
  PyStr.lstrip s = s.
Proof. destruct s as [|a s]; simpl; [auto|]. now intros ->. Qed.

Lemma first_char_lstrip (s : string) :
  match PyStr.first_char (PyStr.lstrip s) with
  | Some c => PyStr.isspace c = false
  | None => True
  end.
Proof.
  induction s as [|a s IH]; simpl; [exact I|].
  destruct (PyStr.isspace a) eqn:E; [exact IH | exact E].
Qed.

Lemma first_char_rstrip (s : string) :
  match PyStr.first_char s with
  | Some c => PyStr.isspace c = false
  | None => True
  end ->
  match PyStr.first_char (PyStr.rstrip s) with
  | Some c => PyStr.isspace c = false
  | None => True
  end.
Proof.
  destruct s as [|a s]; simpl; [auto|]. intros Ha.
  destruct (PyStr.rstrip s); [now rewrite Ha | exact Ha].
Qed.

Lemma strip_idem (s : string) : PyStr.strip (PyStr.strip s) = PyStr.strip s.
Proof.
  unfold PyStr.strip.
  rewrite (lstrip_head (PyStr.rstrip (PyStr.lstrip s))).
  - apply rstrip_idem.
  - apply first_char_rstrip, first_char_lstrip.
Qed.

Lemma last_char_snoc (s : string) (c : ascii) :
  PyStr.last_char (s ++ String c EmptyString) = Some c.
Proof.
  induction s as [|a s IH]; [reflexivity|].
  change (String a s ++ String c EmptyString)
    with (String a (s ++ String c EmptyString)).
  cbn [PyStr.last_char]. rewrite IH.
  now destruct (s ++ String c EmptyString) eqn:E; [destruct s; discriminate|].
Qed.

(** X18. On a string with a single span [pretty_math] is idempotent:
    the spaces it puts around the span and the trimming of the content
    are not repeated by a second pass. *)
Theorem pretty_math_idempotent (before content after : string) :
  PyStr.contains "$" before = false ->
  PyStr.contains "$" content = false ->
  PyStr.contains "$" after = false ->
  pretty_math (pretty_math (before ++ "$" ++ content ++ "$" ++ after))
  = pretty_math (before ++ "$" ++ content ++ "$" ++ after).
Proof.
  intros Hb Hd Ha.
  destruct (PyStr.contains newline content) eqn:Hc.
  { assert (Hsame : pretty_math (before ++ "$" ++ content ++ "$" ++ after)
                    = before ++ "$" ++ content ++ "$" ++ after).
    { unfold pretty_math.
      now rewrite (search_math_line_break _ _ _ Hb Hd Ha Hc). }
    now rewrite !Hsame. }
  rewrite (pretty_math_span _ _ _ Hb Ha Hc).
  set (sp1 := if needs_space (PyStr.last_char before) then " " else EmptyString).
  set (sp2 := if needs_space (PyStr.first_char after) then " " else EmptyString).
  rewrite <- (append_assoc before sp1).
  assert (Hb' : PyStr.contains "$" (before ++ sp1) = false).
  { rewrite contains_append, Hb. unfold sp1.
    now destruct (needs_space (PyStr.last_char before)). }
  assert (Ha' : PyStr.contains "$" (sp2 ++ after) = false).
  { rewrite contains_append, Ha. unfold sp2.
    now destruct (needs_space (PyStr.first_char after)). }
  rewrite (pretty_math_span (before ++ sp1) (PyStr.strip content) (sp2 ++ after)
             Hb' Ha' (contains_strip _ _ Hc)).
  rewrite strip_idem.
  assert (H1 : needs_space (PyStr.last_char (before ++ sp1)) = false).
  { unfold sp1. destruct (needs_space (PyStr.last_char before)) eqn:E.
    - now rewrite last_char_snoc.
    - now rewrite append_empty_r. }
  assert (H2 : needs_space (PyStr.first_char (sp2 ++ after)) = false).
  { unfold sp2. destruct (needs_space (PyStr.first_char after)) eqn:E.
    - reflexivity.
    - exact E. }
  rewrite H1, H2. reflexivity.
Qed.

Lemma pretty_math_idempotent_witness :
  PyStr.contains "$" "result" = false
  /\ PyStr.contains "$" " x+1 " = false
  /\ PyStr.contains "$" "end" = false
  /\ pretty_math (pretty_math "result$ x+1 $end") = pretty_math "result$ x+1 $end".
Proof.
  repeat (split; [reflexivity|]).
  exact (pretty_math_idempotent "result" " x+1 " "end" eq_refl eq_refl eq_refl).
Defined.

(** ** The sections of a document *)

Lemma json_to_md_doc (data : store) (to_web show_abstract : bool) :
  json_to_md (Some (Doc data)) to_web show_abstract
  = Ok (map (fun kv => (fst kv, render_topic to_web show_abstract (snd kv)))
          (filter (fun kv => PyDict.nonempty (snd kv)) data)).
Proof.
  unfold json_to_md. cbn [bind]. f_equal.
  induction data as [|kv data IH]; [reflexivity|].
  cbn [flat_map filter]. destruct (PyDict.nonempty (snd kv)); cbn [app map].
  - now rewrite IH.
  - exact IH.
Qed.

Lemma in_get_store (data : store) (topic : string) (papers : dict string) :
  wf data -> In (topic, papers) data -> get data topic = Some papers.
Proof.
  unfold wf, keys. induction data as [|[t' p'] r IH]; simpl; [tauto|].
  intros Hnd [Heq | Hin].
  - injection Heq as -> ->. now rewrite String.eqb_refl.
  - inversion Hnd as [|? ? Hnotin Hnd']; subst.
    destruct (String.eqb t' topic) eqn:E; auto.
    apply String.eqb_eq in E. subst. exfalso. apply Hnotin.
    change topic with (fst (topic, papers)). now apply in_map.
Qed.

Lemma length_sort_papers (papers : dict string) :
  wf papers -> length (sort_papers papers) = len papers.
Proof.
  intros Hwf.
  change (length (sort_papers papers)) with (len (sort_papers papers)).
  rewrite !len_keys, keys_sort_papers by assumption.
  apply Permutation_length, sort_desc_perm.
Qed.

Lemma length_render_topic (to_web show_abstract : bool) (papers : dict string) :
  wf papers ->
  (length (render_topic to_web show_abstract papers) <= len papers)%nat
  /\ (to_web = true ->
      length (render_topic to_web show_abstract papers) = len papers).
Proof.
  intros Hwf. rewrite <- (length_sort_papers papers Hwf).
  unfold render_topic. destruct to_web; cbn [negb].
  - rewrite length_map. split; [lia | reflexivity].
  - split; [|discriminate].
    induction (sort_papers papers) as [|kv l IH]; [simpl; lia|].
    cbn [flat_map]. rewrite length_app.
    destruct (parse_row show_abstract (snd kv)); simpl in *; lia.
Qed.

(** X19. [json_to_md] on a stored document writes one section for each
    topic that has entries, in the order of the store, and none for a
    topic without entries.  A section never has more items than the
    topic has entries; in the table layout it has exactly one row for
    each entry, the row stored for it after [pretty_math]. *)
Theorem json_to_md_sections (data : store) (to_web show_abstract : bool) :
  store_wf data ->
  exists sections,
    json_to_md (Some (Doc data)) to_web show_abstract = Ok sections
    /\ map fst sections
       = keys (filter (fun kv => PyDict.nonempty (snd kv)) data)
    /\ forall topic items,
         In (topic, items) sections ->
         exists papers,
           get data topic = Some papers
           /\ papers <> []
           /\ (length items <= len papers)%nat
           /\ (to_web = true ->
               length items = len papers
               /\ forall key row,
                    get papers key = Some row -> In (Row (pretty_math row)) items).
Proof.
  intros [Hwf Hin]. eexists. split; [apply json_to_md_doc|]. split.
  - unfold keys. rewrite map_map. reflexivity.
  - intros topic items Hsec. apply in_map_iff in Hsec.
    destruct Hsec as [[t papers] [Heq Hf]]. cbn [fst snd] in Heq.
    injection Heq as -> <-. apply filter_In in Hf. destruct Hf as [Hd Hne].
    cbn [snd] in Hne. exists papers.
    pose proof (Hin _ _ Hd) as Hwp.
    destruct (length_render_topic to_web show_abstract papers Hwp) as [Hle Heq].
    split; [now apply in_get_store|]. split; [now destruct papers|].
    split; [exact Hle|]. intros Hweb. split; [now apply Heq|].
    intros key row Hg. subst to_web. unfold render_topic. cbn [negb].
    rewrite <- (get_sort_papers papers key Hwp) in Hg.
    apply get_some_in in Hg.
    change (Row (pretty_math row))
      with ((fun kv : string * string => Row (pretty_math (snd kv))) (key, row)).
    now apply in_map.
Qed.

Lemma json_to_md_sections_witness :
  store_wf retention_store
  /\ exists sections,
       json_to_md (Some (Doc retention_store)) true false = Ok sections
       /\ map fst sections = ["SLAM"].
Proof.
  split; [apply store_wfb_sound; reflexivity|].
  destruct (json_to_md_sections retention_store true false
              (store_wfb_sound retention_store eq_refl))
    as [sections [H1 [H2 _]]].
  exists sections. split; [exact H1 | exact H2].
Defined.

Lemma parse_row_head (show_abstract : bool) (f1 : string) (more : list string) :
  PyStr.contains "|" f1 = false ->
  (5 <= length more)%nat ->
  exists c,
    parse_row show_abstract (row_of_fields (f1 :: more)) = Some c
    /\ card_date c = PyStr.strip (PyStr.replace_bold f1).
Proof.
  intros H1 Hmore. unfold parse_row.
  rewrite strip_row_of_fields, (split_body_cons _ _ H1).
  pose proof (split_body_length more) as Hlen.
  destruct (PyStr.split "|" (body_of_fields more)) as [|p0 rest];
    [simpl in Hlen; lia|].
  cbn [tl length nth].
  assert (Hseven : (7 <=? S (S (length rest)))%nat = true)
    by (apply Nat.leb_le; simpl in Hlen; lia).
  rewrite Hseven. eexists. split; reflexivity.
Qed.

(** X20. The styled renderer drops no row the fetcher formats: whatever
    the title, the authors, the comment and the abstract of a result
    hold, and whichever of the two row formats is written and read, the
    row has the seven parts the renderer asks for, and the card shows
    the publication date. *)
Theorem fetched_row_card (show_abstract shown : bool) (r : Result) :
  exists key row c,
    entry_of show_abstract r = Ok (key, row)
    /\ parse_row shown row = Some c
    /\ card_date c = to_str (published r).
Proof.
  unfold entry_of.
  destruct (get_authors_never_raises (authors r) false) as [o1 H1].
  destruct (get_authors_never_raises (authors r) true) as [o2 H2].
  rewrite H1, H2. cbn [bind]. cbv zeta.
  pose proof (to_str_all_plain (published r)) as Hd.
  rewrite format_row_fields.
  edestruct (parse_row_head shown ("**" ++ to_str (published r) ++ "**"))
    as [c [Hc Hdate]]; [| |eexists _, _, c; split; [reflexivity|]; split; [exact Hc|]].
  - rewrite !contains_append, (contains_all_plain _ Hd). reflexivity.
  - destruct show_abstract; simpl; lia.
  - rewrite Hdate, (replace_bold_wrapped _ (has_bold_all_plain _ Hd)).
    now apply strip_all_plain.
Qed.

(** ** The orchestrator *)

Lemma collect_items (client : provider) (cfg : config) :
  concat (collect client cfg)
  = map (fun tk =>
           (fst tk,
            fst (consume (cfg_show_abstract cfg)
                   (client (full_query (snd tk) (cfg_start_date cfg)
                              (cfg_end_date cfg))
                      (cfg_max_results cfg)) [])))
      (cfg_kv cfg).
Proof.
  unfold collect. induction (cfg_kv cfg) as [|tk l IH]; [reflexivity|].
  cbn [map concat]. rewrite IH.
  unfold get_daily_papers, get_daily_papers_log.
  destruct (consume (cfg_show_abstract cfg)
              (client (full_query (snd tk) (cfg_start_date cfg) (cfg_end_date cfg))
                 (cfg_max_results cfg)) []) as [content caught].
  reflexivity.
Qed.

Lemma collect_batch_wf (client : provider) (cfg : config) :
  batch_wf (collect client cfg).
Proof.
  unfold batch_wf. rewrite collect_items. intros topic papers Hin.
  apply in_map_iff in Hin. destruct Hin as [tk [Heq _]].
  injection Heq as _ <-.
  apply (consume_content (cfg_show_abstract cfg) _ []). constructor.
Qed.

(** X21. The batch [demo] collects has one mapping for each configured
    topic, in the order of the configuration, and every mapping has
    unique keys: every topic of the batch is a configured topic. *)
Theorem collect_batch (client : provider) (cfg : config) :
  batch_wf (collect client cfg)
  /\ batch_configured (collect client cfg) (cfg_kv cfg)
  /\ map fst (concat (collect client cfg)) = keys (cfg_kv cfg)
  /\ length (collect client cfg) = len (cfg_kv cfg).
Proof.
  split; [apply collect_batch_wf|]. split; [|split].
  - unfold batch_configured. rewrite collect_items. intros topic papers Hin.
    apply in_map_iff in Hin. destruct Hin as [tk [Heq Htk]].
    injection Heq as <- _. unfold keys. now apply in_map.
  - rewrite collect_items, map_map. reflexivity.
  - unfold collect. apply length_map.
Qed.

Lemma update_json_file_clear_eq (f : file) (data_dict : list store)
  (current_keywords : dict string) :
  exists counts,
    update_json_file f data_dict current_keywords true
    = (Some (Doc (store_of (merge_all true data_dict ([], O, [])))), Ok counts).
Proof.
  unfold update_json_file. cbn [load_existing negb andb].
  match goal with
  | |- context [merge_all true data_dict ?st] =>
      change (merge_all true data_dict ([], O, []))
        with (merge_all true data_dict st);
      destruct (merge_all true data_dict st) as [[J n] cu]
  end.
  eexists. reflexivity.
Qed.

Lemma cleanup_settings_cases (cfg : config) :
  cleanup_settings cfg
  = match cfg_cleanup cfg with
    | Some (mkcleanup (Some enabled) (Some keep_days)) => Ok (enabled, keep_days)
    | _ => Raise KeyError
    end.
Proof.
  unfold cleanup_settings. destruct (cfg_cleanup cfg) as [[[e|] [k|]]|]; reflexivity.
Qed.

Lemma run_target_date_range (today : date) (cfg : config)
  (cleanup_enabled : bool) (keep_days : Z)
  (data_collector : list store) (count_first to_web show_abstract : bool)
  (json : file) :
  cfg_date_range_enabled cfg = true ->
  run_target today cfg cleanup_enabled keep_days data_collector count_first
    to_web show_abstract json
  = (Some (Doc (store_of (merge_all true data_collector ([], O, [])))),
     json_to_md (Some (Doc (store_of (merge_all true data_collector ([], O, [])))))
       to_web show_abstract).
Proof.
  intros Hr. unfold run_target. rewrite Hr. cbn [negb].
  rewrite !andb_false_r. cbn [andb].
  destruct (update_json_file_clear_eq json data_collector (cfg_kv cfg))
    as [counts ->].
  reflexivity.
Qed.

(** X22. A run with a date range, when the configuration has the two
    cleanup settings, does not depend on what the store files hold,
    nor on whether they exist: no cleanup is made, each published
    target gets the store that holds for each topic the mapping
    fetched for it and nothing else, and the document rendered from
    that store, and the run ends without an exception.  When the
    configuration has no [cleanup] block, which [load_config] accepts
    for a date range, or the block lacks one of the two keys, the run
    ends with [KeyError] and writes nothing. *)
Theorem demo_date_range (client : provider) (today : date) (cfg : config) :
  cfg_date_range_enabled cfg = true ->
  exists S' doc_readme doc_gitpage,
    (forall topic, get S' topic = last_item (concat (collect client cfg)) topic)
    /\ json_to_md (Some (Doc S')) false (cfg_show_abstract cfg) = Ok doc_readme
    /\ json_to_md (Some (Doc S')) true false = Ok doc_gitpage
    /\ forall fs,
         demo client today cfg fs
         = match cfg_cleanup cfg with
           | Some (mkcleanup (Some _) (Some _)) =>
               (mkfiles
                  (if cfg_publish_readme cfg then Some (Doc S')
                   else json_readme fs)
                  (if cfg_publish_readme cfg then Some doc_readme
                   else md_readme fs)
                  (if cfg_publish_gitpage cfg then Some (Doc S')
                   else json_gitpage fs)
                  (if cfg_publish_gitpage cfg then Some doc_gitpage
                   else md_gitpage fs),
                Ok tt)
           | _ => (fs, Raise KeyError)
           end.
Proof.
  intros Hr.
  exists (store_of (merge_all true (collect client cfg) ([], O, []))).
  eexists. eexists.
  split; [|split; [apply json_to_md_doc | split; [apply json_to_md_doc|]]].
  - intros topic. unfold merge_all.
    destruct (merge_all_clear (concat (collect client cfg)) [] O [] topic)
      as [H1 _].
    etransitivity; [exact H1|].
    now destruct (last_item (concat (collect client cfg)) topic).
  - intros fs. unfold demo. rewrite cleanup_settings_cases.
    destruct (cfg_cleanup cfg) as [[[e|] [k|]]|]; try reflexivity.
    destruct fs as [jr mr jg mg].
    cbn [json_readme md_readme json_gitpage md_gitpage].
    destruct (cfg_publish_readme cfg); destruct (cfg_publish_gitpage cfg);
      rewrite ?(run_target_date_range today cfg _ _ _ _ _ _ _ Hr), ?json_to_md_doc;
      cbn [json_readme md_readme json_gitpage md_gitpage];
      rewrite ?(run_target_date_range today cfg _ _ _ _ _ _ _ Hr), ?json_to_md_doc;
      reflexivity.
Qed.

Lemma demo_date_range_witness :
  cfg_date_range_enabled range_config = true
  /\ cfg_date_range_enabled range_config_no_cleanup = true
  /\ demo two_results_client retention_today range_config_no_cleanup
       (mkfiles None None (Some Malformed) None)
     = (mkfiles None None (Some Malformed) None, Raise KeyError)
  /\ exists S',
       get S' "SLAM"
       = Some [("2403.00001", row_2024); ("hep-th/9901001", row_1999)]
       /\ snd (demo two_results_client retention_today range_config
                 (mkfiles None None (Some Malformed) None)) = Ok tt
       /\ json_readme (fst (demo two_results_client retention_today range_config
                              (mkfiles None None (Some Malformed) None)))
          = Some (Doc S')
       /\ json_gitpage (fst (demo two_results_client retention_today range_config
                               (mkfiles None None (Some Malformed) None)))
          = Some (Doc S').
Proof.
  split; [reflexivity|]. split; [reflexivity|]. split.
  - destruct (demo_date_range two_results_client retention_today
                range_config_no_cleanup eq_refl)
      as [S' [dr [dg [_ [_ [_ Hdemo]]]]]].
    rewrite Hdemo. reflexivity.
  - destruct (demo_date_range two_results_client retention_today range_config
                eq_refl)
      as [S' [dr [dg [Hget [_ [_ Hdemo]]]]]].
    exists S'. split; [rewrite Hget; reflexivity|].
    rewrite Hdemo. repeat split.
Defined.

Lemma run_target_missing (today : date) (cfg : config)
  (cleanup_enabled : bool) (keep_days : Z)
  (data_collector : list store) (count_first to_web show_abstract : bool) :
  cfg_date_range_enabled cfg = false ->
  run_target today cfg cleanup_enabled keep_days data_collector count_first
    to_web show_abstract None
  = (None, Raise FileNotFoundError).
Proof.
  intros Hr. unfold run_target. rewrite Hr. cbn [negb exists_file].
  rewrite !andb_false_r. cbn [andb]. reflexivity.
Qed.

(** X23. Without a date range, a run whose first published target has
    no store file ends with [FileNotFoundError] and writes nothing: the
    orchestrator guards the cleanup and the count by the existence of
    the file, but not the update.  (A configuration without the two
    cleanup settings ends the run with [KeyError] before that, and
    writes nothing either.) *)
Theorem demo_missing_store (client : provider) (today : date) (cfg : config)
  (fs : files) :
  cfg_date_range_enabled cfg = false ->
  (cfg_publish_readme cfg = true /\ json_readme fs = None)
  \/ (cfg_publish_readme cfg = false /\ cfg_publish_gitpage cfg = true
      /\ json_gitpage fs = None) ->
  demo client today cfg fs
  = (fs, Raise match cfg_cleanup cfg with
               | Some (mkcleanup (Some _) (Some _)) => FileNotFoundError
               | _ => KeyError
               end).
Proof.
  intros Hr Hcase. unfold demo. rewrite cleanup_settings_cases.
  destruct (cfg_cleanup cfg) as [[[e|] [k|]]|]; try reflexivity.
  destruct Hcase as [[Hp Hj] | [Hp [Hg Hj]]]; rewrite Hp.
  - rewrite Hj, (run_target_missing today cfg _ _ _ _ _ _ Hr).
    destruct fs as [jr mr jg mg]. cbn in *. now subst jr.
  - rewrite Hg, Hj, (run_target_missing today cfg _ _ _ _ _ _ Hr).
    destruct fs as [jr mr jg mg]. cbn in *. now subst jg.
Qed.

Lemma demo_missing_store_witness :
  cfg_date_range_enabled daily_config = false
  /\ demo two_results_client retention_today daily_config
       (mkfiles None None (Some (Doc retention_store)) None)
     = (mkfiles None None (Some (Doc retention_store)) None,
        Raise FileNotFoundError).
Proof.
  split; [reflexivity|].
  apply (demo_missing_store two_results_client retention_today daily_config
           (mkfiles None None (Some (Doc retention_store)) None) eq_refl).
  left. split; reflexivity.
Defined.

Lemma run_target_cleanup (today : date) (cfg : config) (keep_days : Z)
  (data_collector : list store) (count_first to_web show_abstract : bool)
  (S : store) :
  cfg_date_range_enabled cfg = false ->
  (0 < keep_days)%Z ->
  (1 <= toordinal today - keep_days)%Z ->
  store_wf S ->
  batch_wf data_collector ->
  exists S1 doc,
    run_target today cfg true keep_days data_collector count_first to_web
      show_abstract (Some (Doc S))
    = (Some (Doc S1), Ok doc)
    /\ json_to_md (Some (Doc S1)) to_web show_abstract = Ok doc
    /\ forall topic key,
         entry S1 topic key
         = match last_row (concat data_collector) topic key with
           | Some row => Some row
           | None =>
               if (0 <? total_papers
                          (prune_all (toordinal today - keep_days) S))%nat
                  && negb (configured (cfg_kv cfg) topic)
               then None
               else match entry S topic key with
                    | Some row =>
                        if keeps (toordinal today - keep_days) row
                        then Some row else None
                    | None => None
                    end
           end.
Proof.
  intros Hr Hk Hcut Hwf Hb. unfold run_target. rewrite Hr.
  cbn [negb andb exists_file]. unfold cleanup_old_papers.
  assert (Hk' : (keep_days <=? 0)%Z = false) by (apply Z.leb_gt; lia).
  assert (Hov : (toordinal today - keep_days <? 1)%Z = false)
    by (apply Z.ltb_ge; lia).
  rewrite Hk'. cbv zeta. rewrite Hov.
  destruct (update_json_file_doc
              (prune_all (toordinal today - keep_days) S)
              data_collector (cfg_kv cfg) Hb) as [S1 [counts [Heq Hent]]].
  rewrite Heq. eexists S1, _. split; [now rewrite json_to_md_doc|].
  split; [apply json_to_md_doc|].
  intros topic key. rewrite Hent.
  destruct (last_row (concat data_collector) topic key); [reflexivity|].
  now rewrite entry_prune_all.
Qed.

(** X24. In a daily run with the cleanup on, the README store is
    pruned before the fetched batch is merged into it: every fetched
    entry is in the store written, whatever its date; any other entry
    of that store was in the store read and is within the retention
    window; and an entry of a configured topic that is within the
    window stays.  The document is rendered from the store written. *)
Theorem demo_cleanup_before_merge (client : provider) (today : date)
  (cfg : config) (keep_days : Z) (fs : files) (S : store) :
  cfg_date_range_enabled cfg = false ->
  cfg_cleanup cfg = Some (mkcleanup (Some true) (Some keep_days)) ->
  (0 < keep_days)%Z ->
  (1 <= toordinal today - keep_days)%Z ->
  cfg_publish_readme cfg = true ->
  json_readme fs = Some (Doc S) ->
  store_wf S ->
  let batch := concat (collect client cfg) in
  let cutoff := (toordinal today - keep_days)%Z in
  exists fs' r S1 doc,
    demo client today cfg fs = (fs', r)
    /\ json_readme fs' = Some (Doc S1)
    /\ md_readme fs' = Some doc
    /\ json_to_md (Some (Doc S1)) false (cfg_show_abstract cfg) = Ok doc
    /\ (forall topic key row,
           last_row batch topic key = Some row ->
           entry S1 topic key = Some row)
    /\ (forall topic key row,
           last_row batch topic key = None ->
           entry S1 topic key = Some row ->
           entry S topic key = Some row /\ keeps cutoff row = true)
    /\ (forall topic key row,
           last_row batch topic key = None ->
           configured (cfg_kv cfg) topic = true ->
           entry S topic key = Some row ->
           keeps cutoff row = true ->
           entry S1 topic key = Some row).
Proof.
  intros Hr Hc Hk Hcut Hp Hj Hwf. cbv zeta.
  destruct (run_target_cleanup today cfg keep_days (collect client cfg) true
              false (cfg_show_abstract cfg) S Hr Hk Hcut Hwf
              (collect_batch_wf client cfg))
    as [S1 [doc [Hrun [Hdoc Hent]]]].
  assert (Hdemo : exists fs' r,
             demo client today cfg fs = (fs', r)
             /\ json_readme fs' = Some (Doc S1) /\ md_readme fs' = Some doc).
  { unfold demo. rewrite cleanup_settings_cases, Hc, Hp, Hj, Hrun.
    cbv beta iota.
    cbn [json_readme md_readme json_gitpage md_gitpage].
    destruct (cfg_publish_gitpage cfg).
    - destruct (run_target today cfg true keep_days (collect client cfg)
                  false true false (json_gitpage fs)) as [json [doc'|e]];
        eexists _, _; (split; [reflexivity|]); split; reflexivity.
    - eexists _, _. split; [reflexivity|]. split; reflexivity. }
  destruct Hdemo as [fs' [r [Hd [H1 H2]]]].
  exists fs', r, S1, doc. split; [exact Hd|]. split; [exact H1|].
  split; [exact H2|]. split; [exact Hdoc|]. split; [|split].
  - intros topic key row Hl. now rewrite Hent, Hl.
  - intros topic key row Hl He. rewrite Hent, Hl in He.
    destruct ((0 <? total_papers
                      (prune_all (toordinal today - keep_days) S))%nat
              && negb (configured (cfg_kv cfg) topic)); [discriminate|].
    destruct (entry S topic key) as [row'|]; [|discriminate].
    destruct (keeps (toordinal today - keep_days) row') eqn:Ek;
      [|discriminate].
    injection He as <-. split; [reflexivity | exact Ek].
  - intros topic key row Hl Hconf He Hkeep. rewrite Hent, Hl, Hconf, He, Hkeep.
    cbn [negb]. now rewrite andb_false_r.
Qed.

Lemma demo_cleanup_before_merge_witness :
  cfg_date_range_enabled daily_config = false
  /\ cfg_cleanup daily_config = Some (mkcleanup (Some true) (Some 30%Z))
  /\ (0 < 30)%Z
  /\ (1 <= toordinal retention_today - 30)%Z
  /\ cfg_publish_readme daily_config = true
  /\ store_wf retention_store
  /\ last_row (concat (collect two_results_client daily_config))
       "SLAM" "hep-th/9901001" = Some row_1999
  /\ exists fs' r S1,
       demo two_results_client retention_today daily_config
         (mkfiles (Some (Doc retention_store)) None None None) = (fs', r)
       /\ json_readme fs' = Some (Doc S1)
       /\ entry S1 "SLAM" "hep-th/9901001" = Some row_1999.
Proof.
  split; [reflexivity|]. split; [reflexivity|]. split; [reflexivity|].
  split; [vm_compute; discriminate|]. split; [reflexivity|].
  split; [apply store_wfb_sound; reflexivity|]. split; [reflexivity|].
  destruct (demo_cleanup_before_merge two_results_client retention_today
              daily_config 30
              (mkfiles (Some (Doc retention_store)) None None None)
              retention_store eq_refl eq_refl eq_refl
              ltac:(vm_compute; discriminate) eq_refl eq_refl
              (store_wfb_sound retention_store eq_refl))
    as [fs' [r [S1 [doc [Hd [Hj [_ [_ [Hin _]]]]]]]]].
  exists fs', r, S1. split; [exact Hd|]. split; [exact Hj|].
  apply Hin. reflexivity.
Defined.
